(** * pipmap: a shallow embedding of [pipmap/mapper.py]

    The class [Mapper] reads a requirements file, installs every
    [name==version] pair with pip, looks the installed package up under
    site-packages and prints one summary record per package.

    Python values are modelled as follows.
    - [str] is [string]; a character is a code point below 256.
    - a [dict] is an association list in insertion order with unique keys
      (Python dicts iterate in insertion order, and [_format] depends on it).
    - the dynamically typed values stored in [_pkgs_map] are [pyval].
    - the file system and the subprocess are oracles over an abstract world.
    - a method of the class is a function from the state to a result
      (a value or a raised exception) and the next state; the state holds
      the instance, the world and the trace of what the run did (log calls,
      prints, subprocess calls, file tests and file opens).

    The module imports [Iterable] from [collections], so it loads on
    Python 3.6 to 3.9; the model is of the loaded module. The subprocess is
    taken to start and its output to decode, and a file that opens is taken
    to decode: what a method does when [subprocess.run] or [readlines]
    itself fails is outside the model, and no statement below speaks of it.
    The [debug] flag of [__init__] only configures logging; a log call is
    an event of the trace whatever the flag, and where its record is shown
    (nowhere, stderr, or stdout under [debug]) is not modelled. The
    [print] calls are events of their own.

    Layout: the model ([PyStr], [Json], [Mapper]), the words of the
    specification and of the further properties ([SplitSpec],
    [ResolverSpec], [RunSpec], [StripSpec], [ExtraSpec]), the example
    script ([Example]), a concrete world ([Testbed]), then the proofs
    ([PyStrFacts], [DictFacts], [MapperFacts], [ExtraFacts]) and the
    concrete runs ([Scenarios], [ExtraScenarios]). *)

From Stdlib Require Import String Ascii List Bool Arith ZArith Lia.
Import ListNotations.
Open Scope string_scope.

(** ** Python strings *)

Module PyStr.

(** [str.isspace] on one character below 256: TAB..CR, FS..US, SPACE, NEL, NBSP. *)
Definition isspace (c : ascii) : bool :=
  let n := nat_of_ascii c in
  (((9 <=? n)%nat && (n <=? 13)%nat) || ((28 <=? n)%nat && (n <=? 32)%nat)
   || (n =? 133)%nat || (n =? 160)%nat)%bool.

Fixpoint lstrip (s : string) : string :=
  match s with
  | EmptyString => EmptyString
  | String c s' => if isspace c then lstrip s' else s
  end.

Fixpoint rstrip (s : string) : string :=
  match s with
  | EmptyString => EmptyString
  | String c s' =>
      match rstrip s' with
      | EmptyString => if isspace c then EmptyString else String c EmptyString
      | t => String c t
      end
  end.

(** [s.strip()] *)
Definition strip (s : string) : string := rstrip (lstrip s).

(** [s[len(p):]] when [s.startswith(p)] *)
Fixpoint strip_prefix (p s : string) : option string :=
  match p, s with
  | EmptyString, _ => Some s
  | String a p', String b s' => if Ascii.eqb a b then strip_prefix p' s' else None
  | String _ _, EmptyString => None
  end.

Definition startswith (s p : string) : bool :=
  match strip_prefix p s with Some _ => true | None => false end.

(** [s.endswith(suffix)]: some tail of [s] is [suffix]. *)
Fixpoint endswith (s suffix : string) : bool :=
  if String.eqb s suffix then true
  else match s with
       | EmptyString => false
       | String _ s' => endswith s' suffix
       end.

(** The scan behind [str.find] and [str.split(sep, 1)]: the text before and
    after the first (leftmost) occurrence of [sep] in [s]. *)
Fixpoint partition_first (s sep : string) : option (string * string) :=
  match strip_prefix sep s with
  | Some rest => Some (EmptyString, rest)
  | None =>
      match s with
      | EmptyString => None
      | String c s' =>
          match partition_first s' sep with
          | Some (k, v) => Some (String c k, v)
          | None => None
          end
      end
  end.

(** [s.find(sub)]: the index of the first occurrence, or -1. *)
Definition find (s sub : string) : Z :=
  match partition_first s sub with
  | Some (k, _) => Z.of_nat (String.length k)
  | None => (-1)%Z
  end.

(** [s.replace(old, new)] for one-character [old] and [new]. *)
Fixpoint replace (s : string) (old new : ascii) : string :=
  match s with
  | EmptyString => EmptyString
  | String c s' => String (if Ascii.eqb c old then new else c) (replace s' old new)
  end.

(** [os.path.join(a, b)] of posixpath, for two components. *)
Definition os_path_join (a b : string) : string :=
  if startswith b "/" then b
  else if (String.eqb a EmptyString || endswith a "/")%bool then a ++ b
  else a ++ "/" ++ b.

End PyStr.

(** ** Python values, dicts and exceptions *)

(** The values the program stores without a static type. *)
#[warnings="-register-all"]
Inductive pyval : Type :=
| PyNone
| PyStr (s : string)
| PyList (l : list pyval)
| PyDict (d : list (string * pyval)).

(** A [dict] with [str] keys, in insertion order. *)
Definition dict (V : Type) : Type := list (string * V).

(** [d.get(k)] *)
Fixpoint dict_get {V : Type} (d : dict V) (k : string) : option V :=
  match d with
  | [] => None
  | (k', v) :: d' => if String.eqb k' k then Some v else dict_get d' k
  end.

(** [d[k] = v]: a known key keeps its place and takes the new value, a new
    key goes to the end. *)
Fixpoint dict_set {V : Type} (d : dict V) (k : string) (v : V) : dict V :=
  match d with
  | [] => [(k, v)]
  | (k', v') :: d' =>
      if String.eqb k' k then (k', v) :: d' else (k', v') :: dict_set d' k v
  end.

Definition keys {V : Type} (d : dict V) : list string := List.map fst d.

Inductive exn : Type :=
| Exception (msg : string)
| AttributeError (msg : string)
| ValueError (msg : string)
| OSError (path : string).

Inductive result (A : Type) : Type :=
| Ok (a : A)
| Raise (e : exn).
Arguments Ok {A} a.
Arguments Raise {A} e.

(** Truth value of a [str]: non-empty. *)
Definition truthy (s : string) : bool := negb (String.eqb s EmptyString).

(** [v.get(k, default)] on a dynamically typed value: only a dict has [get]. *)
Definition py_get (v : pyval) (k : string) (default : pyval) : result pyval :=
  match v with
  | PyDict d => Ok (match dict_get d k with Some x => x | None => default end)
  | PyNone => Raise (AttributeError "'NoneType' object has no attribute 'get'")
  | PyStr _ => Raise (AttributeError "'str' object has no attribute 'get'")
  | PyList _ => Raise (AttributeError "'list' object has no attribute 'get'")
  end.

Definition py_of_strs (l : list string) : pyval := PyList (List.map PyStr l).
Definition py_of_strdict (d : dict string) : pyval :=
  PyDict (List.map (fun kv => (fst kv, PyStr (snd kv))) d).
Definition py_of_option {A : Type} (f : A -> pyval) (o : option A) : pyval :=
  match o with Some a => f a | None => PyNone end.

(** ** [json.dumps] with its defaults (ensure_ascii, separators ", " and ": ") *)

Module Json.

Definition dquote : string := String (ascii_of_nat 34) EmptyString.

Definition hex_digit (n : nat) : ascii :=
  if (n <? 10)%nat then ascii_of_nat (48 + n) else ascii_of_nat (87 + n).

Definition escape_char (c : ascii) : string :=
  let n := nat_of_ascii c in
  if (n =? 34)%nat then "\" ++ dquote
  else if (n =? 92)%nat then "\\"
  else if (n =? 10)%nat then "\n"
  else if (n =? 13)%nat then "\r"
  else if (n =? 9)%nat then "\t"
  else if (n =? 8)%nat then "\b"
  else if (n =? 12)%nat then "\f"
  else if ((n <? 32) || (126 <? n))%nat%bool
       then "\u00" ++ String (hex_digit (n / 16)) (String (hex_digit (n mod 16)) EmptyString)
  else String c EmptyString.

Fixpoint escape (s : string) : string :=
  match s with
  | EmptyString => EmptyString
  | String c s' => escape_char c ++ escape s'
  end.

Definition dumps_str (s : string) : string := dquote ++ escape s ++ dquote.

Fixpoint dumps (v : pyval) : string :=
  match v with
  | PyNone => "null"
  | PyStr s => dumps_str s
  | PyList l =>
      "[" ++ (fix items (l : list pyval) : string :=
                match l with
                | [] => EmptyString
                | [x] => dumps x
                | x :: l' => dumps x ++ ", " ++ items l'
                end) l ++ "]"
  | PyDict d =>
      "{" ++ (fix items (d : list (string * pyval)) : string :=
                match d with
                | [] => EmptyString
                | [(k, x)] => dumps_str k ++ ": " ++ dumps x
                | (k, x) :: d' => dumps_str k ++ ": " ++ dumps x ++ ", " ++ items d'
                end) d ++ "}"
  end.

End Json.

(** ** The world outside the program, and what a run leaves behind *)

Inductive level : Type := DEBUG | WARNING | ERROR.

(** What a call does that can be seen from outside, in the order it happens.
    A log call keeps the text of its f-string and the values it formats. *)
Inductive event : Type :=
| EvLog (lvl : level) (template : string) (args : list pyval)
| EvPrint (text : string)
| EvRun (cmd : list string)
| EvExists (path : string)
| EvOpen (path : string).

(** The collaborators the program does not own: [subprocess.run] with its
    decoded (stdout, stderr), taken to return; [os.path.exists]; and
    [open(path).readlines()] ([None] when the open fails; the lines of a
    file that opens are taken to decode). *)
Record Env (World : Type) : Type := {
  subprocess_run : list string -> World -> (string * string) * World;
  os_path_exists : World -> string -> bool;
  open_readlines : World -> string -> option (list string)
}.
Arguments subprocess_run {World} e cmd w.
Arguments os_path_exists {World} e w path.
Arguments open_readlines {World} e w path.

(** The fields [__init__] sets. Only [_pkgs_map] is ever assigned again. *)
Record Mapper : Type := {
  _regs : string;
  _fmt : string;
  _site_pkgs : string;
  _verbose : string;
  _pkgs_map : dict pyval
}.

(** [Mapper(reqs, fmt)]; [site_pkgs] is [site.getsitepackages()[0]]. The
    [debug] flag sets no field: it only configures where log records are
    shown (on stdout when it is set), which the model leaves open. *)
Definition Mapper_init (reqs fmt site_pkgs : string) : Mapper :=
  {| _regs := reqs; _fmt := fmt; _site_pkgs := site_pkgs;
     _verbose := "v"; _pkgs_map := [] |}.

Record State (World : Type) : Type := {
  self : Mapper;
  world : World;
  trace : list event
}.
Arguments self {World} s.
Arguments world {World} s.
Arguments trace {World} s.
Arguments Build_State {World} self world trace.

(** The argument of [_split]: something with [__iter__] that yields lines, or
    not ([shown] is what the f-string prints for it). *)
Inductive py_data : Type :=
| Iterable (lines : list string)
| NotIterable (shown : string).

(** ** The methods of [Mapper] *)

Module Mapper.

Import PyStr.

Section Methods.

Variable World : Type.
Variable env : Env World.

(** A method: from the state to what it returns or raises, and the next state. *)
Definition M (A : Type) : Type := State World -> result A * State World.

Definition ret {A : Type} (a : A) : M A := fun st => (Ok a, st).

Definition bind {A B : Type} (c : M A) (k : A -> M B) : M B :=
  fun st =>
    match c st with
    | (Ok a, st') => k a st'
    | (Raise e, st') => (Raise e, st')
    end.

Definition raise {A : Type} (e : exn) : M A := fun st => (Raise e, st).

Notation "x <- c1 ;; c2" := (bind c1 (fun x => c2))
  (at level 61, c1 at next level, right associativity).
Notation "c1 ;; c2" := (bind c1 (fun _ => c2))
  (at level 61, right associativity).

Definition emit (e : event) : M unit :=
  fun st => (Ok tt, {| self := self st; world := world st; trace := trace st ++ [e] |}).

Definition log (lvl : level) (template : string) (args : list pyval) : M unit :=
  emit (EvLog lvl template args).

Definition print (text : string) : M unit := emit (EvPrint text).

Definition get_self : M Mapper := fun st => (Ok (self st), st).

Definition set_pkgs_map (k : string) (v : pyval) : M unit :=
  fun st =>
    let m := self st in
    (Ok tt,
     {| self := {| _regs := _regs m; _fmt := _fmt m; _site_pkgs := _site_pkgs m;
                   _verbose := _verbose m; _pkgs_map := dict_set (_pkgs_map m) k v |};
        world := world st; trace := trace st |}).

Definition exists_ (path : string) : M bool :=
  emit (EvExists path) ;;
  fun st => (Ok (os_path_exists env (world st) path), st).

Definition readlines (path : string) : M (list string) :=
  emit (EvOpen path) ;;
  fun st =>
    match open_readlines env (world st) path with
    | Some lines => (Ok lines, st)
    | None => (Raise (OSError path), st)
    end.

Definition run (cmd : list string) : M (string * string) :=
  emit (EvRun cmd) ;;
  fun st =>
    let '(out, w') := subprocess_run env cmd (world st) in
    (Ok out, {| self := self st; world := w'; trace := trace st |}).

Definition when (b : bool) (c : M unit) : M unit := if b then c else ret tt.

(** [_cmd] *)
Definition _cmd (cmd : list string) : M (string * string) :=
  log DEBUG "Start to execute cmd: {cmd}" [py_of_strs cmd] ;;
  result <- run cmd ;;
  let stdout := fst result in
  log DEBUG "cmd: {cmd}. stdout: {stdout}" [py_of_strs cmd; PyStr stdout] ;;
  let stderr := snd result in
  when (truthy stderr)
    (log DEBUG "cmd: {cmd}. stderr: {stderr}" [py_of_strs cmd; PyStr stderr]) ;;
  ret (stdout, stderr).

(** The list comprehension of [_split]:
    [[r.strip().split(delimiter, 1) for r in data if r.find(delimiter) > -1]].
    [str.split] raises on an empty separator. *)
Definition str_split1 (s sep : string) : result (list string) :=
  if String.eqb sep EmptyString then Raise (ValueError "empty separator")
  else Ok (match partition_first s sep with
           | Some (k, v) => [k; v]
           | None => [s]
           end).

Fixpoint split_lines (data : list string) (delimiter : string)
  : result (list (list string)) :=
  match data with
  | [] => Ok []
  | r :: data' =>
      if (find r delimiter >? -1)%Z then
        match str_split1 (strip r) delimiter with
        | Raise e => Raise e
        | Ok parts =>
            match split_lines data' delimiter with
            | Raise e => Raise e
            | Ok reqs => Ok (parts :: reqs)
            end
        end
      else split_lines data' delimiter
  end.

(** The dict comprehension of [_split]:
    [{key.strip(): value.strip() for (key, value) in reqs}].
    Unpacking raises unless the item has two elements. *)
Fixpoint dict_of_parts (reqs : list (list string)) (acc : dict string)
  : result (dict string) :=
  match reqs with
  | [] => Ok acc
  | [key; value] :: reqs' => dict_of_parts reqs' (dict_set acc (strip key) (strip value))
  | (_ :: _ :: _ :: _) :: _ => Raise (ValueError "too many values to unpack (expected 2)")
  | [_] :: _ => Raise (ValueError "not enough values to unpack (expected 2, got 1)")
  | [] :: _ => Raise (ValueError "not enough values to unpack (expected 2, got 0)")
  end.

Definition lift {A : Type} (r : result A) : M A := fun st => (r, st).

(** [_split] *)
Definition _split (data : py_data) (delimiter : string) : M (dict string) :=
  match data with
  | NotIterable shown =>
      log ERROR "Data are not iterable instance: {data}" [PyStr shown] ;;
      raise (Exception ("Data are not iterable instance: " ++ shown))
  | Iterable lines =>
      reqs <- lift (split_lines lines delimiter) ;;
      lift (dict_of_parts reqs [])
  end.

(** The template [{name}-{version}.{suffix}-info] of [_get_pkg_path]. *)
Definition pkg_path_tmpl (name version suffix : string) : string :=
  name ++ "-" ++ version ++ "." ++ suffix ++ "-info".

Definition suffixes : list string := ["egg"; "dist"].

(** The [for suf in suffixes] loop of [_get_pkg_path] with its [else] branch
    (the loop has no [break], so the branch runs whenever the loop ends) and
    the [return None] after it. *)
Fixpoint _get_pkg_path_loop (sufs : list string) (name version : string)
  : M (option string) :=
  match sufs with
  | [] =>
      log ERROR "Package dir not found for {name}:{version}" [PyStr name; PyStr version] ;;
      ret None
  | suf :: sufs' =>
      m <- get_self ;;
      let _pkg_location := pkg_path_tmpl name version suf in
      let _pkg_path := os_path_join (_site_pkgs m) _pkg_location in
      let _pkg_location2 := pkg_path_tmpl (replace name "-" "_") version suf in
      let _pkg_path2 := os_path_join (_site_pkgs m) _pkg_location2 in
      log DEBUG "pkg:{name}:{version} check location {_pkg_path}"
        [PyStr name; PyStr version; PyStr _pkg_path] ;;
      b <- exists_ _pkg_path ;;
      if b then ret (Some _pkg_path)
      else
        b2 <- exists_ _pkg_path2 ;;
        if b2 then ret (Some _pkg_path2)
        else _get_pkg_path_loop sufs' name version
  end.

(** [_get_pkg_path] *)
Definition _get_pkg_path (name version : string) : M (option string) :=
  print ("name: $" ++ name) ;;
  print ("version: $" ++ version) ;;
  _get_pkg_path_loop suffixes name version.

(** [_read] *)
Definition _read (path : string) : M (list string) :=
  log DEBUG "Start to read file: {path}" [PyStr path] ;;
  b <- exists_ path ;;
  if negb b then
    log ERROR "File not found in the path: {path}" [PyStr path] ;;
    raise (Exception ("File not found in the path: " ++ path))
  else
    lines <- readlines path ;;
    log DEBUG "Finished reading the file: {lines}" [py_of_strs lines] ;;
    ret lines.

(** [_install] *)
Definition _install (name version : string) : M (string * string) :=
  r <- _cmd ["pip"; "install"; name ++ "==" ++ version] ;;
  let res := fst r in
  let err := snd r in
  when (truthy err)
    (log ERROR "Package {name}:{version} not installed: {err}"
       [PyStr name; PyStr version; PyStr err]) ;;
  ret (res, err).

(** The file [_get_pkg_meta] reads. *)
Definition meta_file_of (location : string) : string :=
  if endswith location "egg-info" then "PKG-INFO" else "METADATA".

(** [_get_pkg_meta] *)
Definition _get_pkg_meta (location : string) : M (option (dict string)) :=
  log DEBUG "Get meta from location: {location}" [PyStr location] ;;
  let _meta_file := meta_file_of location in
  b <- exists_ (os_path_join location _meta_file) ;;
  if negb b then
    log WARNING "{_meta_file} not found in the {location}" [PyStr _meta_file; PyStr location] ;;
    ret None
  else
    _file_data <- _read (os_path_join location _meta_file) ;;
    _meta_data <- _split (Iterable _file_data) ":" ;;
    ret (Some _meta_data).

(** [_get_pkg_top_level]; its debug line is not an f-string in the source. *)
Definition _get_pkg_top_level (location : string) : M (option (list string)) :=
  log DEBUG "Get top level from location: {location}" [] ;;
  let _toplevel_file := "top_level.txt" in
  b <- exists_ (os_path_join location _toplevel_file) ;;
  if negb b then
    log WARNING "{_toplevel_file} not found in the {location}"
      [PyStr _toplevel_file; PyStr location] ;;
    ret None
  else
    _file_data <- _read (os_path_join location _toplevel_file) ;;
    let _modules := List.map strip _file_data in
    ret (Some _modules).

(** [_pkg_meta.get("Name") or name]: [None] has no [get]; a missing or empty
    [Name] gives [name]. *)
Definition name_or (_pkg_meta : option (dict string)) (name : string) : result string :=
  match _pkg_meta with
  | None => Raise (AttributeError "'NoneType' object has no attribute 'get'")
  | Some meta =>
      Ok (match dict_get meta "Name" with
          | Some n => if truthy n then n else name
          | None => name
          end)
  end.

(** The dict literal [_add_pkg_data] stores. *)
Definition pkg_record (_pkg_meta : option (dict string)) (name version : string)
  (_pkg_modules : option (list string)) : pyval :=
  PyDict [("metadata", py_of_option py_of_strdict _pkg_meta);
          ("requirements", PyDict [("name", PyStr name);
                                   ("version", PyStr version);
                                   ("raw", PyStr (name ++ "==" ++ version))]);
          ("top_level", py_of_option py_of_strs _pkg_modules)].

(** [_add_pkg_data] *)
Definition _add_pkg_data (name version : string) : M unit :=
  _pkg_location <- _get_pkg_path name version ;;
  match _pkg_location with
  | None => ret tt
  | Some location =>
      log DEBUG "pkg{name}:{version} | location: {_pkg_location}"
        [PyStr name; PyStr version; PyStr location] ;;
      _pkg_meta <- _get_pkg_meta location ;;
      log DEBUG "pkg{name}:{version} | meta: {_pkg_meta}"
        [PyStr name; PyStr version; py_of_option py_of_strdict _pkg_meta] ;;
      _pkg_name <- lift (name_or _pkg_meta name) ;;
      _pkg_modules <- _get_pkg_top_level location ;;
      log DEBUG "pkg{name}:{version} | _pkg_modules: {_pkg_modules}"
        [PyStr name; PyStr version; py_of_option py_of_strs _pkg_modules] ;;
      set_pkgs_map _pkg_name (pkg_record _pkg_meta name version _pkg_modules)
  end.

(** [_reqs_name != pkg], where [pkg] is a [str] key. *)
Definition py_ne_str (v : pyval) (s : string) : bool :=
  match v with
  | PyStr t => negb (String.eqb t s)
  | _ => true
  end.

(** The dict [_pkg] that [_format] builds for one item of [_pkgs_map]. *)
Definition summary (pkg : string) (data : pyval) : result pyval :=
  match py_get data "requirements" (PyDict []) with
  | Raise e => Raise e
  | Ok reqs =>
  match py_get reqs "name" PyNone with
  | Raise e => Raise e
  | Ok _reqs_name =>
  match py_get data "metadata" (PyDict []) with
  | Raise e => Raise e
  | Ok meta =>
  match py_get meta "Version" (PyStr "UNKNOWN") with
  | Raise e => Raise e
  | Ok version =>
  match py_get data "top_level" (PyList []) with
  | Raise e => Raise e
  | Ok modules =>
      Ok (PyDict [("name", PyStr pkg);
                  ("version", version);
                  ("modules", modules);
                  ("alias", if py_ne_str _reqs_name pkg then _reqs_name else PyStr "")])
  end end end end end.

(** The [for pkg, data in self._pkgs_map.items()] loop of [_format]. *)
Fixpoint summaries (items : dict pyval) : result (list pyval) :=
  match items with
  | [] => Ok []
  | (pkg, data) :: items' =>
      match summary pkg data with
      | Raise e => Raise e
      | Ok _pkg =>
          match summaries items' with
          | Raise e => Raise e
          | Ok pkgs_info => Ok (_pkg :: pkgs_info)
          end
      end
  end.

(** [_format]: a JSON text ([PyStr]) or the list itself. *)
Definition _format : M pyval :=
  m <- get_self ;;
  pkgs_info <- lift (if String.eqb (_verbose m) "v" then summaries (_pkgs_map m) else Ok []) ;;
  if String.eqb (_fmt m) "json" then ret (PyStr (Json.dumps (PyList pkgs_info)))
  else ret (PyList pkgs_info).

(** The [for name, version in reqs_dict.items()] loop of [map]. *)
Fixpoint map_loop (items : dict string) : M unit :=
  match items with
  | [] => ret tt
  | (name, version) :: items' =>
      r <- _install name version ;;
      let err := snd r in
      if truthy err then
        log ERROR "Problem to install {name}:{version}. Error: {err}"
          [PyStr name; PyStr version; PyStr err] ;;
        map_loop items'
      else
        _add_pkg_data name version ;;
        map_loop items'
  end.

(** [map] *)
Definition map : M pyval :=
  _cmd ["pip"; "install"; "--upgrade"; "pip"] ;;
  m <- get_self ;;
  reqs_lines <- _read (_regs m) ;;
  reqs_dict <- _split (Iterable reqs_lines) "==" ;;
  map_loop reqs_dict ;;
  _format.

End Methods.

Arguments ret {World A} a st.
Arguments bind {World A B} c k st.
Arguments raise {World A} e st.
Arguments lift {World A} r st.
Arguments get_self {World} st.
Arguments emit {World} e st.
Arguments log {World} lvl template args st.
Arguments print {World} text st.
Arguments set_pkgs_map {World} k v st.
Arguments when {World} b c st.
Arguments exists_ {World} env path st.
Arguments readlines {World} env path st.
Arguments run {World} env cmd st.
Arguments _cmd {World} env cmd st.
Arguments _split {World} data delimiter st.
Arguments _get_pkg_path_loop {World} env sufs name version st.
Arguments _get_pkg_path {World} env name version st.
Arguments _read {World} env path st.
Arguments _install {World} env name version st.
Arguments _get_pkg_meta {World} env location st.
Arguments _get_pkg_top_level {World} env location st.
Arguments _add_pkg_data {World} env name version st.
Arguments _format {World} st.
Arguments map_loop {World} env items st.
Arguments map {World} env st.

End Mapper.

(** ** The specification's reading of the splitting routine *)

Module SplitSpec.

Import PyStr.

(** Following the specification's words: a line that contains the
    delimiter is split once at its first occurrence, and key and value are
    stripped on both sides; a line without the delimiter gives nothing. *)
Fixpoint spec_pairs (lines : list string) (delimiter : string) : list (string * string) :=
  match lines with
  | [] => []
  | line :: lines' =>
      match partition_first line delimiter with
      | Some (key, value) => (strip key, strip value) :: spec_pairs lines' delimiter
      | None => spec_pairs lines' delimiter
      end
  end.

(** The mapping the pairs are inserted into, one after the other. *)
Definition spec_split (lines : list string) (delimiter : string) : dict string :=
  fold_left (fun acc kv => dict_set acc (fst kv) (snd kv)) (spec_pairs lines delimiter) [].

(** The value of the last pair with key [k]. *)
Fixpoint last_value (pairs : list (string * string)) (k : string) : option string :=
  match pairs with
  | [] => None
  | (k', v) :: pairs' =>
      match last_value pairs' k with
      | Some v' => Some v'
      | None => if String.eqb k' k then Some v else None
      end
  end.

(** The delimiters the routine is written for: not empty, and no whitespace
    at either end (as in "==" and ":"). *)
Definition head_nonspace (d : string) : bool :=
  match d with
  | EmptyString => false
  | String c _ => negb (isspace c)
  end.

Fixpoint last_nonspace (d : string) : bool :=
  match d with
  | EmptyString => false
  | String c EmptyString => negb (isspace c)
  | String _ d' => last_nonspace d'
  end.

Definition delimiter_ok (d : string) : bool := head_nonspace d && last_nonspace d.

End SplitSpec.

(** ** The specification's reading of the location resolver *)

Module ResolverSpec.

Import PyStr.

(** The four candidates in the order the specification lists them. *)
Definition spec_candidates (site name version : string) : list string :=
  [os_path_join site (Mapper.pkg_path_tmpl name version "egg");
   os_path_join site (Mapper.pkg_path_tmpl name version "dist");
   os_path_join site (Mapper.pkg_path_tmpl (replace name "-" "_") version "egg");
   os_path_join site (Mapper.pkg_path_tmpl (replace name "-" "_") version "dist")].

(** The four candidates in the order the loop of [_get_pkg_path] builds them. *)
Definition code_candidates (site name version : string) : list string :=
  [os_path_join site (Mapper.pkg_path_tmpl name version "egg");
   os_path_join site (Mapper.pkg_path_tmpl (replace name "-" "_") version "egg");
   os_path_join site (Mapper.pkg_path_tmpl name version "dist");
   os_path_join site (Mapper.pkg_path_tmpl (replace name "-" "_") version "dist")].

(** The first path of a list that exists. *)
Definition first_existing {World : Type} (env : Env World) (w : World)
  (paths : list string) : option string :=
  List.find (os_path_exists env w) paths.

(** The paths a run asks [os.path.exists] about, in order. *)
Fixpoint probes (evs : list event) : list string :=
  match evs with
  | [] => []
  | EvExists p :: evs' => p :: probes evs'
  | _ :: evs' => probes evs'
  end.

End ResolverSpec.

(** ** Words for what a run does *)

Module RunSpec.

Import PyStr.

(** The paths asked about when the candidates are tried one after the other
    and the first that exists ends the search. *)
Fixpoint probed_until (ex : string -> bool) (paths : list string) : list string :=
  match paths with
  | [] => []
  | p :: paths' => p :: (if ex p then [] else probed_until ex paths')
  end.

(** The two paths the loop of [_get_pkg_path] builds for each suffix, in the
    order it tests them. *)
Definition loop_candidates (site name version : string) (sufs : list string) : list string :=
  flat_map (fun suf =>
              [os_path_join site (Mapper.pkg_path_tmpl name version suf);
               os_path_join site (Mapper.pkg_path_tmpl (replace name "-" "_") version suf)]) sufs.

(** The log line of [_get_pkg_path] when no candidate exists. *)
Definition not_found_logged (name version : string) : event :=
  EvLog ERROR "Package dir not found for {name}:{version}" [PyStr name; PyStr version].

(** The stderr text of [pip install name==version] in world [w]. *)
Definition install_stderr {World : Type} (env : Env World) (w : World)
  (name version : string) : string :=
  snd (fst (subprocess_run env ["pip"; "install"; name ++ "==" ++ version] w)).

(** The requirement name a stored record was made for. *)
Definition req_name_of (data : pyval) : option string :=
  match data with
  | PyDict d =>
      match dict_get d "requirements" with
      | Some (PyDict r) =>
          match dict_get r "name" with
          | Some (PyStr n) => Some n
          | _ => None
          end
      | _ => None
      end
  | _ => None
  end.

(** The PackageMap holds no record made for requirement [n]. *)
Definition no_record_for (n : string) (pm : dict pyval) : Prop :=
  forall pkg data, In (pkg, data) pm -> req_name_of data <> Some n.

(** Every key of the PackageMap of [m] is a key of the PackageMap of [m']. *)
Definition keys_kept (m m' : Mapper) : Prop :=
  forall k, In k (keys (_pkgs_map m)) -> In k (keys (_pkgs_map m')).

(** Every record for requirement [n] in the PackageMap of [m'] is an entry
    of the PackageMap of [m]: nothing was stored for [n] in between. *)
Definition no_new_record (n : string) (m m' : Mapper) : Prop :=
  forall pkg data,
    In (pkg, data) (_pkgs_map m') -> req_name_of data = Some n -> In (pkg, data) (_pkgs_map m).

(** The configuration fields of [m] and [m'] agree. *)
Definition config_kept (m m' : Mapper) : Prop :=
  _regs m' = _regs m /\ _fmt m' = _fmt m /\ _site_pkgs m' = _site_pkgs m
  /\ _verbose m' = _verbose m.

(** [m] after [self._pkgs_map[k] = v]. *)
Definition stored (m : Mapper) (k : string) (v : pyval) : Mapper :=
  {| _regs := _regs m; _fmt := _fmt m; _site_pkgs := _site_pkgs m;
     _verbose := _verbose m; _pkgs_map := dict_set (_pkgs_map m) k v |}.

(** What calling [get] on None raises. *)
Definition none_has_no_get : exn :=
  AttributeError "'NoneType' object has no attribute 'get'".

(** [_pkg_meta.get("Name") or name] for a parsed metadata dict. *)
Definition canonical_name (meta : dict string) (name : string) : string :=
  match dict_get meta "Name" with
  | Some n => if truthy n then n else name
  | None => name
  end.

(** What [_get_pkg_top_level] returns, by what is on the disk. *)
Definition top_level_is {World : Type} (env : Env World) (w : World) (loc : string)
  (mods : option (list string)) : Prop :=
  match mods with
  | None => os_path_exists env w (os_path_join loc "top_level.txt") = false
  | Some ms =>
      os_path_exists env w (os_path_join loc "top_level.txt") = true
      /\ exists lines, open_readlines env w (os_path_join loc "top_level.txt") = Some lines
                       /\ ms = List.map strip lines
  end.

(** Somebody else changes the world between two calls. *)
Definition with_world {World : Type} (st : State World) (w : World) : State World :=
  {| self := self st; world := w; trace := trace st |}.

(** The events a call added to the trace. *)
Definition added {World : Type} (st st' : State World) (evs : list event) : Prop :=
  trace st' = (trace st ++ evs)%list.

(** [c] leaves the instance and the world as they are and only adds events. *)
Definition quiet {World A : Type} (c : Mapper.M World A) : Prop :=
  forall st, self (snd (c st)) = self st /\ world (snd (c st)) = world st
             /\ exists evs, added st (snd (c st)) evs.

(** [c] leaves the instance as it is (the world may change). *)
Definition keeps_self {World A : Type} (c : Mapper.M World A) : Prop :=
  forall st, self (snd (c st)) = self st.

(** The instance before and after [c] stands in the relation [R]. *)
Definition self_rel {World : Type} (R : Mapper -> Mapper -> Prop) {A : Type}
  (c : Mapper.M World A) : Prop :=
  forall st, R (self st) (self (snd (c st))).

(** Storing a record for the requirement [name], [version] respects [R]. *)
Definition stores_ok (R : Mapper -> Mapper -> Prop) (name version : string) : Prop :=
  forall m k meta mods, R m (stored m k (Mapper.pkg_record meta name version mods)).

End RunSpec.

(** ** Words for what stripping a line means *)

Module StripSpec.

Import PyStr.

(** Every character of [s] is whitespace. *)
Fixpoint all_space (s : string) : bool :=
  match s with
  | EmptyString => true
  | String c s' => isspace c && all_space s'
  end.

(** [s] does not begin with whitespace. *)
Definition starts_clean (s : string) : bool :=
  match s with
  | EmptyString => true
  | String c _ => negb (isspace c)
  end.

(** [s] does not end with whitespace. *)
Fixpoint ends_clean (s : string) : bool :=
  match s with
  | EmptyString => true
  | String c EmptyString => negb (isspace c)
  | String _ s' => ends_clean s'
  end.

(** [entry] is [line] stripped of its surrounding whitespace: [line] is
    whitespace, then [entry], then whitespace, and [entry] neither begins
    nor ends with whitespace. *)
Definition stripped_of (line entry : string) : Prop :=
  exists l r,
    line = l ++ entry ++ r
    /\ all_space l = true /\ all_space r = true
    /\ starts_clean entry = true /\ ends_clean entry = true.

End StripSpec.

(** ** More words for what a run does: subprocess calls, printed lines,
    manifest lines, the records [map] stores *)

Module ExtraSpec.

Import PyStr SplitSpec ResolverSpec RunSpec.

Definition is_run (e : event) : bool :=
  match e with EvRun _ => true | _ => false end.

Definition is_print (e : event) : bool :=
  match e with EvPrint _ => true | _ => false end.

Definition is_open (e : event) : bool :=
  match e with EvOpen _ => true | _ => false end.

(** [f] selects no log call, no file test and no file open. *)
Definition blind_to_files (f : event -> bool) : Prop :=
  (forall lvl template args, f (EvLog lvl template args) = false)
  /\ (forall path, f (EvExists path) = false)
  /\ (forall path, f (EvOpen path) = false).

(** [c] adds no event that [f] selects. *)
Definition unseen {World A : Type} (f : event -> bool) (c : Mapper.M World A) : Prop :=
  forall st, filter f (trace (snd (c st))) = filter f (trace st).

(** Of the events [f] selects, [c] adds exactly [evs], whatever it returns. *)
Definition adds {World A : Type} (f : event -> bool) (c : Mapper.M World A)
  (evs : list event) : Prop :=
  forall st, filter f (trace (snd (c st))) = (filter f (trace st) ++ evs)%list.

(** The command line of the self-upgrade in [map]. *)
Definition upgrade_cmd : list string := ["pip"; "install"; "--upgrade"; "pip"].

(** The command line [_install] builds. *)
Definition install_cmd (name version : string) : list string :=
  ["pip"; "install"; name ++ "==" ++ version].

Definition install_call (kv : string * string) : event :=
  EvRun (install_cmd (fst kv) (snd kv)).

(** The two lines [_get_pkg_path] prints; the dollar sign is in the source. *)
Definition printed_lines (name version : string) : list event :=
  [EvPrint ("name: $" ++ name); EvPrint ("version: $" ++ version)].

(** The texts of the [print] calls of a trace, in order. *)
Fixpoint print_texts (evs : list event) : list string :=
  match evs with
  | [] => []
  | EvPrint text :: evs' => text :: print_texts evs'
  | _ :: evs' => print_texts evs'
  end.

(** The texts of the two lines [_get_pkg_path] prints for a requirement. *)
Definition name_version_lines (kv : string * string) : list string :=
  ["name: $" ++ fst kv; "version: $" ++ snd kv].

(** What [c] prints is the two lines of some requirements, pair after pair. *)
Definition prints_pairs {World A : Type} (c : Mapper.M World A) : Prop :=
  forall st, exists done,
    print_texts (trace (snd (c st))) =
      (print_texts (trace st) ++ flat_map name_version_lines done)%list.

(** [c] occurs in [s]. *)
Fixpoint has_char (c : ascii) (s : string) : bool :=
  match s with
  | EmptyString => false
  | String a s' => if Ascii.eqb a c then true else has_char c s'
  end.

Definition newline : string := String (ascii_of_nat 10) EmptyString.

(** A manifest line as [readlines] gives it: name, "==", version, newline. *)
Definition manifest_line (kv : string * string) : string :=
  fst kv ++ "==" ++ snd kv ++ newline.

(** A name and a version that a manifest line gives back: both stripped,
    no equals sign in the name. *)
Definition plain_requirement (kv : string * string) : Prop :=
  strip (fst kv) = fst kv /\ strip (snd kv) = snd kv /\ has_char "=" (fst kv) = false.

(** Neither key nor value of an entry has whitespace at an end. *)
Definition stripped_entries (m : dict string) : Prop :=
  forall k v, In (k, v) m -> strip k = k /\ strip v = v.

(** An entry as [_add_pkg_data] stores it: a parsed metadata dict, the
    requirement with its raw text, the module list or None, under the
    canonical name. *)
Definition made_by_map (e : string * pyval) : Prop :=
  exists meta name version mods,
    e = (canonical_name meta name, Mapper.pkg_record (Some meta) name version mods).

(** Storing what [_add_pkg_data] stores for [name], [version] respects [R]. *)
Definition stores_made (R : Mapper -> Mapper -> Prop) (name version : string) : Prop :=
  forall m meta mods,
    R m (stored m (canonical_name meta name)
           (Mapper.pkg_record (Some meta) name version mods)).

(** [c] leaves the world as it is. *)
Definition keeps_world {World A : Type} (c : Mapper.M World A) : Prop :=
  forall st, world (snd (c st)) = world st.

(** The entry [_add_pkg_data] stores for [name], [version] when the disk
    is as in world [w]: under the first candidate directory that exists,
    the metadata file is there and opens, its lines split at the colon are
    the metadata, the stripped lines of top_level.txt (or None without the
    file) are the modules, the key is the canonical name. *)
Definition record_in_world {World : Type} (env : Env World) (site : string) (w : World)
  (name version : string) (e : string * pyval) : Prop :=
  exists loc mlines mods,
    first_existing env w (code_candidates site name version) = Some loc
    /\ os_path_exists env w (os_path_join loc (Mapper.meta_file_of loc)) = true
    /\ open_readlines env w (os_path_join loc (Mapper.meta_file_of loc)) = Some mlines
    /\ top_level_is env w loc mods
    /\ e = (canonical_name (spec_split mlines ":") name,
            Mapper.pkg_record (Some (spec_split mlines ":")) name version mods).

(** [e] is the entry of a requirement of [items], installed one after the
    other from world [w]: the install of that requirement, in the world it
    ran in, came back with empty stderr, and [e] is the entry for it on the
    disk that install left. *)
Fixpoint recorded_in_run {World : Type} (env : Env World) (site : string)
  (items : dict string) (w : World) (e : string * pyval) : Prop :=
  match items with
  | [] => False
  | (name, version) :: items' =>
      let w1 := snd (subprocess_run env (install_cmd name version) w) in
      (install_stderr env w name version = EmptyString
       /\ record_in_world env site w1 name version e)
      \/ recorded_in_run env site items' w1 e
  end.

(** Every entry of the PackageMap of [m] made by [map] stays one. *)
Definition records_made (m m' : Mapper) : Prop :=
  Forall made_by_map (_pkgs_map m) -> Forall made_by_map (_pkgs_map m').

(** A dict after the assignments [d[k] = v] of [sets], in order. *)
Definition sets_on {V : Type} (sets : list (string * V)) (d : dict V) : dict V :=
  fold_left (fun a kv => dict_set a (fst kv) (snd kv)) sets d.

(** [m] after the assignments [self._pkgs_map[k] = v] of [sets], in order. *)
Definition apply_sets (sets : list (string * pyval)) (m : Mapper) : Mapper :=
  fold_left (fun m kv => stored m (fst kv) (snd kv)) sets m.

(** Two outcomes agree: related values, or the same exception. *)
Definition same_outcome {A : Type} (RA : A -> A -> Prop) (r r' : result A) : Prop :=
  match r, r' with
  | Ok a, Ok a' => RA a a'
  | Raise e, Raise e' => e = e'
  | _, _ => False
  end.

(** [c] and [c'] do the same from any two states with the same world and
    the same configuration: the same assignments to the PackageMap, the
    same world afterwards, agreeing outcomes. *)
Definition same_run {World A : Type} (RA : A -> A -> Prop) (c c' : Mapper.M World A) : Prop :=
  forall st st',
    world st' = world st -> config_kept (self st) (self st') ->
    exists sets,
      self (snd (c st)) = apply_sets sets (self st)
      /\ self (snd (c' st')) = apply_sets sets (self st')
      /\ world (snd (c' st')) = world (snd (c st))
      /\ same_outcome RA (fst (c st)) (fst (c' st')).

(** [map] up to its last line: everything before [return self._format()]. *)
Definition map_until_format {World : Type} (env : Env World) : Mapper.M World unit :=
  Mapper.bind (Mapper._cmd env ["pip"; "install"; "--upgrade"; "pip"]) (fun _ =>
  Mapper.bind Mapper.get_self (fun m =>
  Mapper.bind (Mapper._read env (_regs m)) (fun reqs_lines =>
  Mapper.bind (Mapper._split (Iterable reqs_lines) "==") (fun reqs_dict =>
  Mapper.map_loop env reqs_dict)))).

(** The name fields of the records of an output. *)
Fixpoint names_of (infos : list pyval) : list (result pyval) :=
  match infos with
  | [] => []
  | s :: infos' => py_get s "name" PyNone :: names_of infos'
  end.

End ExtraSpec.

(** ** The example script [example/map_pkgs.py] *)

Module Example.

(** [main()]: a Mapper on requirements.txt with JSON output, and [map].
    [site_pkgs] is [site.getsitepackages()[0]] as [__init__] reads it. *)
Definition main {World : Type} (env : Env World) (site_pkgs : string) (w : World)
  : result pyval * State World :=
  Mapper.map env {| self := Mapper_init "requirements.txt" "json" site_pkgs;
                    world := w; trace := [] |}.

(** What the script leaves: the exit code, the value its own
    [print(pkg_info)] was called with (None when that line was not
    reached), the exception it reported on stderr (as [Error: ...]), the
    last state, whose trace holds the [print] calls made under [main]. *)
Record Exit (World : Type) : Type := {
  rc : Z;
  printed : option pyval;
  reported : option exn;
  final : State World
}.
Arguments rc {World} e.
Arguments printed {World} e.
Arguments reported {World} e.
Arguments final {World} e.

(** The [__main__] block: [rc = 1], then [main()], [print], [rc = 0] under
    [try], any [Exception] reported, [sys.exit(rc)]. Every exception of the
    model is an [Exception]. *)
Definition script {World : Type} (env : Env World) (site_pkgs : string) (w : World)
  : Exit World :=
  match main env site_pkgs w with
  | (Ok pkg_info, st) => {| rc := 0; printed := Some pkg_info; reported := None; final := st |}
  | (Raise e, st) => {| rc := 1; printed := None; reported := Some e; final := st |}
  end.

(** What the script wrote to stdout, as the arguments of the [print] calls
    in order: the lines printed under [main], then the value of the
    script's own [print]. [main] passes no debug flag, so logging is not
    configured and no log record goes to stdout. *)
Definition stdout {World : Type} (e : Exit World) : list pyval :=
  (List.map PyStr (ExtraSpec.print_texts (trace (final e)))
   ++ match printed e with Some v => [v] | None => [] end)%list.

End Example.

(** ** A concrete world: a disk and an installer that reports on stderr *)

Module Testbed.

Import PyStr.

Definition nl : string := String (ascii_of_nat 10) EmptyString.

(** Files with their lines, directories, and the pip arguments for which the
    installer writes to stderr. The installer leaves the disk as it is: the
    packages of a scenario are on the disk from the start. *)
Record Disk : Type := {
  files : dict (list string);
  dirs : list string;
  failing : list string
}.

Definition mem (s : string) (l : list string) : bool :=
  existsb (String.eqb s) l.

Definition disk_env : Env Disk := {|
  subprocess_run := fun cmd w =>
    ((EmptyString,
      if mem (List.last cmd EmptyString) (failing w)
      then "ERROR: No matching distribution found" else EmptyString), w);
  os_path_exists := fun w path => (mem path (keys (files w)) || mem path (dirs w))%bool;
  open_readlines := fun w path => dict_get (files w) path
|}.

Definition start (m : Mapper) (w : Disk) : State Disk :=
  {| self := m; world := w; trace := [] |}.

(** The end-to-end scenario of the specification: alpha and beta are
    installed as dist-info directories, beta declares the name Beta and has
    no top_level.txt. *)
Definition two_pkgs : Disk := {|
  files := [("requirements.txt", ["alpha==2.0" ++ nl; "beta==3.1" ++ nl]);
            ("/sp/alpha-2.0.dist-info/METADATA",
             ["Metadata-Version: 2.1" ++ nl; "Name: alpha" ++ nl; "Version: 2.0" ++ nl]);
            ("/sp/alpha-2.0.dist-info/top_level.txt", ["alpha_mod" ++ nl]);
            ("/sp/beta-3.1.dist-info/METADATA",
             ["Metadata-Version: 2.1" ++ nl; "Name: Beta" ++ nl; "Version: 3.1" ++ nl])];
  dirs := ["/sp"; "/sp/alpha-2.0.dist-info"; "/sp/beta-3.1.dist-info"];
  failing := []
|}.

Definition json_mapper : Mapper := Mapper_init "requirements.txt" "json" "/sp".
Definition native_mapper : Mapper := Mapper_init "requirements.txt" "native" "/sp".

(** The same disk when pip fails for beta. *)
Definition beta_fails : Disk :=
  {| files := files two_pkgs; dirs := dirs two_pkgs; failing := ["beta==3.1"] |}.

(** The same disk after the manifest was cut down to beta. *)
Definition only_beta : Disk :=
  {| files := dict_set (files two_pkgs) "requirements.txt" ["beta==3.1" ++ nl];
     dirs := dirs two_pkgs; failing := [] |}.

(** gamma is installed as a dist-info directory that holds no METADATA;
    alpha, the next requirement, is complete. *)
Definition no_metadata : Disk := {|
  files := [("requirements.txt", ["gamma==1.0" ++ nl; "alpha==2.0" ++ nl]);
            ("/sp/alpha-2.0.dist-info/METADATA", ["Name: alpha" ++ nl; "Version: 2.0" ++ nl]);
            ("/sp/alpha-2.0.dist-info/top_level.txt", ["alpha_mod" ++ nl])];
  dirs := ["/sp"; "/sp/gamma-1.0.dist-info"; "/sp/alpha-2.0.dist-info"];
  failing := []
|}.

(** delta is installed as an egg-info directory that holds no PKG-INFO. *)
Definition egg_no_pkginfo : Disk := {|
  files := [("requirements.txt", ["delta==0.1" ++ nl]);
            ("/sp/delta-0.1.egg-info/top_level.txt", ["delta" ++ nl])];
  dirs := ["/sp"; "/sp/delta-0.1.egg-info"];
  failing := []
|}.

(** my-pkg has an egg-info directory under its underscored name and a
    dist-info directory under its own name. *)
Definition both_variants : Disk := {|
  files := [];
  dirs := ["/sp"; "/sp/my_pkg-1.0.egg-info"; "/sp/my-pkg-1.0.dist-info"];
  failing := []
|}.

(** A top_level.txt with a blank second line. *)
Definition blank_lines : list string := ["alpha_mod" ++ nl; nl; "  beta_mod " ++ nl].

Definition blank_line : Disk := {|
  files := [("/sp/alpha-2.0.dist-info/top_level.txt", blank_lines)];
  dirs := ["/sp"; "/sp/alpha-2.0.dist-info"];
  failing := []
|}.

(** The two records of the end-to-end scenario as the code formats them. *)
Definition alpha_summary : pyval :=
  PyDict [("name", PyStr "alpha"); ("version", PyStr "2.0");
          ("modules", PyList [PyStr "alpha_mod"]); ("alias", PyStr EmptyString)].

Definition beta_summary : pyval :=
  PyDict [("name", PyStr "Beta"); ("version", PyStr "3.1");
          ("modules", PyNone); ("alias", PyStr "beta")].

(** The beta record as the specification prints it. *)
Definition spec_beta_summary : pyval :=
  PyDict [("name", PyStr "Beta"); ("version", PyStr "3.1");
          ("modules", PyList []); ("alias", PyStr "beta")].

End Testbed.

(** * Facts about the string operations *)

Module PyStrFacts.

Import PyStr SplitSpec StripSpec.

Lemma strip_prefix_app (p s rest : string) :
  strip_prefix p s = Some rest <-> s = p ++ rest.
Proof.
  revert s; induction p as [|a p IH]; intros s; simpl.
  - split; intros H; [now inversion H | now subst].
  - destruct s as [|b s].
    + split; intros H; discriminate.
    + destruct (Ascii.eqb_spec a b) as [->|Hab].
      * rewrite IH. split; intros H; [now subst | now inversion H].
      * split; intros H; [discriminate | inversion H; congruence].
Qed.

Lemma strip_prefix_self_app (p rest : string) : strip_prefix p (p ++ rest) = Some rest.
Proof. now apply strip_prefix_app. Qed.

Lemma append_assoc (a b c : string) : (a ++ b) ++ c = a ++ (b ++ c).
Proof. induction a as [|x a IH]; simpl; [reflexivity | now rewrite IH]. Qed.

Lemma append_empty_r (a : string) : a ++ EmptyString = a.
Proof. induction a as [|x a IH]; simpl; [reflexivity | now rewrite IH]. Qed.

Lemma partition_first_empty (d : string) :
  d <> EmptyString -> partition_first EmptyString d = None.
Proof. destruct d; [congruence | reflexivity]. Qed.

(** The scan finds an occurrence: the line is key, delimiter, value. *)
Lemma partition_first_app (s d k v : string) :
  partition_first s d = Some (k, v) -> s = k ++ d ++ v.
Proof.
  revert k v; induction s as [|c s IH]; intros k v; simpl.
  - destruct (strip_prefix d EmptyString) as [rest|] eqn:E; [|discriminate].
    intros H; inversion H; subst. now apply strip_prefix_app in E.
  - destruct (strip_prefix d (String c s)) as [rest|] eqn:E.
    + intros H; inversion H; subst. now apply strip_prefix_app in E.
    + destruct (partition_first s d) as [[k1 v1]|]; [|discriminate].
      intros H; inversion H; subst. simpl. f_equal. now apply IH.
Qed.

Lemma find_found (s d : string) :
  (find s d >? -1)%Z = true <-> partition_first s d <> None.
Proof.
  unfold find. destruct (partition_first s d) as [[k v]|].
  - split; [congruence | intros _; apply Z.gtb_lt; lia].
  - split; [discriminate | congruence].
Qed.

Lemma find_not_found (s d : string) :
  (find s d >? -1)%Z = false <-> partition_first s d = None.
Proof.
  unfold find. destruct (partition_first s d) as [[k v]|].
  - split; [|discriminate]. intros H.
    assert (Hlt : (-1 < Z.of_nat (String.length k))%Z) by lia.
    apply Z.gtb_lt in Hlt. congruence.
  - split; reflexivity.
Qed.

(** *** Stripping *)

Lemma rstrip_cons_nonempty (c : ascii) (s : string) :
  rstrip s <> EmptyString -> rstrip (String c s) = String c (rstrip s).
Proof. simpl. destruct (rstrip s); [congruence | reflexivity]. Qed.

Lemma rstrip_cons_nonspace (c : ascii) (s : string) :
  isspace c = false -> rstrip (String c s) = String c (rstrip s).
Proof. intros H. simpl. rewrite H. now destruct (rstrip s). Qed.

Lemma rstrip_idem (s : string) : rstrip (rstrip s) = rstrip s.
Proof.
  induction s as [|c s IH]; [reflexivity|].
  simpl. destruct (rstrip s) as [|a t] eqn:E.
  - destruct (isspace c) eqn:Hc; simpl; [reflexivity | now rewrite Hc].
  - change (rstrip (String c (String a t)) = String c (String a t)).
    rewrite rstrip_cons_nonempty; rewrite IH; [reflexivity | discriminate].
Qed.

Lemma lstrip_cons_space (c : ascii) (s : string) :
  isspace c = true -> lstrip (String c s) = lstrip s.
Proof. intros H. simpl. now rewrite H. Qed.

Lemma lstrip_cons_nonspace (c : ascii) (s : string) :
  isspace c = false -> lstrip (String c s) = String c s.
Proof. intros H. simpl. now rewrite H. Qed.

Lemma lstrip_rstrip (s : string) : lstrip (rstrip s) = rstrip (lstrip s).
Proof.
  induction s as [|c s IH]; [reflexivity|].
  destruct (isspace c) eqn:Hc.
  - rewrite (lstrip_cons_space c s Hc), <- IH. simpl.
    destruct (rstrip s) as [|a t]; rewrite ?Hc; [reflexivity|].
    now rewrite lstrip_cons_space.
  - rewrite (lstrip_cons_nonspace c s Hc), rstrip_cons_nonspace by assumption.
    now rewrite lstrip_cons_nonspace.
Qed.

Lemma strip_rstrip (s : string) : strip (rstrip s) = strip s.
Proof. unfold strip. now rewrite lstrip_rstrip, rstrip_idem. Qed.

(** What [rstrip] drops is a tail of the string. *)
Lemma rstrip_is_prefix (s : string) : exists w, s = rstrip s ++ w.
Proof.
  induction s as [|c s [w IH]]; [now exists EmptyString|].
  simpl. destruct (rstrip s) as [|a t] eqn:E.
  - destruct (isspace c).
    + now exists (String c s).
    + exists s. reflexivity.
  - exists w. simpl. simpl in IH. now rewrite <- IH.
Qed.

Lemma last_nonspace_nonempty (d : string) : last_nonspace d = true -> d <> EmptyString.
Proof. destruct d; [discriminate | discriminate]. Qed.

(** A delimiter that ends in a visible character survives [rstrip]. *)
Lemma rstrip_app_delim (d x : string) :
  last_nonspace d = true -> rstrip (d ++ x) = d ++ rstrip x.
Proof.
  induction d as [|c d IH]; [discriminate|].
  destruct d as [|c' d'].
  - simpl. intros H. apply negb_true_iff in H. rewrite H. now destruct (rstrip x).
  - intros H. change (last_nonspace (String c' d') = true) in H.
    specialize (IH H).
    change (rstrip (String c (String c' d' ++ x)) = String c (String c' d' ++ rstrip x)).
    rewrite rstrip_cons_nonempty; rewrite IH; [reflexivity | discriminate].
Qed.

Lemma strip_prefix_app_more (d a w rest : string) :
  strip_prefix d a = Some rest -> strip_prefix d (a ++ w) = Some (rest ++ w).
Proof.
  intros H. apply strip_prefix_app in H. subst a.
  rewrite append_assoc. apply strip_prefix_self_app.
Qed.

(** Stripping the line on the right first: the scan finds the same key, and
    the value loses only its trailing whitespace. *)
Lemma partition_first_rstrip (d s k v : string) :
  last_nonspace d = true ->
  partition_first s d = Some (k, v) ->
  partition_first (rstrip s) d = Some (k, rstrip v).
Proof.
  intros Hd. pose proof (last_nonspace_nonempty d Hd) as Hne.
  revert k v; induction s as [|c s IH]; intros k v H.
  - rewrite partition_first_empty in H by assumption. discriminate.
  - simpl in H. destruct (strip_prefix d (String c s)) as [rest|] eqn:E.
    + inversion H; subst k v. apply strip_prefix_app in E. rewrite E.
      rewrite rstrip_app_delim by assumption.
      destruct d as [|a d']; [congruence|]. simpl.
      rewrite Ascii.eqb_refl, strip_prefix_self_app. reflexivity.
    + destruct (partition_first s d) as [[k1 v1]|] eqn:P; [|discriminate].
      inversion H; subst k v. specialize (IH _ _ eq_refl).
      assert (Hr : rstrip s <> EmptyString).
      { intros Hr. rewrite Hr, partition_first_empty in IH by assumption. discriminate. }
      rewrite rstrip_cons_nonempty by assumption.
      simpl. destruct (strip_prefix d (String c (rstrip s))) as [rest|] eqn:E'.
      * exfalso. destruct (rstrip_is_prefix s) as [w Hw].
        apply strip_prefix_app_more with (w := w) in E'.
        simpl in E'. rewrite <- Hw in E'. congruence.
      * now rewrite IH.
Qed.

(** Stripping the line on the left first: the scan finds the same value, and
    the key loses only leading whitespace. *)
Lemma partition_first_lstrip (d s k v : string) :
  head_nonspace d = true ->
  partition_first s d = Some (k, v) ->
  exists k0, partition_first (lstrip s) d = Some (k0, v) /\ lstrip k0 = lstrip k.
Proof.
  intros Hd. destruct d as [|c0 d']; [discriminate|].
  simpl in Hd. apply negb_true_iff in Hd.
  revert k; induction s as [|c s IH]; intros k H.
  - discriminate.
  - destruct (isspace c) eqn:Hc.
    + simpl lstrip. rewrite Hc.
      simpl in H. destruct (Ascii.eqb_spec c0 c) as [->|Hne]; [congruence|].
      destruct (partition_first s (String c0 d')) as [[k1 v1]|] eqn:P; [|discriminate].
      inversion H; subst k v. destruct (IH _ eq_refl) as [k0 [H1 H2]].
      exists k0. split; [assumption|]. simpl. now rewrite Hc.
    + exists k. simpl lstrip. rewrite Hc. now split.
Qed.

(** What the code computes for a line, and what the specification says. *)
Lemma partition_first_strip (d s k v : string) :
  delimiter_ok d = true ->
  partition_first s d = Some (k, v) ->
  exists k0 v0, partition_first (strip s) d = Some (k0, v0)
                /\ strip k0 = strip k /\ strip v0 = strip v.
Proof.
  unfold delimiter_ok. intros Hd H. apply andb_true_iff in Hd as [Hh Hl].
  destruct (partition_first_lstrip d s k v Hh H) as [k0 [H1 H2]].
  apply partition_first_rstrip in H1; [|assumption].
  exists k0, (rstrip v). split; [exact H1|]. split.
  - unfold strip. now rewrite H2.
  - apply strip_rstrip.
Qed.

(** *** Suffixes *)

Lemma endswith_cons (c : ascii) (s suffix : string) :
  endswith (String c s) suffix =
  if String.eqb (String c s) suffix then true else endswith s suffix.
Proof. reflexivity. Qed.

Lemma endswith_app (s suffix : string) :
  endswith s suffix = true <-> exists p, s = p ++ suffix.
Proof.
  induction s as [|c s IH].
  - destruct suffix as [|a t]; simpl.
    + split; [now exists EmptyString | reflexivity].
    + split; [discriminate|]. intros [p Hp]. destruct p; discriminate.
  - rewrite endswith_cons.
    destruct (String.eqb_spec (String c s) suffix) as [E|E].
    + split; [|reflexivity]. intros _. exists EmptyString. now subst.
    + rewrite IH. split.
      * intros [p Hp]. exists (String c p). simpl. now rewrite Hp.
      * intros [p Hp]. destruct p as [|b p]; simpl in Hp; [congruence|].
        inversion Hp; subst. now exists p.
Qed.

Lemma append_length (a b : string) :
  String.length (a ++ b) = String.length a + String.length b.
Proof. induction a as [|x a IH]; simpl; [reflexivity | now rewrite IH]. Qed.

Lemma append_inj_r (p q t u : string) :
  String.length t = String.length u -> p ++ t = q ++ u -> t = u.
Proof.
  revert q; induction p as [|a p IH]; intros q Hlen H.
  - destruct q as [|b q]; [exact H|].
    simpl in H. apply (f_equal String.length) in H.
    simpl in H. rewrite append_length in H. lia.
  - destruct q as [|b q].
    + simpl in H. apply (f_equal String.length) in H.
      simpl in H. rewrite append_length in H. lia.
    + simpl in H. inversion H. now apply (IH q).
Qed.

(** A path that ends in dist-info does not end in egg-info. *)
Lemma dist_info_not_egg_info (s : string) :
  endswith s "dist-info" = true -> endswith s "egg-info" = false.
Proof.
  intros H. apply endswith_app in H as [p Hp].
  destruct (endswith s "egg-info") eqn:E; [|reflexivity].
  apply endswith_app in E as [q Hq]. exfalso.
  rewrite Hp in Hq.
  replace (p ++ "dist-info") with ((p ++ "d") ++ "ist-info") in Hq
    by (rewrite append_assoc; reflexivity).
  apply append_inj_r in Hq; [discriminate | reflexivity].
Qed.

(** *** Lengths: stripping a string that starts or ends in whitespace
    shortens it, and a string shorter than the delimiter does not hold it. *)

Lemma lstrip_length (s : string) : String.length (lstrip s) <= String.length s.
Proof.
  induction s as [|c s IH]; [apply le_n|].
  simpl. destruct (isspace c); simpl; lia.
Qed.

Lemma rstrip_length (s : string) : String.length (rstrip s) <= String.length s.
Proof.
  induction s as [|c s IH]; [apply le_n|].
  simpl. destruct (rstrip s) as [|a t]; [destruct (isspace c)|]; simpl in *; lia.
Qed.

Lemma lstrip_shortens (d : string) :
  d <> EmptyString -> head_nonspace d = false ->
  String.length (lstrip d) < String.length d.
Proof.
  destruct d as [|c d]; [congruence|]. intros _ H. simpl in H.
  apply negb_false_iff in H. simpl. rewrite H.
  pose proof (lstrip_length d). lia.
Qed.

Lemma rstrip_shortens (d : string) :
  d <> EmptyString -> last_nonspace d = false ->
  String.length (rstrip d) < String.length d.
Proof.
  induction d as [|c d IH]; [congruence|]. intros _ H.
  destruct d as [|c' d'].
  - simpl in H. apply negb_false_iff in H. simpl. rewrite H. simpl. lia.
  - change (last_nonspace (String c' d') = false) in H.
    assert (IH' : String.length (rstrip (String c' d')) < String.length (String c' d'))
      by (apply IH; [discriminate | exact H]).
    change (String.length (rstrip (String c (String c' d')))
            < S (String.length (String c' d'))).
    cbn [rstrip] in *. destruct (match rstrip d' with
                                 | EmptyString => if isspace c' then EmptyString
                                                  else String c' EmptyString
                                 | String a t => String c' (String a t)
                                 end) as [|a t].
    + destruct (isspace c); simpl in *; lia.
    + simpl in *. lia.
Qed.

Lemma strip_shortens (d : string) :
  d <> EmptyString -> delimiter_ok d = false ->
  String.length (strip d) < String.length d.
Proof.
  intros Hne H. unfold delimiter_ok in H. apply andb_false_iff in H.
  unfold strip. destruct (head_nonspace d) eqn:Hh.
  - destruct H as [H|H]; [discriminate|].
    destruct d as [|c d]; [congruence|]. simpl in Hh. apply negb_true_iff in Hh.
    rewrite (lstrip_cons_nonspace c d Hh). now apply rstrip_shortens.
  - pose proof (lstrip_shortens d Hne Hh). pose proof (rstrip_length (lstrip d)). lia.
Qed.

Lemma partition_first_length (s d k v : string) :
  partition_first s d = Some (k, v) -> String.length d <= String.length s.
Proof.
  intros H. apply partition_first_app in H. subst s.
  rewrite !append_length. lia.
Qed.

Lemma partition_first_prefix (s d rest : string) :
  strip_prefix d s = Some rest -> partition_first s d = Some (EmptyString, rest).
Proof. intros H. destruct s; simpl; now rewrite H. Qed.

Lemma partition_first_self (d : string) :
  partition_first d d = Some (EmptyString, EmptyString).
Proof.
  apply partition_first_prefix. apply strip_prefix_app. now rewrite append_empty_r.
Qed.

(** *** [strip] against the words for it *)

Lemma lstrip_parts (s : string) :
  exists l, s = l ++ lstrip s /\ all_space l = true /\ starts_clean (lstrip s) = true.
Proof.
  induction s as [|c s [l [H1 [H2 H3]]]]; [now exists EmptyString|].
  destruct (isspace c) eqn:Hc.
  - rewrite (lstrip_cons_space c s Hc). exists (String c l).
    cbn [append all_space]. rewrite Hc, H2, <- H1. now repeat split.
  - rewrite (lstrip_cons_nonspace c s Hc). exists EmptyString.
    cbn [append all_space starts_clean]. rewrite Hc. now repeat split.
Qed.

Lemma rstrip_parts (s : string) :
  exists r, s = rstrip s ++ r /\ all_space r = true /\ ends_clean (rstrip s) = true.
Proof.
  induction s as [|c s [r [H1 [H2 H3]]]]; [now exists EmptyString|].
  cbn [rstrip]. destruct (rstrip s) as [|a t] eqn:E.
  - cbn [append] in H1. subst r. destruct (isspace c) eqn:Hc.
    + exists (String c s). cbn [append all_space ends_clean]. rewrite Hc, H2.
      now repeat split.
    + exists s. cbn [append ends_clean]. rewrite Hc. now repeat split.
  - exists r. cbn [append]. rewrite H1 at 1. cbn [append]. split; [reflexivity|].
    split; [exact H2|]. exact H3.
Qed.

Lemma rstrip_starts_clean (s : string) :
  starts_clean s = true -> starts_clean (rstrip s) = true.
Proof.
  destruct s as [|c s]; [reflexivity|]. cbn [starts_clean]. intros H.
  apply negb_true_iff in H. rewrite (rstrip_cons_nonspace c s H).
  cbn [starts_clean]. now rewrite H.
Qed.

(** The code's [strip] gives the line without its surrounding whitespace. *)
Lemma strip_stripped_of (s : string) : stripped_of s (strip s).
Proof.
  destruct (lstrip_parts s) as [l [H1 [H2 H3]]].
  destruct (rstrip_parts (lstrip s)) as [r [H4 [H5 H6]]].
  exists l, r. unfold strip. rewrite <- H4.
  split; [exact H1|]. split; [exact H2|]. split; [exact H5|].
  split; [now apply rstrip_starts_clean | exact H6].
Qed.

Lemma lstrip_all_space_app (l x : string) :
  all_space l = true -> lstrip (l ++ x) = lstrip x.
Proof.
  induction l as [|c l IH]; intros H; [reflexivity|].
  cbn [all_space] in H. apply andb_true_iff in H as [Hc Hl].
  cbn [append]. rewrite (lstrip_cons_space c (l ++ x) Hc). now apply IH.
Qed.

Lemma lstrip_all_space (r : string) : all_space r = true -> lstrip r = EmptyString.
Proof.
  intros H. rewrite <- (append_empty_r r). now rewrite lstrip_all_space_app.
Qed.

Lemma rstrip_all_space (r : string) : all_space r = true -> rstrip r = EmptyString.
Proof.
  induction r as [|c r IH]; intros H; [reflexivity|].
  cbn [all_space] in H. apply andb_true_iff in H as [Hc Hr].
  cbn [rstrip]. now rewrite (IH Hr), Hc.
Qed.

Lemma ends_clean_last_nonspace (c : ascii) (e : string) :
  ends_clean (String c e) = last_nonspace (String c e).
Proof.
  revert c; induction e as [|a e IH]; intros c; [reflexivity|].
  change (ends_clean (String a e) = last_nonspace (String a e)). apply IH.
Qed.

(** Only one string is the line without its surrounding whitespace. *)
Lemma stripped_of_strip (s e : string) : stripped_of s e -> e = strip s.
Proof.
  intros [l [r [H1 [H2 [H3 [H4 H5]]]]]]. subst s. unfold strip.
  rewrite (lstrip_all_space_app l (e ++ r) H2).
  destruct e as [|c e].
  - cbn [append]. now rewrite (lstrip_all_space r H3).
  - cbn [starts_clean] in H4. apply negb_true_iff in H4.
    change (String c e ++ r) with (String c (e ++ r)).
    rewrite (lstrip_cons_nonspace c (e ++ r) H4).
    change (String c (e ++ r)) with (String c e ++ r).
    rewrite ends_clean_last_nonspace in H5.
    rewrite (rstrip_app_delim (String c e) r H5), (rstrip_all_space r H3).
    now rewrite append_empty_r.
Qed.

End PyStrFacts.
(** * Facts about dicts *)

Module DictFacts.

Lemma dict_get_set_same {V : Type} (d : dict V) (k : string) (v : V) :
  dict_get (dict_set d k v) k = Some v.
Proof.
  induction d as [|[k' v'] d IH]; simpl.
  - now rewrite String.eqb_refl.
  - destruct (String.eqb_spec k' k) as [E|E]; simpl.
    + subst. now rewrite String.eqb_refl.
    + destruct (String.eqb_spec k' k); [contradiction | exact IH].
Qed.

Lemma dict_get_set_other {V : Type} (d : dict V) (k k' : string) (v : V) :
  k <> k' -> dict_get (dict_set d k v) k' = dict_get d k'.
Proof.
  intros Hne. induction d as [|[k0 v0] d IH]; simpl.
  - destruct (String.eqb_spec k k'); [contradiction | reflexivity].
  - destruct (String.eqb_spec k0 k) as [E|E]; simpl.
    + subst k0. destruct (String.eqb_spec k k'); [contradiction | reflexivity].
    + destruct (String.eqb_spec k0 k'); [reflexivity | exact IH].
Qed.

(** Assignment keeps every key that was there, in its place. *)
Lemma keys_dict_set {V : Type} (d : dict V) (k : string) (v : V) :
  keys (dict_set d k v) = if existsb (String.eqb k) (keys d) then keys d else (keys d ++ [k])%list.
Proof.
  unfold keys. induction d as [|[k0 v0] d IH]; simpl; [reflexivity|].
  rewrite (String.eqb_sym k k0).
  destruct (String.eqb_spec k0 k) as [E|E]; simpl; [reflexivity|].
  rewrite IH. now destruct (existsb (String.eqb k) (List.map fst d)).
Qed.

Lemma existsb_eqb_In (k : string) (l : list string) :
  existsb (String.eqb k) l = true <-> In k l.
Proof.
  rewrite existsb_exists. split.
  - intros [x [Hx E]]. apply String.eqb_eq in E. now subst.
  - intros H. exists k. split; [assumption | apply String.eqb_refl].
Qed.

Lemma keys_dict_set_incl {V : Type} (d : dict V) (k k' : string) (v : V) :
  In k' (keys d) -> In k' (keys (dict_set d k v)).
Proof.
  intros H. rewrite keys_dict_set.
  destruct (existsb (String.eqb k) (keys d)); [assumption | apply in_or_app; now left].
Qed.

Lemma keys_dict_set_NoDup {V : Type} (d : dict V) (k : string) (v : V) :
  NoDup (keys d) -> NoDup (keys (dict_set d k v)).
Proof.
  intros H. rewrite keys_dict_set.
  destruct (existsb (String.eqb k) (keys d)) eqn:E; [assumption|].
  apply NoDup_app; [assumption | repeat constructor; intros [] | ].
  intros x Hx [<-|[]]. apply existsb_eqb_In in Hx. congruence.
Qed.

(** An entry of the dict after an assignment is the assigned one or was
    there before. *)
Lemma In_dict_set {V : Type} (d : dict V) (k : string) (v : V) (e : string * V) :
  In e (dict_set d k v) -> e = (k, v) \/ In e d.
Proof.
  induction d as [|[k0 v0] d IH]; simpl.
  - intros [H|[]]; now left.
  - destruct (String.eqb_spec k0 k) as [E|E]; simpl.
    + intros [H|H]; [left; now subst | right; now right].
    + intros [H|H]; [right; now left|].
      destruct (IH H) as [H'|H']; [now left | right; now right].
Qed.

Import SplitSpec.

Lemma fold_dict_set_get (pairs : list (string * string)) (acc : dict string) (k : string) :
  dict_get (fold_left (fun a kv => dict_set a (fst kv) (snd kv)) pairs acc) k =
  match last_value pairs k with
  | Some v => Some v
  | None => dict_get acc k
  end.
Proof.
  revert acc; induction pairs as [|[k0 v0] pairs IH]; intros acc; simpl; [reflexivity|].
  rewrite IH. destruct (last_value pairs k); [reflexivity|].
  destruct (String.eqb_spec k0 k) as [E|E].
  - subst. apply dict_get_set_same.
  - now apply dict_get_set_other.
Qed.

Lemma fold_dict_set_NoDup (pairs : list (string * string)) (acc : dict string) :
  NoDup (keys acc) ->
  NoDup (keys (fold_left (fun a kv => dict_set a (fst kv) (snd kv)) pairs acc)).
Proof.
  revert acc; induction pairs as [|[k0 v0] pairs IH]; intros acc H; simpl; [assumption|].
  apply IH. now apply keys_dict_set_NoDup.
Qed.

End DictFacts.

(** * What the methods do *)

Module MapperFacts.

Import PyStr SplitSpec StripSpec ResolverSpec RunSpec PyStrFacts DictFacts.
Import Mapper.

(** ** [_split] *)

Lemma delimiter_ok_nonempty (d : string) : delimiter_ok d = true -> d <> EmptyString.
Proof. destruct d; [discriminate | discriminate]. Qed.

Lemma split_lines_spec (lines : list string) (d : string) :
  delimiter_ok d = true ->
  exists reqs,
    split_lines lines d = Ok reqs /\
    forall acc, dict_of_parts reqs acc =
                Ok (fold_left (fun a kv => dict_set a (fst kv) (snd kv)) (spec_pairs lines d) acc).
Proof.
  intros Hd. pose proof (delimiter_ok_nonempty d Hd) as Hne.
  induction lines as [|r lines [reqs [IH1 IH2]]]; simpl.
  - exists []. now split.
  - destruct (find r d >? -1)%Z eqn:F.
    + apply find_found in F.
      destruct (partition_first r d) as [[k v]|] eqn:P; [|congruence].
      destruct (partition_first_strip d r k v Hd P) as [k0 [v0 [P0 [Hk Hv]]]].
      unfold str_split1. destruct (String.eqb_spec d EmptyString); [contradiction|].
      rewrite P0, IH1. exists ([k0; v0] :: reqs). split; [reflexivity|].
      intros acc. simpl. now rewrite IH2, Hk, Hv.
    + apply find_not_found in F. rewrite F. exists reqs. now split.
Qed.

Lemma split_run {World : Type} (lines : list string) (d : string) (st : State World) :
  delimiter_ok d = true ->
  _split (Iterable lines) d st = (Ok (spec_split lines d), st).
Proof.
  intros Hd. destruct (split_lines_spec lines d Hd) as [reqs [H1 H2]].
  unfold _split, bind, lift. now rewrite H1, H2.
Qed.

(** C5 (as amended): for a delimiter that is not empty and has no whitespace
    at either end, such as the two the program uses, [_split] returns the
    mapping of the specification: every line that contains the delimiter is
    split once at its first occurrence, key and value are stripped, the
    other lines are dropped, and a key that occurs again keeps the value of
    its last occurrence. Nothing is logged and no state changes. *)
Theorem C5_split_returns_spec_mapping {World : Type}
  (lines : list string) (d : string) (st : State World) :
  delimiter_ok d = true ->
  _split (Iterable lines) d st = (Ok (spec_split lines d), st)
  /\ (forall k, dict_get (spec_split lines d) k = last_value (spec_pairs lines d) k)
  /\ NoDup (keys (spec_split lines d)).
Proof.
  intros Hd. split; [now apply split_run|]. split.
  - intros k. unfold spec_split. rewrite fold_dict_set_get.
    now destruct (last_value (spec_pairs lines d) k).
  - unfold spec_split. apply fold_dict_set_NoDup. constructor.
Qed.

(** Outside those delimiters the routine raises on some line: on any line
    when the delimiter is empty, and on the line that is the delimiter itself
    when the delimiter starts or ends in whitespace. *)
Lemma split_raises_on_other_delimiters {World : Type} (d : string) (st : State World) :
  delimiter_ok d = false ->
  exists line msg, _split (Iterable [line]) d st = (Raise (ValueError msg), st).
Proof.
  intros H. destruct (String.eqb_spec d EmptyString) as [->|Hne].
  - exists "a", "empty separator". reflexivity.
  - exists d, "not enough values to unpack (expected 2, got 1)".
    unfold _split, bind, lift. cbn [split_lines].
    assert (F : (find d d >? -1)%Z = true).
    { apply find_found. rewrite partition_first_self. discriminate. }
    rewrite F. unfold str_split1.
    destruct (String.eqb_spec d EmptyString); [contradiction|].
    destruct (partition_first (strip d) d) as [[k v]|] eqn:P.
    + apply partition_first_length in P. pose proof (strip_shortens d Hne H). lia.
    + reflexivity.
Qed.

(** ** The state a method leaves: the instance, the world, the trace *)

Section Frames.

Context {World : Type} (env : Env World).

Lemma quiet_keeps_self {A : Type} (c : M World A) : quiet c -> keeps_self c.
Proof. intros H st. apply H. Qed.

Lemma quiet_ret {A : Type} (a : A) : quiet (ret a : M World A).
Proof. intros st. simpl. repeat split. exists []. unfold added. now rewrite app_nil_r. Qed.

Lemma quiet_raise {A : Type} (e : exn) : quiet (raise e : M World A).
Proof. intros st. simpl. repeat split. exists []. unfold added. now rewrite app_nil_r. Qed.

Lemma quiet_lift {A : Type} (r : result A) : quiet (lift r : M World A).
Proof. intros st. simpl. repeat split. exists []. unfold added. now rewrite app_nil_r. Qed.

Lemma quiet_get_self : quiet (get_self : M World Mapper).
Proof. intros st. simpl. repeat split. exists []. unfold added. now rewrite app_nil_r. Qed.

Lemma quiet_emit (e : event) : quiet (emit e : M World unit).
Proof. intros st. simpl. repeat split. now exists [e]. Qed.

Lemma quiet_bind {A B : Type} (c : M World A) (k : A -> M World B) :
  quiet c -> (forall a, quiet (k a)) -> quiet (bind c k).
Proof.
  intros Hc Hk st. unfold bind.
  destruct (Hc st) as [H1 [H2 [evs H3]]].
  destruct (c st) as [[a|e] st1]; simpl in *.
  - destruct (Hk a st1) as [K1 [K2 [evs' K3]]].
    rewrite K1, K2, H1, H2. repeat split.
    exists (evs ++ evs')%list. unfold added in *. now rewrite K3, H3, app_assoc.
  - repeat split; try assumption. now exists evs.
Qed.

Lemma keeps_self_bind {A B : Type} (c : M World A) (k : A -> M World B) :
  keeps_self c -> (forall a, keeps_self (k a)) -> keeps_self (bind c k).
Proof.
  intros Hc Hk st. unfold bind. specialize (Hc st).
  destruct (c st) as [[a|e] st1]; simpl in *.
  - now rewrite (Hk a st1).
  - assumption.
Qed.

Lemma quiet_log lvl template args : quiet (log lvl template args : M World unit).
Proof. apply quiet_emit. Qed.

Lemma quiet_print text : quiet (print text : M World unit).
Proof. apply quiet_emit. Qed.

Lemma quiet_when (b : bool) (c : M World unit) : quiet c -> quiet (when b c).
Proof. intros H. destruct b; [exact H | apply quiet_ret]. Qed.

Lemma quiet_exists (path : string) : quiet (exists_ env path).
Proof.
  apply quiet_bind; [apply quiet_emit|]. intros _ st. simpl. repeat split.
  exists []. unfold added. now rewrite app_nil_r.
Qed.

Lemma quiet_readlines (path : string) : quiet (readlines env path).
Proof.
  apply quiet_bind; [apply quiet_emit|]. intros _ st.
  destruct (open_readlines env (world st) path) eqn:E;
    repeat split; exists []; unfold added; now rewrite app_nil_r.
Qed.

Lemma keeps_self_run (cmd : list string) : keeps_self (run env cmd).
Proof.
  apply keeps_self_bind; [apply quiet_keeps_self, quiet_emit|].
  intros _ st. simpl. now destruct (subprocess_run env cmd (world st)).
Qed.

Lemma quiet_read (path : string) : quiet (_read env path).
Proof.
  unfold _read. apply quiet_bind; [apply quiet_log|]. intros _.
  apply quiet_bind; [apply quiet_exists|]. intros b. destruct b; cbn [negb].
  - apply quiet_bind; [apply quiet_readlines|]. intros lines.
    apply quiet_bind; [apply quiet_log | intros _; apply quiet_ret].
  - apply quiet_bind; [apply quiet_log | intros _; apply quiet_raise].
Qed.

Lemma quiet_split (data : py_data) (d : string) : quiet (_split data d : M World _).
Proof.
  destruct data as [lines|shown]; simpl.
  - apply quiet_bind; [apply quiet_lift | intros reqs; apply quiet_lift].
  - apply quiet_bind; [apply quiet_log | intros _; apply quiet_raise].
Qed.

Lemma quiet_get_pkg_path_loop (sufs : list string) (name version : string) :
  quiet (_get_pkg_path_loop env sufs name version).
Proof.
  induction sufs as [|suf sufs IH]; simpl.
  - apply quiet_bind; [apply quiet_log | intros _; apply quiet_ret].
  - apply quiet_bind; [apply quiet_get_self|]. intros m.
    apply quiet_bind; [apply quiet_log|]. intros _.
    apply quiet_bind; [apply quiet_exists|]. intros b. destruct b; [apply quiet_ret|].
    apply quiet_bind; [apply quiet_exists|]. intros b2. destruct b2; [apply quiet_ret|].
    exact IH.
Qed.

Lemma quiet_get_pkg_path (name version : string) : quiet (_get_pkg_path env name version).
Proof.
  unfold _get_pkg_path. apply quiet_bind; [apply quiet_print|]. intros _.
  apply quiet_bind; [apply quiet_print|]. intros _. apply quiet_get_pkg_path_loop.
Qed.

Lemma quiet_get_pkg_meta (location : string) : quiet (_get_pkg_meta env location).
Proof.
  unfold _get_pkg_meta. apply quiet_bind; [apply quiet_log|]. intros _.
  apply quiet_bind; [apply quiet_exists|]. intros b. destruct b; cbn [negb].
  - apply quiet_bind; [apply quiet_read|]. intros lines.
    apply quiet_bind; [apply quiet_split | intros m; apply quiet_ret].
  - apply quiet_bind; [apply quiet_log | intros _; apply quiet_ret].
Qed.

Lemma quiet_get_pkg_top_level (location : string) : quiet (_get_pkg_top_level env location).
Proof.
  unfold _get_pkg_top_level. apply quiet_bind; [apply quiet_log|]. intros _.
  apply quiet_bind; [apply quiet_exists|]. intros b. destruct b; cbn [negb].
  - apply quiet_bind; [apply quiet_read | intros lines; apply quiet_ret].
  - apply quiet_bind; [apply quiet_log | intros _; apply quiet_ret].
Qed.

Lemma keeps_self_cmd (cmd : list string) : keeps_self (_cmd env cmd).
Proof.
  unfold _cmd. apply keeps_self_bind; [apply quiet_keeps_self, quiet_log|]. intros _.
  apply keeps_self_bind; [apply keeps_self_run|]. intros r.
  apply quiet_keeps_self.
  apply quiet_bind; [apply quiet_log|]. intros _.
  apply quiet_bind; [apply quiet_when, quiet_log | intros _; apply quiet_ret].
Qed.

Lemma keeps_self_install (name version : string) : keeps_self (_install env name version).
Proof.
  unfold _install. apply keeps_self_bind; [apply keeps_self_cmd|]. intros r.
  apply quiet_keeps_self.
  apply quiet_bind; [apply quiet_when, quiet_log | intros _; apply quiet_ret].
Qed.

End Frames.

(** ** [_get_pkg_path] *)

Section Resolver.

Context {World : Type} (env : Env World).

Lemma loop_candidates_suffixes (site name version : string) :
  loop_candidates site name version suffixes = code_candidates site name version.
Proof. reflexivity. Qed.

Lemma get_pkg_path_loop_spec (sufs : list string) (name version : string) :
  forall st : State World,
  let cands := loop_candidates (_site_pkgs (self st)) name version sufs in
  exists evs,
    _get_pkg_path_loop env sufs name version st =
      (Ok (first_existing env (world st) cands),
       {| self := self st; world := world st; trace := trace st ++ evs |})
    /\ probes evs = probed_until (os_path_exists env (world st)) cands
    /\ (first_existing env (world st) cands = None -> In (not_found_logged name version) evs).
Proof.
  induction sufs as [|suf sufs IH]; intros st; cbn zeta.
  - exists [not_found_logged name version]. repeat split. intros _. now left.
  - cbn [_get_pkg_path_loop loop_candidates flat_map app].
    unfold bind at 1. cbn [get_self].
    unfold bind at 1. cbn [log emit].
    unfold bind at 1. unfold exists_ at 1. unfold bind at 1. cbn [emit self world trace].
    set (p1 := os_path_join (_site_pkgs (self st)) (pkg_path_tmpl name version suf)).
    set (p2 := os_path_join (_site_pkgs (self st))
                 (pkg_path_tmpl (replace name "-" "_") version suf)).
    set (l := EvLog DEBUG "pkg:{name}:{version} check location {_pkg_path}"
                [PyStr name; PyStr version; PyStr p1]).
    unfold first_existing. cbn [List.find probed_until].
    destruct (os_path_exists env (world st) p1) eqn:E1.
    + exists [l; EvExists p1]. cbn [ret]. rewrite <- app_assoc. repeat split. discriminate.
    + unfold bind at 1. unfold exists_ at 1. unfold bind at 1. cbn [emit self world trace].
      destruct (os_path_exists env (world st) p2) eqn:E2.
      * exists [l; EvExists p1; EvExists p2]. cbn [ret]. rewrite <- !app_assoc.
        repeat split. discriminate.
      * match goal with |- context [_get_pkg_path_loop env sufs name version ?s] =>
          destruct (IH s) as [evs [H1 [H2 H3]]] end.
        cbn [self world trace] in H1, H2, H3.
        exists (l :: EvExists p1 :: EvExists p2 :: evs).
        rewrite H1. rewrite <- !app_assoc. cbn [app probes].
        split; [reflexivity|]. split; [now rewrite H2|].
        intros Hn. right. right. right. now apply H3.
Qed.

(** C3 (as amended): the resolver tries the four candidate directories in
    the order name.egg-info, underscored-name.egg-info, name.dist-info,
    underscored-name.dist-info (each joined to the site-packages root),
    stops at the first that exists and returns it; when none of the four
    exists it logs an error and returns None without raising. It changes
    neither the instance nor the world. *)
Theorem C3_resolver_tries_code_order (name version : string) (st : State World) :
  let cands := code_candidates (_site_pkgs (self st)) name version in
  exists evs,
    _get_pkg_path env name version st =
      (Ok (first_existing env (world st) cands),
       {| self := self st; world := world st; trace := trace st ++ evs |})
    /\ probes evs = probed_until (os_path_exists env (world st)) cands
    /\ (first_existing env (world st) cands = None ->
        In (EvLog ERROR "Package dir not found for {name}:{version}"
              [PyStr name; PyStr version]) evs).
Proof.
  cbn zeta. unfold _get_pkg_path.
  unfold bind at 1. cbn [print emit]. unfold bind at 1. cbn [print emit self world trace].
  match goal with |- context [_get_pkg_path_loop env suffixes name version ?s] =>
    destruct (get_pkg_path_loop_spec suffixes name version s) as [evs [H1 [H2 H3]]] end.
  cbn [self world trace] in H1, H2, H3. rewrite loop_candidates_suffixes in H1, H2, H3.
  exists (EvPrint ("name: $" ++ name) :: EvPrint ("version: $" ++ version) :: evs).
  rewrite H1, <- !app_assoc. cbn [app probes].
  split; [reflexivity|]. split; [exact H2|].
  intros Hn. right. right. now apply H3.
Qed.

(** What [_get_pkg_path] returns and the state it leaves. *)
Lemma get_pkg_path_run (name version : string) (st : State World) :
  exists evs,
    _get_pkg_path env name version st =
      (Ok (first_existing env (world st)
             (code_candidates (_site_pkgs (self st)) name version)),
       {| self := self st; world := world st; trace := trace st ++ evs |}).
Proof.
  unfold _get_pkg_path.
  unfold bind at 1. cbn [print emit]. unfold bind at 1. cbn [print emit self world trace].
  match goal with |- context [_get_pkg_path_loop env suffixes name version ?s] =>
    destruct (get_pkg_path_loop_spec suffixes name version s) as [evs [H1 _]] end.
  cbn [self world trace] in H1. rewrite loop_candidates_suffixes in H1.
  exists (EvPrint ("name: $" ++ name) :: EvPrint ("version: $" ++ version) :: evs).
  rewrite H1, <- !app_assoc. reflexivity.
Qed.

End Resolver.

(** ** [_read], [_get_pkg_meta], [_get_pkg_top_level] *)

Section Readers.

Context {World : Type} (env : Env World).

Ltac run_m :=
  unfold exists_, readlines, when, log, print;
  unfold bind, emit, ret, raise, lift, get_self;
  cbn [self world trace fst snd negb].

Ltac step :=
  unfold bind at 1; cbn [log print emit get_self ret lift raise self world trace].

Lemma exists_run (path : string) (st : State World) :
  exists_ env path st =
    (Ok (os_path_exists env (world st) path),
     {| self := self st; world := world st; trace := trace st ++ [EvExists path] |}).
Proof. reflexivity. Qed.

Ltac step_exists := unfold bind at 1; rewrite exists_run; cbn [self world trace].

Lemma read_ok (path : string) (lines : list string) (st : State World) :
  os_path_exists env (world st) path = true ->
  open_readlines env (world st) path = Some lines ->
  _read env path st =
    (Ok lines,
     {| self := self st; world := world st;
        trace := trace st ++
                 [EvLog DEBUG "Start to read file: {path}" [PyStr path];
                  EvExists path; EvOpen path;
                  EvLog DEBUG "Finished reading the file: {lines}" [py_of_strs lines]] |}).
Proof.
  intros E O. unfold _read. run_m. rewrite E. run_m. rewrite O. run_m.
  now rewrite <- !app_assoc.
Qed.

Lemma read_unreadable (path : string) (st : State World) :
  os_path_exists env (world st) path = true ->
  open_readlines env (world st) path = None ->
  _read env path st =
    (Raise (OSError path),
     {| self := self st; world := world st;
        trace := trace st ++
                 [EvLog DEBUG "Start to read file: {path}" [PyStr path];
                  EvExists path; EvOpen path] |}).
Proof.
  intros E O. unfold _read. run_m. rewrite E. run_m. rewrite O. run_m.
  now rewrite <- !app_assoc.
Qed.

(** A path that does not exist: [_read] logs an error and raises. *)
Lemma read_missing (path : string) (st : State World) :
  os_path_exists env (world st) path = false ->
  _read env path st =
    (Raise (Exception ("File not found in the path: " ++ path)),
     {| self := self st; world := world st;
        trace := trace st ++
                 [EvLog DEBUG "Start to read file: {path}" [PyStr path];
                  EvExists path;
                  EvLog ERROR "File not found in the path: {path}" [PyStr path]] |}).
Proof.
  intros E. unfold _read. run_m. rewrite E. run_m. now rewrite <- !app_assoc.
Qed.

Lemma delimiter_colon_ok : delimiter_ok ":" = true.
Proof. reflexivity. Qed.

Lemma delimiter_eqeq_ok : delimiter_ok "==" = true.
Proof. reflexivity. Qed.

(** The metadata file is missing: a warning, and None. *)
Lemma get_pkg_meta_missing (location : string) (st : State World) :
  let path := os_path_join location (meta_file_of location) in
  os_path_exists env (world st) path = false ->
  _get_pkg_meta env location st =
    (Ok None,
     {| self := self st; world := world st;
        trace := trace st ++
                 [EvLog DEBUG "Get meta from location: {location}" [PyStr location];
                  EvExists path;
                  EvLog WARNING "{_meta_file} not found in the {location}"
                    [PyStr (meta_file_of location); PyStr location]] |}).
Proof.
  cbn zeta. intros E. unfold _get_pkg_meta. run_m. rewrite E. run_m.
  now rewrite <- !app_assoc.
Qed.

Lemma get_pkg_meta_ok (location : string) (lines : list string) (st : State World) :
  let path := os_path_join location (meta_file_of location) in
  os_path_exists env (world st) path = true ->
  open_readlines env (world st) path = Some lines ->
  _get_pkg_meta env location st =
    (Ok (Some (spec_split lines ":")),
     {| self := self st; world := world st;
        trace := trace st ++
                 [EvLog DEBUG "Get meta from location: {location}" [PyStr location];
                  EvExists path;
                  EvLog DEBUG "Start to read file: {path}" [PyStr path];
                  EvExists path; EvOpen path;
                  EvLog DEBUG "Finished reading the file: {lines}" [py_of_strs lines]] |}).
Proof.
  cbn zeta. intros E O. unfold _get_pkg_meta. step. step_exists. rewrite E. cbn [negb].
  unfold bind at 1. rewrite (read_ok _ lines) by assumption.
  unfold bind at 1. rewrite split_run by apply delimiter_colon_ok.
  unfold ret. cbn [self world trace]. now rewrite <- !app_assoc.
Qed.

Lemma get_pkg_meta_unreadable (location : string) (st : State World) :
  let path := os_path_join location (meta_file_of location) in
  os_path_exists env (world st) path = true ->
  open_readlines env (world st) path = None ->
  _get_pkg_meta env location st =
    (Raise (OSError path),
     {| self := self st; world := world st;
        trace := trace st ++
                 [EvLog DEBUG "Get meta from location: {location}" [PyStr location];
                  EvExists path;
                  EvLog DEBUG "Start to read file: {path}" [PyStr path];
                  EvExists path; EvOpen path] |}).
Proof.
  cbn zeta. intros E O. unfold _get_pkg_meta. step. step_exists. rewrite E. cbn [negb].
  unfold bind at 1. rewrite read_unreadable by assumption.
  cbn [self world trace]. now rewrite <- !app_assoc.
Qed.

(** C7: the metadata parser reads PKG-INFO exactly when the location ends
    with egg-info and METADATA otherwise, in particular for a location that
    ends with dist-info: that file under the location is the only path the
    parser tests and opens, and when it can be read the parser returns its
    lines split at the colon. *)
Theorem C7_meta_file_by_suffix (location : string) (st : State World) :
  let file := meta_file_of location in
  let path := os_path_join location file in
  (file = "PKG-INFO" <-> endswith location "egg-info" = true)
  /\ (file = "METADATA" <-> endswith location "egg-info" = false)
  /\ (endswith location "dist-info" = true -> file = "METADATA")
  /\ exists evs,
       added st (snd (_get_pkg_meta env location st)) evs
       /\ In (EvExists path) evs
       /\ (forall p, In (EvExists p) evs \/ In (EvOpen p) evs -> p = path)
       /\ (forall lines,
             os_path_exists env (world st) path = true ->
             open_readlines env (world st) path = Some lines ->
             In (EvOpen path) evs
             /\ fst (_get_pkg_meta env location st) = Ok (Some (spec_split lines ":"))).
Proof.
  cbn zeta. split; [|split; [|split]].
  - unfold meta_file_of. destruct (endswith location "egg-info"); split; congruence.
  - unfold meta_file_of. destruct (endswith location "egg-info"); split; congruence.
  - intros H. unfold meta_file_of. now rewrite (dist_info_not_egg_info _ H).
  - set (path := os_path_join location (meta_file_of location)).
    destruct (os_path_exists env (world st) path) eqn:E.
    + destruct (open_readlines env (world st) path) as [lines|] eqn:O.
      * eexists. rewrite (get_pkg_meta_ok location lines st E O). fold path.
        split; [reflexivity|]. split; [right; now left|]. split.
        -- intros p [H|H]; cbn in H; intuition congruence.
        -- intros lines' _ H. inversion H; subst. split; [|reflexivity].
           cbn. intuition.
      * eexists. rewrite (get_pkg_meta_unreadable location st E O). fold path.
        split; [reflexivity|]. split; [right; now left|]. split.
        -- intros p [H|H]; cbn in H; intuition congruence.
        -- intros lines' _ H. discriminate.
    + eexists. rewrite (get_pkg_meta_missing location st E). fold path.
      split; [reflexivity|]. split; [right; now left|]. split.
      * intros p [H|H]; cbn in H; intuition congruence.
      * intros lines' H. discriminate.
Qed.

(** The top-level file is missing: a warning, and None. *)
Lemma get_pkg_top_level_missing (location : string) (st : State World) :
  let path := os_path_join location "top_level.txt" in
  os_path_exists env (world st) path = false ->
  _get_pkg_top_level env location st =
    (Ok None,
     {| self := self st; world := world st;
        trace := trace st ++
                 [EvLog DEBUG "Get top level from location: {location}" [];
                  EvExists path;
                  EvLog WARNING "{_toplevel_file} not found in the {location}"
                    [PyStr "top_level.txt"; PyStr location]] |}).
Proof.
  cbn zeta. intros E. unfold _get_pkg_top_level. run_m. rewrite E. run_m.
  now rewrite <- !app_assoc.
Qed.

Lemma get_pkg_top_level_ok (location : string) (lines : list string) (st : State World) :
  let path := os_path_join location "top_level.txt" in
  os_path_exists env (world st) path = true ->
  open_readlines env (world st) path = Some lines ->
  _get_pkg_top_level env location st =
    (Ok (Some (List.map strip lines)),
     {| self := self st; world := world st;
        trace := trace st ++
                 [EvLog DEBUG "Get top level from location: {location}" [];
                  EvExists path;
                  EvLog DEBUG "Start to read file: {path}" [PyStr path];
                  EvExists path; EvOpen path;
                  EvLog DEBUG "Finished reading the file: {lines}" [py_of_strs lines]] |}).
Proof.
  cbn zeta. intros E O. unfold _get_pkg_top_level. step. step_exists. rewrite E. cbn [negb].
  unfold bind at 1. rewrite (read_ok _ lines) by assumption.
  unfold ret. cbn [self world trace]. now rewrite <- !app_assoc.
Qed.

Lemma summary_of_record (pkg : string) (meta : dict string) (name version : string)
  (mods : option (list string)) :
  summary pkg (pkg_record (Some meta) name version mods) =
    Ok (PyDict [("name", PyStr pkg);
                ("version", match dict_get (List.map (fun kv => (fst kv, PyStr (snd kv))) meta)
                                    "Version" with
                            | Some x => x
                            | None => PyStr "UNKNOWN"
                            end);
                ("modules", py_of_option py_of_strs mods);
                ("alias", if negb (String.eqb name pkg) then PyStr name else PyStr "")]).
Proof. reflexivity. Qed.

(** C10: when top_level.txt exists under the location (and opens), the
    reader returns one entry per line of the file, in file order. Each
    entry is its line stripped of surrounding whitespace: the line is
    whitespace, the entry, whitespace, the entry neither begins nor ends
    with whitespace, and it is the only such string (it is what [strip]
    gives). A blank line, one of whitespace only, gives the empty string,
    which is kept; and the same list is the modules field of the formatted
    record. *)
Theorem C10_top_level_entry_per_line (location : string) (lines : list string)
  (st : State World) :
  let path := os_path_join location "top_level.txt" in
  os_path_exists env (world st) path = true ->
  open_readlines env (world st) path = Some lines ->
  exists modules,
    fst (_get_pkg_top_level env location st) = Ok (Some modules)
    /\ List.length modules = List.length lines
    /\ (forall i line, nth_error lines i = Some line ->
                       nth_error modules i = Some (strip line))
    /\ (forall i line, nth_error lines i = Some line ->
          exists entry,
            nth_error modules i = Some entry
            /\ stripped_of line entry
            /\ (forall other, stripped_of line other -> other = entry))
    /\ (forall i line, nth_error lines i = Some line -> all_space line = true ->
                       nth_error modules i = Some EmptyString)
    /\ (forall i line, nth_error lines i = Some line -> strip line = EmptyString ->
                       nth_error modules i = Some EmptyString)
    /\ (forall pkg meta name version,
          exists s, summary pkg (pkg_record (Some meta) name version (Some modules)) = Ok s
                    /\ py_get s "modules" PyNone = Ok (py_of_strs modules)).
Proof.
  cbn zeta. intros E O. exists (List.map strip lines).
  rewrite (get_pkg_top_level_ok location lines st E O). cbn [fst].
  split; [reflexivity|]. split; [apply length_map|].
  split; [|split; [|split; [|split]]].
  - intros i line H. now rewrite nth_error_map, H.
  - intros i line H. exists (strip line). rewrite nth_error_map, H.
    split; [reflexivity|]. split; [apply strip_stripped_of|].
    intros other Ho. now apply stripped_of_strip.
  - intros i line H B. rewrite nth_error_map, H. cbn [option_map]. f_equal.
    unfold strip. now rewrite (lstrip_all_space line B).
  - intros i line H B. rewrite nth_error_map, H. cbn [option_map]. now rewrite B.
  - intros pkg meta name version. eexists. rewrite summary_of_record.
    split; reflexivity.
Qed.

End Readers.



(** ** What a run does to the PackageMap *)

Section Invariants.

Context {World : Type} (env : Env World).

Lemma bind_ok_inv {A B : Type} (c : M World A) (k : A -> M World B)
  (st st' : State World) (b : B) :
  bind c k st = (Ok b, st') ->
  exists a st1, c st = (Ok a, st1) /\ k a st1 = (Ok b, st').
Proof.
  unfold bind. destruct (c st) as [[a|e] st1]; intros H; [|discriminate].
  now exists a, st1.
Qed.

Lemma bind_ok {A B : Type} (c : M World A) (k : A -> M World B)
  (st st1 : State World) (a : A) :
  c st = (Ok a, st1) -> bind c k st = k a st1.
Proof. intros H. unfold bind. now rewrite H. Qed.

Lemma set_pkgs_map_run (k : string) (v : pyval) (st : State World) :
  set_pkgs_map k v st =
    (Ok tt, {| self := stored (self st) k v; world := world st; trace := trace st |}).
Proof. reflexivity. Qed.

Variable R : Mapper -> Mapper -> Prop.
Hypothesis R_refl : forall m, R m m.
Hypothesis R_trans : forall a b c, R a b -> R b c -> R a c.

Lemma self_rel_keeps {A : Type} (c : M World A) : keeps_self c -> self_rel R c.
Proof. intros H st. rewrite H. apply R_refl. Qed.

Lemma self_rel_bind {A B : Type} (c : M World A) (k : A -> M World B) :
  self_rel R c -> (forall a, self_rel R (k a)) -> self_rel R (bind c k).
Proof.
  intros Hc Hk st. unfold bind. specialize (Hc st).
  destruct (c st) as [[a|e] st1]; cbn [snd] in *; [|assumption].
  eapply R_trans; [exact Hc | apply Hk].
Qed.

Lemma self_rel_add_pkg_data (name version : string) :
  stores_ok R name version -> self_rel R (_add_pkg_data env name version).
Proof.
  intros Hs. unfold _add_pkg_data.
  apply self_rel_bind; [apply self_rel_keeps, quiet_keeps_self, quiet_get_pkg_path|].
  intros [location|]; [|apply self_rel_keeps, quiet_keeps_self, quiet_ret].
  apply self_rel_bind; [apply self_rel_keeps, quiet_keeps_self, quiet_log|]. intros _.
  apply self_rel_bind; [apply self_rel_keeps, quiet_keeps_self, quiet_get_pkg_meta|].
  intros meta.
  apply self_rel_bind; [apply self_rel_keeps, quiet_keeps_self, quiet_log|]. intros _.
  apply self_rel_bind; [apply self_rel_keeps, quiet_keeps_self, quiet_lift|].
  intros pkg_name.
  apply self_rel_bind; [apply self_rel_keeps, quiet_keeps_self, quiet_get_pkg_top_level|].
  intros mods.
  apply self_rel_bind; [apply self_rel_keeps, quiet_keeps_self, quiet_log|]. intros _.
  intros st. rewrite set_pkgs_map_run. cbn [snd self]. apply Hs.
Qed.

Lemma self_rel_map_loop (items : dict string) :
  (forall name version, In (name, version) items -> stores_ok R name version) ->
  self_rel R (map_loop env items).
Proof.
  induction items as [|[name version] items IH]; intros Hs; cbn [map_loop].
  - apply self_rel_keeps, quiet_keeps_self, quiet_ret.
  - apply self_rel_bind; [apply self_rel_keeps, keeps_self_install|]. intros r.
    assert (Hrest : self_rel R (map_loop env items)).
    { apply IH. intros n v H. apply Hs. now right. }
    destruct (truthy (snd r)).
    + apply self_rel_bind; [apply self_rel_keeps, quiet_keeps_self, quiet_log|].
      intros _. exact Hrest.
    + apply self_rel_bind; [|intros _; exact Hrest].
      apply self_rel_add_pkg_data. apply Hs. now left.
Qed.

Lemma quiet_format : quiet (_format : M World pyval).
Proof.
  unfold _format. apply quiet_bind; [apply quiet_get_self|]. intros m.
  apply quiet_bind; [apply quiet_lift|]. intros infos.
  destruct (String.eqb (_fmt m) "json"); apply quiet_ret.
Qed.

Lemma self_rel_map :
  (forall name version, stores_ok R name version) -> self_rel R (map env).
Proof.
  intros Hs. unfold map.
  apply self_rel_bind; [apply self_rel_keeps, keeps_self_cmd|]. intros _.
  apply self_rel_bind; [apply self_rel_keeps, quiet_keeps_self, quiet_get_self|]. intros m.
  apply self_rel_bind; [apply self_rel_keeps, quiet_keeps_self, quiet_read|]. intros lines.
  apply self_rel_bind; [apply self_rel_keeps, quiet_keeps_self, quiet_split|]. intros reqs.
  apply self_rel_bind; [apply self_rel_map_loop; intros; apply Hs|]. intros _.
  apply self_rel_keeps, quiet_keeps_self, quiet_format.
Qed.

End Invariants.



(** ** The loop of [map], one requirement at a time *)

Section Run.

Context {World : Type} (env : Env World).

Lemma truthy_nonempty (s : string) : truthy s = true <-> s <> EmptyString.
Proof.
  unfold truthy. destruct (String.eqb_spec s EmptyString); cbn; split; congruence.
Qed.

(** [_install] returns what the subprocess printed and keeps the instance. *)
Lemma install_run (name version : string) (st : State World) :
  let cmd := ["pip"; "install"; name ++ "==" ++ version] in
  exists evs,
    _install env name version st =
      (Ok (fst (subprocess_run env cmd (world st))),
       {| self := self st; world := snd (subprocess_run env cmd (world st));
          trace := trace st ++ evs |}).
Proof.
  cbn zeta. unfold _install, _cmd, run, when, log, emit, bind, ret.
  cbn [self world trace fst snd].
  destruct (subprocess_run env _ (world st)) as [[out err] w'].
  cbn [self world trace fst snd].
  destruct (truthy err) eqn:T; cbn [self world trace fst snd]; rewrite ?T;
    cbn [self world trace fst snd]; eexists; rewrite <- !app_assoc; reflexivity.
Qed.

(** A requirement whose install wrote to stderr: the loop logs, stores
    nothing and goes on with the next requirement. *)
Lemma map_loop_skip (name version : string) (items : dict string) (st : State World) :
  install_stderr env (world st) name version <> EmptyString ->
  exists st2,
    self st2 = self st
    /\ map_loop env ((name, version) :: items) st = map_loop env items st2.
Proof.
  intros Herr. apply truthy_nonempty in Herr. unfold install_stderr in Herr.
  destruct (install_run name version st) as [evs Hi]. cbn zeta in Hi.
  cbn [map_loop]. rewrite (bind_ok _ _ _ _ _ Hi). rewrite Herr.
  unfold bind at 1, log, emit. cbn [self world trace].
  eexists. split; [|reflexivity]. reflexivity.
Qed.

Lemma map_loop_app (l1 l2 : dict string) (st0 st1 : State World) :
  map_loop env l1 st0 = (Ok tt, st1) ->
  map_loop env (l1 ++ l2)%list st0 = map_loop env l2 st1.
Proof.
  revert st0; induction l1 as [|[name version] l1 IH]; intros st0 H.
  - cbn in H. inversion H. reflexivity.
  - cbn [app map_loop] in *.
    apply bind_ok_inv in H as [r [sta [Hr H]]]. rewrite (bind_ok _ _ _ _ _ Hr).
    destruct (truthy (snd r)).
    + apply bind_ok_inv in H as [u [stb [Hu H]]]. rewrite (bind_ok _ _ _ _ _ Hu).
      now apply IH.
    + apply bind_ok_inv in H as [u [stb [Hu H]]]. rewrite (bind_ok _ _ _ _ _ Hu).
      now apply IH.
Qed.

(** *** Records and the requirement they were made for *)

Lemma req_name_of_record meta name version mods :
  req_name_of (pkg_record meta name version mods) = Some name.
Proof. reflexivity. Qed.

Lemma no_new_record_refl (n : string) (m : Mapper) : no_new_record n m m.
Proof. intros pkg data H _. exact H. Qed.

Lemma no_new_record_trans (n : string) (a b c : Mapper) :
  no_new_record n a b -> no_new_record n b c -> no_new_record n a c.
Proof. unfold no_new_record. intros Hab Hbc pkg data H E. eauto. Qed.

Lemma no_new_record_stores (n name version : string) :
  name <> n -> stores_ok (no_new_record n) name version.
Proof.
  intros Hne m k meta mods pkg data Hin E. cbn [stored _pkgs_map] in Hin.
  apply In_dict_set in Hin as [H|Hin]; [|exact Hin].
  inversion H; subst. rewrite req_name_of_record in E. congruence.
Qed.

(** A loop over requirements other than [n] stores no record for [n]. *)
Lemma no_new_record_map_loop (n : string) (items : dict string) (st : State World) :
  ~ In n (keys items) ->
  no_new_record n (self st) (self (snd (map_loop env items st))).
Proof.
  intros Hn. revert st.
  apply (self_rel_map_loop env (no_new_record n)
           (no_new_record_refl n) (no_new_record_trans n)).
  intros name version Hin. apply no_new_record_stores.
  intros ->. apply Hn. unfold keys. now apply (in_map fst) in Hin.
Qed.

(** *** The output, record by record *)

Lemma summaries_from (pm : dict pyval) (infos : list pyval) :
  summaries pm = Ok infos ->
  forall s, In s infos -> exists pkg data, In (pkg, data) pm /\ summary pkg data = Ok s.
Proof.
  revert infos; induction pm as [|[pkg data] pm IH]; intros infos H s Hs; cbn in H.
  - inversion H; subst. destruct Hs.
  - destruct (summary pkg data) as [s0|e] eqn:E; [|discriminate].
    destruct (summaries pm) as [infos'|e]; [|discriminate].
    inversion H; subst. destruct Hs as [<-|Hs].
    + exists pkg, data. split; [now left | assumption].
    + destruct (IH _ eq_refl s Hs) as [p [d [Hin Hsum]]].
      exists p, d. split; [now right | assumption].
Qed.

Lemma summary_name (pkg : string) (data s : pyval) :
  summary pkg data = Ok s -> py_get s "name" PyNone = Ok (PyStr pkg).
Proof.
  unfold summary.
  destruct (py_get data "requirements" (PyDict [])) as [reqs|]; [|discriminate].
  destruct (py_get reqs "name" PyNone) as [rn|]; [|discriminate].
  destruct (py_get data "metadata" (PyDict [])) as [meta|]; [|discriminate].
  destruct (py_get meta "Version" (PyStr "UNKNOWN")) as [ver|]; [|discriminate].
  destruct (py_get data "top_level" (PyList [])) as [mods|]; [|discriminate].
  intros H; inversion H; subst. reflexivity.
Qed.

Lemma summaries_names (pm : dict pyval) (infos : list pyval) :
  summaries pm = Ok infos ->
  forall k, In k (keys pm) -> exists s, In s infos /\ py_get s "name" PyNone = Ok (PyStr k).
Proof.
  revert infos; induction pm as [|[pkg data] pm IH]; intros infos H k Hk; cbn in H.
  - destruct Hk.
  - destruct (summary pkg data) as [s0|e] eqn:E; [|discriminate].
    destruct (summaries pm) as [infos'|e]; [|discriminate].
    inversion H; subst. destruct Hk as [<-|Hk].
    + exists s0. split; [now left | now apply summary_name in E].
    + destruct (IH _ eq_refl k Hk) as [s [Hin Hs]]. exists s. split; [now right | assumption].
Qed.

(** C4 (as amended): a requirement whose install call writes to stderr is
    skipped. The loop reaches it in state [st1]; the call stores no record
    for it (the instance is as before), the skipped requirement raises
    nothing and the loop goes on with the next requirement. The keys of the
    manifest's dict being distinct, every record for it in the PackageMap at
    the end of the loop was there when the loop began; so when none was
    there (as in the first call on an instance) none is there at the end,
    and no record of the output is the summary of one. *)
Theorem C4_failed_install_skipped (l1 l2 : dict string) (n v : string)
  (st0 st1 : State World) :
  map_loop env l1 st0 = (Ok tt, st1) ->
  install_stderr env (world st1) n v <> EmptyString ->
  exists st2,
    self st2 = self st1
    /\ map_loop env (l1 ++ (n, v) :: l2)%list st0 = map_loop env l2 st2
    /\ (NoDup (keys (l1 ++ (n, v) :: l2)%list) ->
        let pm := _pkgs_map (self (snd (map_loop env (l1 ++ (n, v) :: l2)%list st0))) in
        no_new_record n (self st0) (self (snd (map_loop env (l1 ++ (n, v) :: l2)%list st0)))
        /\ (no_record_for n (_pkgs_map (self st0)) ->
            no_record_for n pm
            /\ forall infos s,
                 summaries pm = Ok infos -> In s infos ->
                 exists pkg data,
                   In (pkg, data) pm /\ summary pkg data = Ok s
                   /\ req_name_of data <> Some n)).
Proof.
  intros H1 Herr.
  destruct (map_loop_skip n v l2 st1 Herr) as [st2 [Hself Hskip]].
  exists st2. split; [assumption|].
  assert (Hrun : map_loop env (l1 ++ (n, v) :: l2)%list st0 = map_loop env l2 st2).
  { rewrite (map_loop_app _ _ _ _ H1). exact Hskip. }
  split; [assumption|].
  intros Hnd. cbn zeta. rewrite Hrun.
  assert (Hn : ~ In n (keys l1 ++ keys l2)%list).
  { unfold keys in *. rewrite map_app in Hnd. cbn [List.map fst] in Hnd.
    now apply NoDup_remove_2 in Hnd. }
  assert (Hn1 : ~ In n (keys l1)).
  { intros H. apply Hn. apply in_or_app. now left. }
  assert (Hn2 : ~ In n (keys l2)).
  { intros H. apply Hn. apply in_or_app. now right. }
  assert (Hnew : no_new_record n (self st0) (self (snd (map_loop env l2 st2)))).
  { apply (no_new_record_trans n _ (self st1)).
    - pose proof (no_new_record_map_loop n l1 st0 Hn1) as H. now rewrite H1 in H.
    - rewrite <- Hself. now apply no_new_record_map_loop. }
  split; [exact Hnew|].
  intros H0.
  assert (Hpm : no_record_for n (_pkgs_map (self (snd (map_loop env l2 st2))))).
  { intros pkg data Hin E. exact (H0 pkg data (Hnew pkg data Hin E) E). }
  split; [assumption|].
  intros infos s Hs Hin.
  destruct (summaries_from _ _ Hs s Hin) as [pkg [data [Hd Hsum]]].
  exists pkg, data. split; [assumption|]. split; [assumption|]. now apply (Hpm pkg).
Qed.

(** *** [_format] and [map] *)

Lemma format_run (st : State World) :
  _format st =
    (match (if String.eqb (_verbose (self st)) "v"
            then summaries (_pkgs_map (self st)) else Ok []) with
     | Ok infos =>
         Ok (if String.eqb (_fmt (self st)) "json"
             then PyStr (Json.dumps (PyList infos)) else PyList infos)
     | Raise e => Raise e
     end, st).
Proof.
  unfold _format, bind, get_self, lift, ret.
  destruct (if String.eqb (_verbose (self st)) "v"
            then summaries (_pkgs_map (self st)) else Ok []) as [infos|e]; [|reflexivity].
  now destruct (String.eqb (_fmt (self st)) "json").
Qed.

(** When [map] returns, its value is [_format] of the state it ends in. *)
Lemma map_ok_format (st st' : State World) (out : pyval) :
  map env st = (Ok out, st') -> _format st' = (Ok out, st').
Proof.
  unfold map. intros H.
  apply bind_ok_inv in H as [a1 [s1 [_ H]]].
  apply bind_ok_inv in H as [m [s2 [_ H]]].
  apply bind_ok_inv in H as [lines [s3 [_ H]]].
  apply bind_ok_inv in H as [reqs [s4 [_ H]]].
  apply bind_ok_inv in H as [u [s5 [_ H]]].
  pose proof (format_run s5) as F. rewrite H in F.
  assert (Hst : st' = s5) by (now inversion F). subst s5. exact H.
Qed.

Lemma keys_kept_refl (m : Mapper) : keys_kept m m.
Proof. intros k H. exact H. Qed.

Lemma keys_kept_trans (a b c : Mapper) : keys_kept a b -> keys_kept b c -> keys_kept a c.
Proof. unfold keys_kept. auto. Qed.

Lemma keys_kept_stores (name version : string) : stores_ok keys_kept name version.
Proof. intros m k meta mods k' H. cbn [stored _pkgs_map]. now apply keys_dict_set_incl. Qed.

Lemma config_kept_refl (m : Mapper) : config_kept m m.
Proof. repeat split. Qed.

Lemma config_kept_trans (a b c : Mapper) :
  config_kept a b -> config_kept b c -> config_kept a c.
Proof. unfold config_kept. intuition congruence. Qed.

Lemma config_kept_stores (name version : string) : stores_ok config_kept name version.
Proof. intros m k meta mods. repeat split. Qed.

(** C9 (as amended): the PackageMap is empty when the Mapper is built and
    [map] never empties it: the call works on the PackageMap the instance
    holds, every key that was in it before the call is in it after the call,
    and when the call returns the output has a record of that name. So the
    records of one invocation are there in the next one on the same instance
    (unless a requirement of the same canonical name overwrites them). *)
Theorem C9_package_map_outlives_call (reqs fmt site : string) (st : State World) :
  _pkgs_map (Mapper_init reqs fmt site) = []
  /\ keys_kept (self st) (self (snd (map env st)))
  /\ config_kept (self st) (self (snd (map env st)))
  /\ forall out st',
       _verbose (self st) = "v" ->
       map env st = (Ok out, st') ->
       exists infos,
         summaries (_pkgs_map (self st')) = Ok infos
         /\ out = (if String.eqb (_fmt (self st)) "json"
                   then PyStr (Json.dumps (PyList infos)) else PyList infos)
         /\ forall k, In k (keys (_pkgs_map (self st))) ->
                      exists s, In s infos /\ py_get s "name" PyNone = Ok (PyStr k).
Proof.
  assert (HK : keys_kept (self st) (self (snd (map env st)))).
  { apply (self_rel_map env keys_kept keys_kept_refl keys_kept_trans).
    intros; apply keys_kept_stores. }
  assert (HC : config_kept (self st) (self (snd (map env st)))).
  { apply (self_rel_map env config_kept config_kept_refl config_kept_trans).
    intros; apply config_kept_stores. }
  split; [reflexivity|]. split; [exact HK|]. split; [exact HC|].
  intros out st' Hv Hmap. rewrite Hmap in HK, HC. cbn [snd] in HK, HC.
  destruct HC as [_ [Hfmt [_ Hverb]]].
  pose proof (map_ok_format _ _ _ Hmap) as F. rewrite format_run in F.
  rewrite Hverb, Hv, Hfmt in F. cbn [String.eqb Ascii.eqb Bool.eqb] in F.
  destruct (summaries (_pkgs_map (self st'))) as [infos|e] eqn:S; [|discriminate].
  exists infos. split; [reflexivity|]. split; [now inversion F|].
  intros k Hk. apply (summaries_names _ _ S). now apply HK.
Qed.

(** *** A located package without its metadata file *)

Lemma add_pkg_data_missing_metadata (name version loc : string) (st : State World) :
  first_existing env (world st) (code_candidates (_site_pkgs (self st)) name version)
    = Some loc ->
  os_path_exists env (world st) (os_path_join loc (meta_file_of loc)) = false ->
  exists evs,
    _add_pkg_data env name version st =
      (Raise none_has_no_get,
       {| self := self st; world := world st; trace := trace st ++ evs |})
    /\ In (EvLog WARNING "{_meta_file} not found in the {location}"
             [PyStr (meta_file_of loc); PyStr loc]) evs.
Proof.
  intros Hloc Hmeta. unfold _add_pkg_data.
  destruct (get_pkg_path_run env name version st) as [evs1 H1]. rewrite Hloc in H1.
  rewrite (bind_ok _ _ _ _ _ H1).
  unfold bind at 1, log, emit. cbn [self world trace].
  unfold bind at 1. rewrite get_pkg_meta_missing by exact Hmeta.
  unfold bind at 1. cbn [self world trace py_of_option].
  unfold bind at 1. unfold lift, name_or. cbn [self world trace].
  eexists. rewrite <- !app_assoc. split; [reflexivity|].
  apply in_or_app. right. cbn. intuition.
Qed.

(** C1 (what the code does): a requirement that installs without stderr and
    whose metadata directory is found, but whose metadata file is missing.
    The metadata parser logs its warning and returns None; then
    [_add_pkg_data] calls [get] on that None, and the AttributeError leaves
    the loop of [map]: no record is stored and the requirements after it
    are never reached. *)
Theorem C1_missing_metadata_raises (name version loc : string) (rest : dict string)
  (st : State World) :
  let w' := snd (subprocess_run env ["pip"; "install"; name ++ "==" ++ version] (world st)) in
  install_stderr env (world st) name version = EmptyString ->
  first_existing env w' (code_candidates (_site_pkgs (self st)) name version) = Some loc ->
  os_path_exists env w' (os_path_join loc (meta_file_of loc)) = false ->
  exists evs,
    map_loop env ((name, version) :: rest) st =
      (Raise (AttributeError "'NoneType' object has no attribute 'get'"),
       {| self := self st; world := w'; trace := trace st ++ evs |})
    /\ In (EvLog WARNING "{_meta_file} not found in the {location}"
             [PyStr (meta_file_of loc); PyStr loc]) evs.
Proof.
  cbn zeta. intros Herr Hloc Hmeta.
  destruct (install_run name version st) as [evs0 Hi]. cbn zeta in Hi.
  cbn [map_loop]. rewrite (bind_ok _ _ _ _ _ Hi).
  unfold install_stderr in Herr. rewrite Herr. change (truthy EmptyString) with false. cbv iota.
  match goal with |- context [bind _ _ ?s] =>
    destruct (add_pkg_data_missing_metadata name version loc s Hloc Hmeta)
      as [evs [Ha Hin]] end.
  unfold bind at 1. rewrite Ha. cbn [self world trace].
  exists (evs0 ++ evs)%list. rewrite <- app_assoc. split; [reflexivity|].
  apply in_or_app. now right.
Qed.

(** *** The two input errors *)

Lemma split_not_iterable (shown d : string) (st : State World) :
  _split (NotIterable shown) d st =
    (Raise (Exception ("Data are not iterable instance: " ++ shown)),
     {| self := self st; world := world st;
        trace := trace st ++
                 [EvLog ERROR "Data are not iterable instance: {data}" [PyStr shown]] |}).
Proof. reflexivity. Qed.

Lemma cmd_run (cmd : list string) (st : State World) :
  exists evs,
    _cmd env cmd st =
      (Ok (fst (subprocess_run env cmd (world st))),
       {| self := self st; world := snd (subprocess_run env cmd (world st));
          trace := trace st ++ evs |}).
Proof.
  unfold _cmd, run, when, log, emit, bind, ret. cbn [self world trace fst snd].
  destruct (subprocess_run env cmd (world st)) as [[out err] w'].
  cbn [self world trace fst snd].
  destruct (truthy err); cbn [self world trace fst snd];
    eexists; rewrite <- !app_assoc; reflexivity.
Qed.

(** A manifest path that does not exist: [map] raises before any requirement
    is installed, and the PackageMap is as before. *)
Lemma map_missing_manifest (st : State World) :
  let w' := snd (subprocess_run env ["pip"; "install"; "--upgrade"; "pip"] (world st)) in
  os_path_exists env w' (_regs (self st)) = false ->
  exists evs,
    map env st =
      (Raise (Exception ("File not found in the path: " ++ _regs (self st))),
       {| self := self st; world := w'; trace := trace st ++ evs |}).
Proof.
  cbn zeta. intros E. unfold map.
  destruct (cmd_run ["pip"; "install"; "--upgrade"; "pip"] st) as [evs Hc].
  rewrite (bind_ok _ _ _ _ _ Hc).
  unfold bind at 1, get_self. cbn [self world trace].
  unfold bind at 1. rewrite read_missing by (cbn [self world trace]; exact E).
  cbn [self world trace]. eexists. now rewrite <- app_assoc.
Qed.

(** A manifest that is there: [map] runs its loop over the mapping of the
    manifest's lines and formats what the loop leaves. *)
Lemma map_reads_manifest (lines : list string) (st : State World) :
  let w' := snd (subprocess_run env ["pip"; "install"; "--upgrade"; "pip"] (world st)) in
  os_path_exists env w' (_regs (self st)) = true ->
  open_readlines env w' (_regs (self st)) = Some lines ->
  exists evs,
    map env st =
      bind (map_loop env (spec_split lines "==")) (fun _ => _format)
        {| self := self st; world := w'; trace := trace st ++ evs |}.
Proof.
  cbn zeta. intros E O. unfold map.
  destruct (cmd_run ["pip"; "install"; "--upgrade"; "pip"] st) as [evs Hc].
  rewrite (bind_ok _ _ _ _ _ Hc).
  unfold bind at 1, get_self. cbn [self world trace].
  unfold bind at 1. rewrite (read_ok env _ lines) by (cbn [self world trace]; assumption).
  unfold bind at 1. rewrite split_run by apply delimiter_eqeq_ok.
  cbn [self world trace]. eexists. rewrite <- app_assoc. reflexivity.
Qed.

(** *** A located package with its metadata file *)

(** The record is stored under the canonical name: the Name of the metadata,
    or the requirement name when the metadata has none (or an empty one);
    an earlier record under that name is replaced, and the summary names the
    requirement as alias exactly when it differs from the canonical name. *)
Lemma add_pkg_data_stores (name version loc : string) (mlines : list string)
  (mods : option (list string)) (st : State World) :
  let meta := spec_split mlines ":" in
  let key := canonical_name meta name in
  let record := pkg_record (Some meta) name version mods in
  first_existing env (world st) (code_candidates (_site_pkgs (self st)) name version)
    = Some loc ->
  os_path_exists env (world st) (os_path_join loc (meta_file_of loc)) = true ->
  open_readlines env (world st) (os_path_join loc (meta_file_of loc)) = Some mlines ->
  top_level_is env (world st) loc mods ->
  fst (_add_pkg_data env name version st) = Ok tt
  /\ self (snd (_add_pkg_data env name version st)) = stored (self st) key record
  /\ dict_get (_pkgs_map (stored (self st) key record)) key = Some record
  /\ exists s, summary key record = Ok s
               /\ py_get s "alias" PyNone =
                  Ok (PyStr (if String.eqb name key then EmptyString else name)).
Proof.
  cbn zeta. intros Hloc Hm Ho Ht.
  assert (Hrun : exists evs,
            _add_pkg_data env name version st =
              (Ok tt,
               {| self := stored (self st) (canonical_name (spec_split mlines ":") name)
                            (pkg_record (Some (spec_split mlines ":")) name version mods);
                  world := world st; trace := trace st ++ evs |})).
  { unfold _add_pkg_data.
    destruct (get_pkg_path_run env name version st) as [evs1 H1].
    rewrite Hloc in H1. rewrite (bind_ok _ _ _ _ _ H1).
    unfold bind at 1, log, emit. cbn [self world trace].
    unfold bind at 1. rewrite (get_pkg_meta_ok env loc mlines) by assumption.
    unfold bind at 1. cbn [self world trace].
    unfold bind at 1. unfold lift at 1, name_or.
    fold (canonical_name (spec_split mlines ":") name).
    destruct mods as [ms|]; cbn [top_level_is] in Ht.
    - destruct Ht as [Ht [tlines [Hto ->]]].
      unfold bind at 1. rewrite (get_pkg_top_level_ok env loc tlines) by assumption.
      unfold bind at 1. cbn [self world trace]. rewrite set_pkgs_map_run.
      cbn [self world trace]. eexists. rewrite <- !app_assoc. reflexivity.
    - unfold bind at 1. rewrite (get_pkg_top_level_missing env loc) by assumption.
      unfold bind at 1. cbn [self world trace]. rewrite set_pkgs_map_run.
      cbn [self world trace]. eexists. rewrite <- !app_assoc. reflexivity. }
  destruct Hrun as [evs Hrun]. rewrite Hrun. cbn [fst snd self].
  split; [reflexivity|]. split; [reflexivity|]. split.
  - cbn [stored _pkgs_map]. apply dict_get_set_same.
  - eexists. rewrite summary_of_record. split; [reflexivity|].
    cbn [py_get dict_get String.eqb Ascii.eqb Bool.eqb].
    now destruct (String.eqb name (canonical_name (spec_split mlines ":") name)).
Qed.

End Run.

End MapperFacts.

(** * The claims on concrete worlds *)

Module Scenarios.

Import PyStr SplitSpec StripSpec ResolverSpec RunSpec Testbed.
Import Mapper.

(** C1, on the disk where gamma has a dist-info directory without METADATA:
    the install is clean, the directory is found, the file is missing, and
    the loop ends in the AttributeError with alpha still to come. *)
Lemma C1_witness_gamma :
  install_stderr disk_env no_metadata "gamma" "1.0" = EmptyString
  /\ first_existing disk_env no_metadata (code_candidates "/sp" "gamma" "1.0")
     = Some "/sp/gamma-1.0.dist-info"
  /\ os_path_exists disk_env no_metadata "/sp/gamma-1.0.dist-info/METADATA" = false
  /\ exists evs,
       map_loop disk_env [("gamma", "1.0"); ("alpha", "2.0")] (start json_mapper no_metadata) =
         (Raise (AttributeError "'NoneType' object has no attribute 'get'"),
          {| self := json_mapper; world := no_metadata; trace := [] ++ evs |})
       /\ In (EvLog WARNING "{_meta_file} not found in the {location}"
                [PyStr "METADATA"; PyStr "/sp/gamma-1.0.dist-info"]) evs.
Proof.
  split; [reflexivity|]. split; [reflexivity|]. split; [reflexivity|].
  apply (MapperFacts.C1_missing_metadata_raises disk_env "gamma" "1.0"
           "/sp/gamma-1.0.dist-info" [("alpha", "2.0")] (start json_mapper no_metadata));
    reflexivity.
Defined.

(** C2 (what the code does): a record made without top_level.txt holds None
    under top_level, the key is there, so the default of [get] in [_format]
    is not used and the modules field is None, not the empty list. In the
    end-to-end scenario of the specification the beta record carries
    modules None, which [json.dumps] prints as null. *)
Theorem C2_absent_top_level_formats_none :
  (forall pkg meta name version,
     exists s, summary pkg (pkg_record (Some meta) name version None) = Ok s
               /\ py_get s "modules" PyNone = Ok PyNone)
  /\ fst (map disk_env (start native_mapper two_pkgs)) =
       Ok (PyList [alpha_summary; beta_summary])
  /\ fst (map disk_env (start json_mapper two_pkgs)) =
       Ok (PyStr (Json.dumps (PyList [alpha_summary; beta_summary])))
  /\ beta_summary <> spec_beta_summary
  /\ Json.dumps PyNone = "null"
  /\ Json.dumps (PyList []) = "[]".
Proof.
  split.
  - intros pkg meta name version. eexists.
    rewrite MapperFacts.summary_of_record. split; reflexivity.
  - split; [vm_compute; reflexivity|]. split; [vm_compute; reflexivity|].
    split; [discriminate|]. split; reflexivity.
Qed.

(** C3, as stated, fails: with an egg-info directory under the underscored
    name and a dist-info directory under the name itself, the order of the
    specification finds the dist-info directory, the code returns the
    egg-info one, having asked about the two egg-info paths only. *)
Lemma C3_counterexample_order :
  let st := start json_mapper both_variants in
  first_existing disk_env both_variants (spec_candidates "/sp" "my-pkg" "1.0")
    = Some "/sp/my-pkg-1.0.dist-info"
  /\ fst (_get_pkg_path disk_env "my-pkg" "1.0" st) = Ok (Some "/sp/my_pkg-1.0.egg-info")
  /\ probes (trace (snd (_get_pkg_path disk_env "my-pkg" "1.0" st)))
     = ["/sp/my-pkg-1.0.egg-info"; "/sp/my_pkg-1.0.egg-info"]
  /\ fst (_get_pkg_path disk_env "my-pkg" "1.0" st)
     <> Ok (first_existing disk_env both_variants (spec_candidates "/sp" "my-pkg" "1.0")).
Proof.
  cbn zeta. split; [reflexivity|]. split; [reflexivity|]. split; [reflexivity|].
  vm_compute. discriminate.
Qed.

(** C3 (as amended) on a disk without the package: all four paths are asked
    about in the order of the code, and the error line is logged. *)
Lemma C3_witness_not_found :
  exists evs,
    _get_pkg_path disk_env "my-pkg" "9.9" (start json_mapper both_variants) =
      (Ok None, {| self := json_mapper; world := both_variants; trace := [] ++ evs |})
    /\ probes evs = ["/sp/my-pkg-9.9.egg-info"; "/sp/my_pkg-9.9.egg-info";
                     "/sp/my-pkg-9.9.dist-info"; "/sp/my_pkg-9.9.dist-info"]
    /\ In (EvLog ERROR "Package dir not found for {name}:{version}"
             [PyStr "my-pkg"; PyStr "9.9"]) evs.
Proof.
  destruct (MapperFacts.C3_resolver_tries_code_order disk_env "my-pkg" "9.9"
              (start json_mapper both_variants)) as [evs [H1 [H2 H3]]].
  exists evs. split; [exact H1|]. split; [exact H2|]. apply H3. reflexivity.
Defined.

(** C4, as stated, fails on a reused instance: the first call stores alpha
    and Beta; in the second call pip fails for beta, the requirement is
    skipped, and the output of that call still holds the record made for
    beta by the first call. *)
Lemma C4_counterexample_reused_instance :
  let st1 := snd (map disk_env (start native_mapper two_pkgs)) in
  let second := map disk_env (with_world st1 beta_fails) in
  let skipped := EvLog ERROR "Problem to install {name}:{version}. Error: {err}"
                   [PyStr "beta"; PyStr "3.1";
                    PyStr "ERROR: No matching distribution found"] in
  install_stderr disk_env beta_fails "beta" "3.1" <> EmptyString
  /\ ~ In skipped (trace st1)
  /\ In skipped (trace (snd second))
  /\ fst second = Ok (PyList [alpha_summary; beta_summary])
  /\ py_get beta_summary "alias" PyNone = Ok (PyStr "beta").
Proof.
  cbn zeta. split; [vm_compute; discriminate|]. split; [|split; [|split]].
  - vm_compute. intuition discriminate.
  - vm_compute. intuition.
  - vm_compute. reflexivity.
  - reflexivity.
Qed.

(** C4 (as amended) on the disk where pip fails for beta, first call: alpha
    is stored, beta is skipped, the loop ends without an exception and the
    PackageMap has no record made for beta. *)
Lemma C4_witness_beta_fails :
  let st0 := start native_mapper beta_fails in
  let st1 := snd (map_loop disk_env [("alpha", "2.0")] st0) in
  map_loop disk_env [("alpha", "2.0")] st0 = (Ok tt, st1)
  /\ install_stderr disk_env (world st1) "beta" "3.1" <> EmptyString
  /\ exists st2,
       self st2 = self st1
       /\ map_loop disk_env [("alpha", "2.0"); ("beta", "3.1")] st0 = (Ok tt, st2)
       /\ no_record_for "beta" (_pkgs_map (self st2)).
Proof.
  cbn zeta.
  split; [vm_compute; reflexivity|]. split; [vm_compute; discriminate|].
  destruct (MapperFacts.C4_failed_install_skipped disk_env [("alpha", "2.0")] []
              "beta" "3.1" (start native_mapper beta_fails)
              (snd (map_loop disk_env [("alpha", "2.0")] (start native_mapper beta_fails))))
    as [st2 [Hs [Hrun Hrec]]].
  - vm_compute; reflexivity.
  - vm_compute; discriminate.
  - exists st2. split; [exact Hs|]. split; [exact Hrun|].
    assert (Hn : NoDup (keys ([("alpha", "2.0")] ++ [("beta", "3.1")])%list)).
    { cbn. repeat constructor; cbn; intuition discriminate. }
    assert (H0 : no_record_for "beta" (_pkgs_map (self (start native_mapper beta_fails)))).
    { intros pkg data []. }
    destruct (Hrec Hn) as [_ Hpm]. destruct (Hpm H0) as [Hfin _].
    change (([("alpha", "2.0")] ++ [("beta", "3.1")])%list)
      with ([("alpha", "2.0"); ("beta", "3.1")]) in Hrun, Hfin.
    rewrite Hrun in Hfin. exact Hfin.
Defined.

(** C5 (as amended) on the two examples of the specification. *)
Lemma C5_witness_examples :
  let st := start json_mapper two_pkgs in
  delimiter_ok "==" = true
  /\ delimiter_ok ":" = true
  /\ _split (Iterable ["name==1.0.0"; "not-a-kv-line"]) "==" st = (Ok [("name", "1.0.0")], st)
  /\ _split (Iterable ["Name: foo"]) ":" st = (Ok [("Name", "foo")], st).
Proof.
  cbn zeta. split; [reflexivity|]. split; [reflexivity|]. split.
  - exact (proj1 (MapperFacts.C5_split_returns_spec_mapping
                    ["name==1.0.0"; "not-a-kv-line"] "=="
                    (start json_mapper two_pkgs) eq_refl)).
  - exact (proj1 (MapperFacts.C5_split_returns_spec_mapping
                    ["Name: foo"] ":" (start json_mapper two_pkgs) eq_refl)).
Defined.

(** C5, as stated for any delimiter, fails: the code strips the line before
    it splits. With the delimiter " =" the line " =v" contains the
    delimiter, the stripped line does not, and unpacking the unsplit line
    raises; with the empty delimiter [str.split] raises. The words of the
    specification give a mapping in both cases. *)
Lemma C5_counterexample_delimiter :
  let st := start json_mapper two_pkgs in
  spec_split [" =v"] " =" = [(EmptyString, "v")]
  /\ _split (Iterable [" =v"]) " =" st
     = (Raise (ValueError "not enough values to unpack (expected 2, got 1)"), st)
  /\ spec_split ["a"] EmptyString = [(EmptyString, "a")]
  /\ _split (Iterable ["a"]) EmptyString st = (Raise (ValueError "empty separator"), st).
Proof. cbn zeta. repeat split. Qed.

(** C6 (what the code does): on the disk where gamma lacks its METADATA the
    manifest exists and is read, so neither input error occurs, and yet
    [map] ends in an AttributeError: the failure of one requirement is not
    local, alpha is never installed and nothing is returned. *)
Theorem C6_other_failure_aborts_map :
  let st := start json_mapper no_metadata in
  os_path_exists disk_env no_metadata (_regs json_mapper) = true
  /\ open_readlines disk_env no_metadata (_regs json_mapper)
     = Some ["gamma==1.0" ++ nl; "alpha==2.0" ++ nl]
  /\ fst (map disk_env st) = Raise (AttributeError "'NoneType' object has no attribute 'get'")
  /\ ~ In (EvRun ["pip"; "install"; "alpha==2.0"]) (trace (snd (map disk_env st)))
  /\ _pkgs_map (self (snd (map disk_env st))) = [].
Proof.
  cbn zeta. split; [reflexivity|]. split; [reflexivity|]. split; [vm_compute; reflexivity|].
  split; [|vm_compute; reflexivity].
  vm_compute. intuition discriminate.
Qed.

(** C7 on a dist-info and on an egg-info location. *)
Lemma C7_witness_dist_and_egg :
  meta_file_of "/sp/alpha-2.0.dist-info" = "METADATA"
  /\ meta_file_of "/sp/delta-0.1.egg-info" = "PKG-INFO".
Proof.
  split.
  - exact (proj1 (proj2 (proj2 (MapperFacts.C7_meta_file_by_suffix disk_env
             "/sp/alpha-2.0.dist-info" (start json_mapper two_pkgs)))) eq_refl).
  - exact (proj2 (proj1 (MapperFacts.C7_meta_file_by_suffix disk_env
             "/sp/delta-0.1.egg-info" (start json_mapper egg_no_pkginfo))) eq_refl).
Defined.

(** C8 (what the code does): delta installs without stderr and its egg-info
    directory is found, but PKG-INFO is missing: no record is stored under
    delta (the canonical name the fallback would give) or any other name,
    and [map] raises instead of returning a summary. *)
Theorem C8_located_requirement_not_stored :
  let st := start native_mapper egg_no_pkginfo in
  install_stderr disk_env egg_no_pkginfo "delta" "0.1" = EmptyString
  /\ first_existing disk_env egg_no_pkginfo (code_candidates "/sp" "delta" "0.1")
     = Some "/sp/delta-0.1.egg-info"
  /\ fst (_add_pkg_data disk_env "delta" "0.1" st)
     = Raise (AttributeError "'NoneType' object has no attribute 'get'")
  /\ dict_get (_pkgs_map (self (snd (_add_pkg_data disk_env "delta" "0.1" st)))) "delta" = None
  /\ _pkgs_map (self (snd (map disk_env st))) = []
  /\ fst (map disk_env st) = Raise (AttributeError "'NoneType' object has no attribute 'get'").
Proof. cbn zeta. repeat split; vm_compute; reflexivity. Qed.

(** C9, as stated, fails: after a first call on the disk with alpha and
    beta the PackageMap is not empty; a second call on the same instance,
    with the manifest cut down to beta, still prints alpha, which a fresh
    Mapper on that disk does not. *)
Lemma C9_counterexample_second_call :
  let st1 := snd (map disk_env (start native_mapper two_pkgs)) in
  keys (_pkgs_map (self st1)) = ["alpha"; "Beta"]
  /\ fst (map disk_env (with_world st1 only_beta)) = Ok (PyList [alpha_summary; beta_summary])
  /\ fst (map disk_env (start native_mapper only_beta)) = Ok (PyList [beta_summary]).
Proof. cbn zeta. repeat split; vm_compute; reflexivity. Qed.

(** C9 (as amended) on that second call: alpha, stored by the first call,
    has a record in the output of the second. *)
Lemma C9_witness_second_call :
  let st1 := with_world (snd (map disk_env (start native_mapper two_pkgs))) only_beta in
  exists infos s,
    fst (map disk_env st1) = Ok (PyList infos)
    /\ In s infos /\ py_get s "name" PyNone = Ok (PyStr "alpha").
Proof.
  cbn zeta.
  set (st1 := with_world (snd (map disk_env (start native_mapper two_pkgs))) only_beta).
  destruct (MapperFacts.C9_package_map_outlives_call disk_env "requirements.txt" "native" "/sp" st1)
    as [_ [_ [_ H]]].
  destruct (H (PyList [alpha_summary; beta_summary]) (snd (map disk_env st1)))
    as [infos [_ [Hout Hk]]].
  - reflexivity.
  - vm_compute. reflexivity.
  - destruct (Hk "alpha") as [s [Hin Hs]]; [vm_compute; now left|].
    exists infos, s. split; [|split; assumption].
    replace (fst (map disk_env st1)) with (Ok (PyList [alpha_summary; beta_summary]))
      by (vm_compute; reflexivity).
    rewrite Hout. reflexivity.
Defined.

(** C10 on a top_level.txt with a blank second line and a third line with
    spaces on both sides: the entries are alpha_mod, the empty string and
    beta_mod, and beta_mod is its line without the two spaces before it and
    the space and the newline after it. *)
Lemma C10_witness_blank_line :
  let st := start native_mapper blank_line in
  let path := os_path_join "/sp/alpha-2.0.dist-info" "top_level.txt" in
  os_path_exists disk_env blank_line path = true
  /\ open_readlines disk_env blank_line path = Some blank_lines
  /\ exists modules,
       fst (_get_pkg_top_level disk_env "/sp/alpha-2.0.dist-info" st) = Ok (Some modules)
       /\ List.length modules = 3
       /\ nth_error modules 0 = Some "alpha_mod"
       /\ nth_error modules 1 = Some EmptyString
       /\ nth_error modules 2 = Some "beta_mod"
       /\ stripped_of ("  beta_mod " ++ nl) "beta_mod".
Proof.
  cbn zeta. split; [reflexivity|]. split; [reflexivity|].
  destruct (MapperFacts.C10_top_level_entry_per_line disk_env "/sp/alpha-2.0.dist-info"
              blank_lines (start native_mapper blank_line) eq_refl eq_refl)
    as [modules [H1 [H2 [H3 [H4 [H5 _]]]]]].
  exists modules. split; [exact H1|]. split; [exact H2|].
  split; [exact (H3 0 ("alpha_mod" ++ nl) eq_refl)|].
  split; [exact (H5 1 nl eq_refl eq_refl)|].
  split; [exact (H3 2 ("  beta_mod " ++ nl) eq_refl)|].
  destruct (H4 2 ("  beta_mod " ++ nl) eq_refl) as [entry [He [Hs _]]].
  rewrite (H3 2 ("  beta_mod " ++ nl) eq_refl) in He.
  assert (Hb : entry = "beta_mod") by (inversion He; reflexivity).
  rewrite Hb in Hs. exact Hs.
Defined.

End Scenarios.

(** * More of the code: what the methods keep, return and never do *)

Module ExtraFacts.

Import PyStr SplitSpec ResolverSpec RunSpec ExtraSpec PyStrFacts DictFacts MapperFacts.
Import Mapper.

(** ** Strings and dicts *)

Lemma lstrip_idem (s : string) : lstrip (lstrip s) = lstrip s.
Proof.
  induction s as [|c s IH]; [reflexivity|].
  destruct (isspace c) eqn:Hc.
  - now rewrite (lstrip_cons_space c s Hc).
  - rewrite (lstrip_cons_nonspace c s Hc). now apply lstrip_cons_nonspace.
Qed.

Lemma strip_idem (s : string) : strip (strip s) = strip s.
Proof.
  unfold strip. rewrite (lstrip_rstrip (lstrip s)), lstrip_idem. apply rstrip_idem.
Qed.

Lemma rstrip_app_space (x : string) (c : ascii) :
  isspace c = true -> rstrip (x ++ String c EmptyString) = rstrip x.
Proof.
  intros Hc. induction x as [|a x IH].
  - simpl. now rewrite Hc.
  - change (rstrip (String a (x ++ String c EmptyString)) = rstrip (String a x)).
    cbn [rstrip]. now rewrite IH.
Qed.

Lemma strip_app_newline (v : string) : strip (v ++ newline) = strip v.
Proof.
  unfold strip. rewrite <- !lstrip_rstrip. unfold newline.
  now rewrite rstrip_app_space by reflexivity.
Qed.

(** A key without the first character of the delimiter: the first
    occurrence of the delimiter is the one written after the key. *)
Lemma partition_first_after_key (k rest : string) (c0 : ascii) (d' : string) :
  has_char c0 k = false ->
  partition_first (k ++ String c0 d' ++ rest) (String c0 d') = Some (k, rest).
Proof.
  induction k as [|a k IH]; intros H.
  - change (EmptyString ++ String c0 d' ++ rest) with (String c0 d' ++ rest).
    apply partition_first_prefix. apply (strip_prefix_self_app (String c0 d') rest).
  - cbn [has_char] in H. destruct (Ascii.eqb a c0) eqn:E; [discriminate|].
    change (partition_first (String a (k ++ String c0 d' ++ rest)) (String c0 d')
            = Some (String a k, rest)).
    cbn [partition_first strip_prefix]. rewrite Ascii.eqb_sym, E.
    now rewrite (IH H).
Qed.

Lemma dict_set_new {V : Type} (d : dict V) (k : string) (v : V) :
  ~ In k (keys d) -> dict_set d k v = (d ++ [(k, v)])%list.
Proof.
  induction d as [|[k0 v0] d IH]; intros H; [reflexivity|].
  cbn [dict_set app]. destruct (String.eqb_spec k0 k) as [E|E].
  - exfalso. apply H. left. exact E.
  - rewrite IH; [reflexivity|]. intros Hin. apply H. now right.
Qed.

Lemma fold_dict_set_fresh (pairs acc : dict string) :
  NoDup (keys acc ++ keys pairs)%list ->
  fold_left (fun a kv => dict_set a (fst kv) (snd kv)) pairs acc = (acc ++ pairs)%list.
Proof.
  revert acc; induction pairs as [|[k v] pairs IH]; intros acc H; cbn [fold_left fst snd].
  - now rewrite app_nil_r.
  - rewrite dict_set_new.
    + rewrite IH.
      * now rewrite <- app_assoc.
      * unfold keys in *. rewrite map_app. cbn [List.map fst].
        rewrite <- app_assoc. exact H.
    + intros Hin. unfold keys in H. cbn [List.map fst] in H.
      apply NoDup_remove_2 in H. apply H. apply in_or_app. now left.
Qed.

Lemma length_dict_set {V : Type} (d : dict V) (k : string) (v : V) :
  List.length (dict_set d k v) <= S (List.length d).
Proof.
  induction d as [|[k0 v0] d IH]; cbn [dict_set List.length]; [lia|].
  destruct (String.eqb k0 k); cbn [List.length]; lia.
Qed.

(** ** [_split]: what every returned mapping satisfies *)

Lemma dict_of_parts_keeps (reqs : list (list string)) (acc m : dict string) :
  dict_of_parts reqs acc = Ok m ->
  (NoDup (keys acc) -> NoDup (keys m))
  /\ (stripped_entries acc -> stripped_entries m)
  /\ List.length m <= List.length acc + List.length reqs.
Proof.
  revert acc; induction reqs as [|parts reqs IH]; intros acc H.
  - cbn in H. inversion H; subst. split; [auto|]. split; [auto|]. cbn [List.length]. lia.
  - destruct parts as [|key [|value [|x parts]]]; try discriminate.
    cbn [dict_of_parts] in H. destruct (IH _ H) as [H1 [H2 H3]].
    split; [|split].
    + intros Hn. apply H1. now apply keys_dict_set_NoDup.
    + intros Hs. apply H2. intros k v Hin.
      apply In_dict_set in Hin as [E|Hin]; [|now apply Hs].
      inversion E; subst. split; apply strip_idem.
    + pose proof (length_dict_set acc (strip key) (strip value)).
      cbn [List.length]. lia.
Qed.

Lemma split_lines_length (lines : list string) (d : string) (reqs : list (list string)) :
  split_lines lines d = Ok reqs -> List.length reqs <= List.length lines.
Proof.
  revert reqs; induction lines as [|r lines IH]; intros reqs H; cbn [split_lines] in H.
  - inversion H. cbn. lia.
  - destruct (find r d >? -1)%Z.
    + destruct (str_split1 (strip r) d) as [parts|e]; [|discriminate].
      destruct (split_lines lines d) as [reqs'|e]; [|discriminate].
      inversion H; subst. specialize (IH _ eq_refl). cbn [List.length]. lia.
    + specialize (IH _ H). cbn [List.length]. lia.
Qed.



(** X1: whenever [_split] returns a mapping, whatever the delimiter, it
    has changed no state, the keys of the mapping are distinct, no key and
    no value has whitespace at either end, and the mapping has at most one
    entry per line. *)
Theorem X1_split_mapping_is_stripped {World : Type} (lines : list string) (d : string)
  (st st' : State World) (m : dict string) :
  _split (Iterable lines) d st = (Ok m, st') ->
  st' = st
  /\ NoDup (keys m)
  /\ stripped_entries m
  /\ List.length m <= List.length lines.
Proof.
  unfold _split, bind, lift.
  destruct (split_lines lines d) as [reqs|e] eqn:S; [|discriminate].
  destruct (dict_of_parts reqs []) as [m'|e] eqn:D; [|discriminate].
  intros H; inversion H; subst.
  destruct (dict_of_parts_keeps _ _ _ D) as [H1 [H2 H3]].
  split; [reflexivity|]. split; [apply H1; constructor|]. split.
  - apply H2. intros k v [].
  - apply split_lines_length in S. cbn [List.length] in H3. lia.
Qed.

Lemma spec_pairs_manifest (reqs : dict string) :
  (forall kv, In kv reqs -> plain_requirement kv) ->
  spec_pairs (List.map manifest_line reqs) "==" = reqs.
Proof.
  induction reqs as [|[k v] reqs IH]; intros H; [reflexivity|].
  cbn [List.map spec_pairs]. unfold manifest_line at 1. cbn [fst snd].
  destruct (H (k, v) (or_introl eq_refl)) as [Hk [Hv Hc]]. cbn [fst snd] in Hk, Hv, Hc.
  change (k ++ "==" ++ v ++ newline) with (k ++ String "=" "=" ++ (v ++ newline)).
  rewrite (partition_first_after_key k (v ++ newline) "=" "=" Hc).
  rewrite strip_app_newline, Hk, Hv. f_equal. apply IH.
  intros kv Hin. apply H. now right.
Qed.

(** X2: the manifest round trip. For a mapping of requirements whose names
    are distinct, stripped and free of the equals sign and whose versions
    are stripped, splitting the lines name==version (each with its newline,
    as [readlines] gives them) at "==" returns exactly that mapping, in the
    same order. *)
Theorem X2_manifest_round_trip {World : Type} (reqs : dict string) (st : State World) :
  NoDup (keys reqs) ->
  (forall kv, In kv reqs -> plain_requirement kv) ->
  _split (Iterable (List.map manifest_line reqs)) "==" st = (Ok reqs, st).
Proof.
  intros Hn Hp. rewrite split_run by reflexivity.
  unfold spec_split. rewrite (spec_pairs_manifest reqs Hp).
  now rewrite fold_dict_set_fresh.
Qed.



(** ** Which events a method adds *)

Section Unseen.

Context {World : Type} (env : Env World).
Variable f : event -> bool.

Lemma unseen_ret {A : Type} (a : A) : unseen f (ret a : M World A).
Proof. intros st. reflexivity. Qed.

Lemma unseen_raise {A : Type} (e : exn) : unseen f (raise e : M World A).
Proof. intros st. reflexivity. Qed.

Lemma unseen_lift {A : Type} (r : result A) : unseen f (lift r : M World A).
Proof. intros st. reflexivity. Qed.

Lemma unseen_get_self : unseen f (get_self : M World Mapper).
Proof. intros st. reflexivity. Qed.

Lemma unseen_set_pkgs_map (k : string) (v : pyval) :
  unseen f (set_pkgs_map k v : M World unit).
Proof. intros st. reflexivity. Qed.

Lemma unseen_emit (e : event) : f e = false -> unseen f (emit e : M World unit).
Proof.
  intros H st. cbn [emit snd trace]. rewrite filter_app. cbn [filter]. rewrite H.
  apply app_nil_r.
Qed.

Lemma unseen_bind {A B : Type} (c : M World A) (k : A -> M World B) :
  unseen f c -> (forall a, unseen f (k a)) -> unseen f (bind c k).
Proof.
  intros Hc Hk st. unfold bind. specialize (Hc st).
  destruct (c st) as [[a|e] st1]; cbn [snd] in *; [|assumption].
  now rewrite (Hk a st1).
Qed.

(** What [c] adds comes before what the rest adds, and when [c] cannot
    raise both are added. *)
Lemma adds_bind {A B : Type} (c : M World A) (k : A -> M World B)
  (evs1 evs2 : list event) :
  adds f c evs1 -> (forall st, exists a, fst (c st) = Ok a) ->
  (forall a, adds f (k a) evs2) -> adds f (bind c k) (evs1 ++ evs2).
Proof.
  intros Hc Hok Hk st. unfold bind. specialize (Hc st). destruct (Hok st) as [a0 Ha].
  destruct (c st) as [[a|e] st1]; cbn [fst snd] in *; [|discriminate].
  rewrite (Hk a st1), Hc. now rewrite app_assoc.
Qed.

Lemma adds_unseen_bind {A B : Type} (c : M World A) (k : A -> M World B)
  (evs : list event) :
  adds f c evs -> (forall a, unseen f (k a)) -> adds f (bind c k) evs.
Proof.
  intros Hc Hk st. unfold bind. specialize (Hc st).
  destruct (c st) as [[a|e] st1]; cbn [snd] in *; [|assumption].
  now rewrite (Hk a st1).
Qed.

Lemma unseen_adds_bind {A B : Type} (c : M World A) (k : A -> M World B)
  (evs : list event) :
  unseen f c -> (forall st, exists a, fst (c st) = Ok a) ->
  (forall a, adds f (k a) evs) -> adds f (bind c k) evs.
Proof.
  intros Hc Hok Hk st. unfold bind. specialize (Hc st). destruct (Hok st) as [a0 Ha].
  destruct (c st) as [[a|e] st1]; cbn [fst snd] in *; [|discriminate].
  now rewrite (Hk a st1), Hc.
Qed.

Lemma adds_emit (e : event) : adds f (emit e : M World unit) (filter f [e]).
Proof. intros st. cbn [emit snd trace]. apply filter_app. Qed.

Hypothesis f_blind : blind_to_files f.

Lemma unseen_log lvl template args : unseen f (log lvl template args : M World unit).
Proof. apply unseen_emit. apply f_blind. Qed.

Lemma unseen_when (b : bool) (c : M World unit) : unseen f c -> unseen f (when b c).
Proof. intros H. destruct b; [exact H | apply unseen_ret]. Qed.

Lemma unseen_exists (path : string) : unseen f (exists_ env path).
Proof.
  apply unseen_bind; [apply unseen_emit, f_blind|]. intros _ st. reflexivity.
Qed.

Lemma unseen_readlines (path : string) : unseen f (readlines env path).
Proof.
  apply unseen_bind; [apply unseen_emit, f_blind|]. intros _ st.
  now destruct (open_readlines env (world st) path).
Qed.

Lemma unseen_read (path : string) : unseen f (_read env path).
Proof.
  unfold _read. apply unseen_bind; [apply unseen_log|]. intros _.
  apply unseen_bind; [apply unseen_exists|]. intros b. destruct b; cbn [negb].
  - apply unseen_bind; [apply unseen_readlines|]. intros lines.
    apply unseen_bind; [apply unseen_log | intros _; apply unseen_ret].
  - apply unseen_bind; [apply unseen_log | intros _; apply unseen_raise].
Qed.

Lemma unseen_split (data : py_data) (d : string) : unseen f (_split data d : M World _).
Proof.
  destruct data as [lines|shown]; cbn [_split].
  - apply unseen_bind; [apply unseen_lift | intros reqs; apply unseen_lift].
  - apply unseen_bind; [apply unseen_log | intros _; apply unseen_raise].
Qed.

Lemma unseen_get_pkg_path_loop (sufs : list string) (name version : string) :
  unseen f (_get_pkg_path_loop env sufs name version).
Proof.
  induction sufs as [|suf sufs IH]; cbn [_get_pkg_path_loop].
  - apply unseen_bind; [apply unseen_log | intros _; apply unseen_ret].
  - apply unseen_bind; [apply unseen_get_self|]. intros m.
    apply unseen_bind; [apply unseen_log|]. intros _.
    apply unseen_bind; [apply unseen_exists|]. intros b. destruct b; [apply unseen_ret|].
    apply unseen_bind; [apply unseen_exists|]. intros b2. destruct b2; [apply unseen_ret|].
    exact IH.
Qed.

Lemma unseen_get_pkg_meta (location : string) : unseen f (_get_pkg_meta env location).
Proof.
  unfold _get_pkg_meta. apply unseen_bind; [apply unseen_log|]. intros _.
  apply unseen_bind; [apply unseen_exists|]. intros b. destruct b; cbn [negb].
  - apply unseen_bind; [apply unseen_read|]. intros lines.
    apply unseen_bind; [apply unseen_split | intros m; apply unseen_ret].
  - apply unseen_bind; [apply unseen_log | intros _; apply unseen_ret].
Qed.

Lemma unseen_get_pkg_top_level (location : string) :
  unseen f (_get_pkg_top_level env location).
Proof.
  unfold _get_pkg_top_level. apply unseen_bind; [apply unseen_log|]. intros _.
  apply unseen_bind; [apply unseen_exists|]. intros b. destruct b; cbn [negb].
  - apply unseen_bind; [apply unseen_read | intros lines; apply unseen_ret].
  - apply unseen_bind; [apply unseen_log | intros _; apply unseen_ret].
Qed.

Lemma unseen_format : unseen f (_format : M World pyval).
Proof. intros st. now rewrite format_run. Qed.

(** [_get_pkg_path] adds its two printed lines if [f] selects them. *)
Lemma adds_get_pkg_path (name version : string) :
  adds f (_get_pkg_path env name version) (filter f (printed_lines name version)).
Proof.
  unfold _get_pkg_path, print.
  replace (filter f (printed_lines name version))
    with (filter f [EvPrint ("name: $" ++ name)]
          ++ (filter f [EvPrint ("version: $" ++ version)] ++ []))%list
    by (unfold printed_lines; cbn [filter];
        destruct (f (EvPrint ("name: $" ++ name)));
        destruct (f (EvPrint ("version: $" ++ version))); reflexivity).
  apply adds_bind; [apply adds_emit | intros st; now exists tt |]. intros _.
  rewrite app_nil_r.
  apply adds_unseen_bind; [apply adds_emit|]. intros _.
  apply unseen_get_pkg_path_loop.
Qed.

(** [_add_pkg_data] adds the two printed lines if [f] selects them, and
    nothing else that [f] selects, whatever it returns. *)
Lemma adds_add_pkg_data (name version : string) :
  adds f (_add_pkg_data env name version) (filter f (printed_lines name version)).
Proof.
  unfold _add_pkg_data. apply adds_unseen_bind; [apply adds_get_pkg_path|].
  intros [location|]; [|apply unseen_ret].
  apply unseen_bind; [apply unseen_log|]. intros _.
  apply unseen_bind; [apply unseen_get_pkg_meta|]. intros meta.
  apply unseen_bind; [apply unseen_log|]. intros _.
  apply unseen_bind; [apply unseen_lift|]. intros pkg_name.
  apply unseen_bind; [apply unseen_get_pkg_top_level|]. intros mods.
  apply unseen_bind; [apply unseen_log|]. intros _.
  apply unseen_set_pkgs_map.
Qed.

(** [_cmd] adds its one subprocess call if [f] selects it. *)
Lemma adds_cmd (cmd : list string) : adds f (_cmd env cmd) (filter f [EvRun cmd]).
Proof.
  intros st. unfold _cmd, run, when, log, emit, bind, ret.
  cbn [self world trace fst snd].
  destruct (subprocess_run env cmd (world st)) as [[out err] w'].
  cbn [self world trace fst snd].
  destruct f_blind as [Hlog _].
  destruct (truthy err); cbn [self world trace fst snd];
    rewrite !filter_app; cbn [filter]; rewrite !Hlog; rewrite ?app_nil_r; reflexivity.
Qed.

Lemma adds_install (name version : string) :
  adds f (_install env name version) (filter f [EvRun (install_cmd name version)]).
Proof.
  unfold _install. apply adds_unseen_bind; [apply adds_cmd|]. intros r.
  apply unseen_bind; [apply unseen_when, unseen_log | intros _; apply unseen_ret].
Qed.

End Unseen.



(** ** [_read], [_install], [_get_pkg_path], [_add_pkg_data] one by one *)

Section Methods.

Context {World : Type} (env : Env World).

Lemma is_run_blind : blind_to_files is_run.
Proof. repeat split. Qed.

Lemma is_print_blind : blind_to_files is_print.
Proof. repeat split. Qed.

(** X3: [_read] on a missing path and on a path that reads. A path that
    does not exist is logged as an error, the exception File not found with
    the path is raised, and no file is opened. For a path that exists and
    whose open and [readlines] give lines, the file is opened once and the
    lines are returned as they are: nothing is stripped. In both cases the
    instance and the world are as before. Nothing is said here of an open
    or a read that fails. *)
Theorem X3_read_outcomes (path : string) (st : State World) :
  let r := _read env path st in
  (os_path_exists env (world st) path = false ->
   fst r = Raise (Exception ("File not found in the path: " ++ path))
   /\ self (snd r) = self st
   /\ world (snd r) = world st
   /\ exists evs,
        added st (snd r) evs
        /\ filter is_open evs = []
        /\ In (EvLog ERROR "File not found in the path: {path}" [PyStr path]) evs)
  /\ (forall lines,
        os_path_exists env (world st) path = true ->
        open_readlines env (world st) path = Some lines ->
        fst r = Ok lines
        /\ self (snd r) = self st
        /\ world (snd r) = world st
        /\ exists evs, added st (snd r) evs /\ filter is_open evs = [EvOpen path]).
Proof.
  cbn zeta. split.
  - intros E. rewrite (read_missing env path st E). cbn [fst snd self world].
    split; [reflexivity|]. split; [reflexivity|]. split; [reflexivity|].
    eexists. split; [reflexivity|]. split; [reflexivity|]. cbn. intuition.
  - intros lines E O. rewrite (read_ok env path lines st E O). cbn [fst snd self world].
    split; [reflexivity|]. split; [reflexivity|]. split; [reflexivity|].
    eexists. split; reflexivity.
Qed.

(** X4: [_install] around its subprocess call. Given what the call
    [pip install name==version] returns (the subprocess is taken to start
    and its output to decode), [_install] makes that call once and no other,
    returns its decoded stdout and stderr as they are, leaves the instance
    as it is, and logs the not-installed error exactly when stderr is not
    empty: it does not try again and adds no failure of its own. *)
Theorem X4_install_runs_once (name version : string) (st : State World) :
  let cmd := install_cmd name version in
  let out := fst (subprocess_run env cmd (world st)) in
  exists evs,
    _install env name version st =
      (Ok out,
       {| self := self st; world := snd (subprocess_run env cmd (world st));
          trace := trace st ++ evs |})
    /\ filter is_run evs = [EvRun cmd]
    /\ (In (EvLog ERROR "Package {name}:{version} not installed: {err}"
              [PyStr name; PyStr version; PyStr (snd out)]) evs
        <-> snd out <> EmptyString).
Proof.
  cbn zeta. unfold _install, _cmd, run, when, log, emit, bind, ret, install_cmd.
  cbn [self world trace fst snd].
  destruct (subprocess_run env _ (world st)) as [[out err] w'].
  cbn [self world trace fst snd].
  destruct (truthy err) eqn:T; cbn [self world trace fst snd]; rewrite ?T;
    cbn [self world trace fst snd]; eexists; rewrite <- !app_assoc;
    (split; [reflexivity|]); (split; [reflexivity|]).
  - apply truthy_nonempty in T. split; [intros _; exact T|].
    intros _. cbn. intuition.
  - split.
    + cbn. intuition discriminate.
    + intros H. apply truthy_nonempty in H. congruence.
Qed.

(** X5: the resolver never raises and changes neither the instance nor
    the world; a path it returns is one of the four candidates and exists;
    it returns None only when none of the four exists. *)
Theorem X5_resolver_returns_existing_path (name version : string) (st : State World) :
  let cands := code_candidates (_site_pkgs (self st)) name version in
  let r := _get_pkg_path env name version st in
  self (snd r) = self st
  /\ world (snd r) = world st
  /\ exists found,
       fst r = Ok found
       /\ match found with
          | Some p => In p cands /\ os_path_exists env (world st) p = true
          | None => forall p, In p cands -> os_path_exists env (world st) p = false
          end.
Proof.
  cbn zeta. destruct (get_pkg_path_run env name version st) as [evs H].
  rewrite H. cbn [fst snd self world].
  split; [reflexivity|]. split; [reflexivity|]. eexists. split; [reflexivity|].
  unfold first_existing.
  destruct (List.find _ _) as [p|] eqn:F.
  - apply find_some in F. exact F.
  - intros p Hp. exact (find_none _ _ F p Hp).
Qed.

Lemma replace_absent (s : string) (old new : ascii) :
  has_char old s = false -> replace s old new = s.
Proof.
  induction s as [|c s IH]; intros H; [reflexivity|].
  cbn [has_char] in H. cbn [replace].
  destruct (Ascii.eqb c old); [discriminate|]. now rewrite IH.
Qed.

(** X6: for a name without a hyphen the underscored variant is the name
    itself, so the resolver answers with the first that exists of the two
    paths name-version.egg-info and name-version.dist-info. *)
Theorem X6_resolver_without_hyphen (name version : string) (st : State World) :
  has_char "-" name = false ->
  fst (_get_pkg_path env name version st) =
    Ok (first_existing env (world st)
          [os_path_join (_site_pkgs (self st)) (pkg_path_tmpl name version "egg");
           os_path_join (_site_pkgs (self st)) (pkg_path_tmpl name version "dist")]).
Proof.
  intros H. destruct (get_pkg_path_run env name version st) as [evs Hr].
  rewrite Hr. cbn [fst]. f_equal. unfold code_candidates, first_existing.
  rewrite (replace_absent name "-" "_" H). cbn [List.find].
  destruct (os_path_exists env (world st)
              (os_path_join (_site_pkgs (self st)) (pkg_path_tmpl name version "egg")));
    [reflexivity|].
  now destruct (os_path_exists env (world st)
                  (os_path_join (_site_pkgs (self st)) (pkg_path_tmpl name version "dist"))).
Qed.

(** X7: whatever it finds and whether it returns or raises,
    [_add_pkg_data] calls [print] exactly twice, with the texts
    name: $name and version: $version (the dollar sign is in the source).
    Log calls are other events: where their records go is set by the debug
    flag of [__init__], which is not part of this statement. *)
Theorem X7_add_pkg_data_prints_two_lines (name version : string) (st : State World) :
  filter is_print (trace (snd (_add_pkg_data env name version st))) =
    (filter is_print (trace st)
     ++ [EvPrint ("name: $" ++ name); EvPrint ("version: $" ++ version)])%list.
Proof. exact (adds_add_pkg_data env is_print is_print_blind name version st). Qed.

End Methods.



(** ** The loop of [map] and what it stores *)

Section Stores.

Context {World : Type} (env : Env World).

Variable R : Mapper -> Mapper -> Prop.
Hypothesis R_refl : forall m, R m m.
Hypothesis R_trans : forall a b c, R a b -> R b c -> R a c.

Lemma self_rel_lift_ok {A B : Type} (a : A) (k : A -> M World B) :
  self_rel R (k a) -> self_rel R (bind (lift (Ok a)) k).
Proof. intros H st. unfold bind, lift. apply H. Qed.

Lemma self_rel_lift_raise {A B : Type} (e : exn) (k : A -> M World B) :
  self_rel R (bind (lift (Raise e)) k).
Proof. intros st. unfold bind, lift. cbn [snd]. apply R_refl. Qed.

Lemma self_rel_add_pkg_data_made (name version : string) :
  stores_made R name version -> self_rel R (_add_pkg_data env name version).
Proof.
  intros Hs. unfold _add_pkg_data.
  apply (self_rel_bind R R_trans);
    [apply (self_rel_keeps R R_refl), quiet_keeps_self, quiet_get_pkg_path|].
  intros [location|]; [|apply (self_rel_keeps R R_refl), quiet_keeps_self, quiet_ret].
  apply (self_rel_bind R R_trans);
    [apply (self_rel_keeps R R_refl), quiet_keeps_self, quiet_log|]. intros _.
  apply (self_rel_bind R R_trans);
    [apply (self_rel_keeps R R_refl), quiet_keeps_self, quiet_get_pkg_meta|].
  intros [meta|].
  - apply (self_rel_bind R R_trans);
      [apply (self_rel_keeps R R_refl), quiet_keeps_self, quiet_log|]. intros _.
    unfold name_or. fold (canonical_name meta name). apply self_rel_lift_ok.
    apply (self_rel_bind R R_trans);
      [apply (self_rel_keeps R R_refl), quiet_keeps_self, quiet_get_pkg_top_level|].
    intros mods.
    apply (self_rel_bind R R_trans);
      [apply (self_rel_keeps R R_refl), quiet_keeps_self, quiet_log|]. intros _.
    intros st. rewrite set_pkgs_map_run. cbn [snd self]. apply Hs.
  - apply (self_rel_bind R R_trans);
      [apply (self_rel_keeps R R_refl), quiet_keeps_self, quiet_log|]. intros _.
    unfold name_or. apply self_rel_lift_raise.
Qed.

Lemma truthy_false_empty (s : string) : truthy s = false -> s = EmptyString.
Proof. unfold truthy. now destruct (String.eqb_spec s EmptyString). Qed.

Lemma self_rel_map_loop_clean (items : dict string) :
  (forall name version,
      In (name, version) items ->
      (exists w, install_stderr env w name version = EmptyString) ->
      stores_made R name version) ->
  self_rel R (map_loop env items).
Proof.
  induction items as [|[name version] items IH]; intros Hs; cbn [map_loop].
  - apply (self_rel_keeps R R_refl), quiet_keeps_self, quiet_ret.
  - assert (Hrest : self_rel R (map_loop env items)).
    { apply IH. intros n v H. apply Hs. now right. }
    intros st. destruct (MapperFacts.install_run env name version st) as [evs Hi].
    cbn zeta in Hi. rewrite (bind_ok _ _ _ _ _ Hi).
    destruct (truthy (snd (fst (subprocess_run env _ (world st))))) eqn:T.
    + match goal with |- R _ (self (snd (bind ?c ?k ?s))) =>
        apply (self_rel_bind R R_trans c k
                 (self_rel_keeps R R_refl c (quiet_keeps_self c (quiet_log _ _ _)))
                 (fun _ => Hrest) s) end.
    + match goal with |- R _ (self (snd (bind ?c ?k ?s))) =>
        refine (self_rel_bind R R_trans c k _ (fun _ => Hrest) s) end.
      apply self_rel_add_pkg_data_made. apply Hs; [now left|].
      exists (world st). apply truthy_false_empty in T. exact T.
Qed.

Lemma self_rel_map_made :
  (forall name version, stores_made R name version) -> self_rel R (map env).
Proof.
  intros Hs. unfold map.
  apply (self_rel_bind R R_trans);
    [apply (self_rel_keeps R R_refl), keeps_self_cmd|]. intros _.
  apply (self_rel_bind R R_trans);
    [apply (self_rel_keeps R R_refl), quiet_keeps_self, quiet_get_self|]. intros m.
  apply (self_rel_bind R R_trans);
    [apply (self_rel_keeps R R_refl), quiet_keeps_self, quiet_read|]. intros lines.
  apply (self_rel_bind R R_trans);
    [apply (self_rel_keeps R R_refl), quiet_keeps_self, quiet_split|]. intros reqs.
  apply (self_rel_bind R R_trans);
    [apply self_rel_map_loop_clean; intros; apply Hs|]. intros _.
  apply (self_rel_keeps R R_refl), quiet_keeps_self, quiet_format.
Qed.

End Stores.



(** ** [_add_pkg_data], [_format], [map] and the example script *)

Section Pipeline.

Context {World : Type} (env : Env World).

Lemma find_all_false {A : Type} (f : A -> bool) (l : list A) :
  (forall x, In x l -> f x = false) -> List.find f l = None.
Proof.
  induction l as [|a l IH]; intros H; [reflexivity|].
  cbn [List.find]. rewrite (H a (or_introl eq_refl)). apply IH.
  intros x Hx. apply H. now right.
Qed.

Lemma probed_until_all (ex : string -> bool) (l : list string) :
  (forall x, In x l -> ex x = false) -> probed_until ex l = l.
Proof.
  induction l as [|a l IH]; intros H; [reflexivity|].
  cbn [probed_until]. rewrite (H a (or_introl eq_refl)). f_equal. apply IH.
  intros x Hx. apply H. now right.
Qed.

(** X8: a requirement none of whose four candidate directories exists.
    [_add_pkg_data] returns without raising, leaves the PackageMap (the
    whole instance) and the world as they are, has asked about the four
    candidates and no other path, and has logged that the package dir was
    not found. *)
Theorem X8_unlocated_requirement_stores_nothing (name version : string)
  (st : State World) :
  let cands := code_candidates (_site_pkgs (self st)) name version in
  (forall p, In p cands -> os_path_exists env (world st) p = false) ->
  exists evs,
    _add_pkg_data env name version st =
      (Ok tt, {| self := self st; world := world st; trace := trace st ++ evs |})
    /\ probes evs = cands
    /\ In (not_found_logged name version) evs.
Proof.
  cbn zeta. intros Hn. unfold _add_pkg_data, _get_pkg_path.
  unfold bind at 2. cbn [print emit]. unfold bind at 2.
  cbn [print emit self world trace].
  unfold bind at 1.
  match goal with |- context [_get_pkg_path_loop env suffixes name version ?s] =>
    destruct (get_pkg_path_loop_spec env suffixes name version s) as [evs [H1 [H2 H3]]] end.
  cbn [self world trace] in H1, H2, H3. rewrite loop_candidates_suffixes in H1, H2, H3.
  rewrite H1. unfold first_existing in *. rewrite (find_all_false _ _ Hn) in *.
  rewrite (probed_until_all _ _ Hn) in H2.
  exists (EvPrint ("name: $" ++ name) :: EvPrint ("version: $" ++ version) :: evs).
  unfold ret. rewrite <- !app_assoc. cbn [app probes].
  split; [reflexivity|]. split; [exact H2|].
  right. right. now apply H3.
Qed.

(** X9: a located package with its metadata file. The record is stored
    under the canonical name; when the PackageMap already has that name the
    record replaces the old one at its place (the order and the number of
    names stay), otherwise the name is added at the end; the records under
    every other name are as before. *)
Theorem X9_record_replaces_in_place (name version loc : string) (mlines : list string)
  (mods : option (list string)) (st : State World) :
  let meta := spec_split mlines ":" in
  let key := canonical_name meta name in
  let pm := _pkgs_map (self st) in
  let pm' := _pkgs_map (self (snd (_add_pkg_data env name version st))) in
  first_existing env (world st) (code_candidates (_site_pkgs (self st)) name version)
    = Some loc ->
  os_path_exists env (world st) (os_path_join loc (meta_file_of loc)) = true ->
  open_readlines env (world st) (os_path_join loc (meta_file_of loc)) = Some mlines ->
  top_level_is env (world st) loc mods ->
  dict_get pm' key = Some (pkg_record (Some meta) name version mods)
  /\ (In key (keys pm) -> keys pm' = keys pm)
  /\ (~ In key (keys pm) -> keys pm' = (keys pm ++ [key])%list)
  /\ (forall k, k <> key -> dict_get pm' k = dict_get pm k).
Proof.
  cbn zeta. intros Hloc Hm Ho Ht.
  destruct (add_pkg_data_stores env name version loc mlines mods st Hloc Hm Ho Ht)
    as [_ [Hs _]].
  cbn zeta in Hs. rewrite Hs. cbn [stored _pkgs_map].
  split; [apply dict_get_set_same|]. rewrite keys_dict_set.
  split; [|split].
  - intros Hin. apply existsb_eqb_In in Hin. now rewrite Hin.
  - intros Hin.
    destruct (existsb (String.eqb (canonical_name (spec_split mlines ":") name))
                (keys (_pkgs_map (self st)))) eqn:E; [|reflexivity].
    apply existsb_eqb_In in E. contradiction.
  - intros k Hk. apply dict_get_set_other. congruence.
Qed.

(** *** Subprocess calls of a run *)

Lemma cmd_runs (cmd : list string) (st : State World) :
  exists evs,
    _cmd env cmd st =
      (Ok (fst (subprocess_run env cmd (world st))),
       {| self := self st; world := snd (subprocess_run env cmd (world st));
          trace := trace st ++ evs |})
    /\ filter is_run evs = [EvRun cmd].
Proof.
  unfold _cmd, run, when, log, emit, bind, ret. cbn [self world trace fst snd].
  destruct (subprocess_run env cmd (world st)) as [[out err] w'].
  cbn [self world trace fst snd].
  destruct (truthy err); cbn [self world trace fst snd];
    eexists; rewrite <- !app_assoc; split; reflexivity.
Qed.

Lemma bind_raise {A B : Type} (c : M World A) (k : A -> M World B)
  (st st1 : State World) (e : exn) :
  c st = (Raise e, st1) -> bind c k st = (Raise e, st1).
Proof. intros H. unfold bind. now rewrite H. Qed.

Lemma map_loop_runs (items : dict string) :
  forall st : State World,
  exists k,
    k <= List.length items
    /\ filter is_run (trace (snd (map_loop env items st))) =
         (filter is_run (trace st) ++ List.map install_call (firstn k items))%list
    /\ (fst (map_loop env items st) = Ok tt -> k = List.length items).
Proof.
  induction items as [|[name version] items IH]; intros st.
  - exists 0. cbn [map_loop ret snd fst List.length firstn List.map].
    rewrite app_nil_r. split; [lia|]. split; reflexivity.
  - cbn [map_loop].
    pose proof (adds_install env is_run is_run_blind name version st) as Ha.
    destruct (MapperFacts.install_run env name version st) as [evs Hi]. cbn zeta in Hi.
    rewrite Hi in Ha. cbn [snd] in Ha. rewrite (bind_ok _ _ _ _ _ Hi).
    match type of Hi with _ = (_, ?s) => set (st1 := s) in * end.
    destruct (truthy (snd (fst (subprocess_run env _ (world st))))).
    + unfold bind at 1, log, emit. cbn [self world trace].
      match goal with |- context [map_loop env items ?s] =>
        destruct (IH s) as [k [Hk [Hf Hok]]]; set (st2 := s) in * end.
      exists (S k). cbn [List.length firstn List.map]. split; [lia|]. split.
      * rewrite Hf. unfold st2. cbn [trace]. rewrite filter_app. cbn [filter is_run].
        rewrite app_nil_r, Ha. rewrite <- app_assoc. reflexivity.
      * intros H. f_equal. now apply Hok.
    + pose proof (adds_add_pkg_data env is_run is_run_blind name version st1) as Hb.
      unfold printed_lines in Hb. cbn [filter is_run] in Hb. rewrite app_nil_r in Hb.
      destruct (_add_pkg_data env name version st1) as [[u|e] st2] eqn:Hadd.
      * rewrite (bind_ok _ _ _ _ _ Hadd).
        cbn [snd] in Hb. destruct (IH st2) as [k [Hk [Hf Hok]]].
        exists (S k). cbn [List.length firstn List.map]. split; [lia|]. split.
        -- rewrite Hf, Hb, Ha. rewrite <- app_assoc. reflexivity.
        -- intros H. f_equal. now apply Hok.
      * rewrite (bind_raise _ _ _ _ _ Hadd).
        cbn [snd fst] in *. exists 1. cbn [List.length firstn List.map].
        split; [lia|]. split.
        -- rewrite Hb, Ha. reflexivity.
        -- discriminate.
Qed.


Lemma map_prelude_runs (lines : list string) (st : State World) :
  let w' := snd (subprocess_run env upgrade_cmd (world st)) in
  os_path_exists env w' (_regs (self st)) = true ->
  open_readlines env w' (_regs (self st)) = Some lines ->
  exists evs,
    map env st =
      bind (map_loop env (spec_split lines "==")) (fun _ => _format)
        {| self := self st; world := w'; trace := trace st ++ evs |}
    /\ filter is_run evs = [EvRun upgrade_cmd].
Proof.
  cbn zeta. intros E O. unfold map. fold upgrade_cmd.
  destruct (cmd_runs upgrade_cmd st) as [evs [Hc Hf]].
  rewrite (bind_ok _ _ _ _ _ Hc).
  unfold bind at 1, get_self. cbn [self world trace].
  unfold bind at 1. rewrite (read_ok env _ lines) by (cbn [self world trace]; assumption).
  unfold bind at 1. rewrite split_run by apply delimiter_eqeq_ok.
  cbn [self world trace]. eexists. rewrite <- app_assoc. split; [reflexivity|].
  rewrite filter_app, Hf. reflexivity.
Qed.

Lemma spec_split_NoDup (lines : list string) (d : string) : NoDup (keys (spec_split lines d)).
Proof. unfold spec_split. apply fold_dict_set_NoDup. constructor. Qed.

(** X10: the subprocess calls of one [map] call on a manifest that is
    there. First pip install --upgrade pip, once; then pip install
    name==version for the requirements of the manifest's mapping, one call
    each, in the order of the mapping, with nothing else in between; the
    names are distinct, so no requirement is installed twice. When [map]
    returns, every requirement has had its call; when it raises, the calls
    are those of a prefix of the mapping. *)
Theorem X10_map_installs_in_manifest_order (lines : list string) (st : State World) :
  let w' := snd (subprocess_run env upgrade_cmd (world st)) in
  let reqs := spec_split lines "==" in
  os_path_exists env w' (_regs (self st)) = true ->
  open_readlines env w' (_regs (self st)) = Some lines ->
  NoDup (keys reqs)
  /\ exists k,
       k <= List.length reqs
       /\ filter is_run (trace (snd (map env st))) =
            (filter is_run (trace st)
             ++ EvRun upgrade_cmd :: List.map install_call (firstn k reqs))%list
       /\ (forall out, fst (map env st) = Ok out -> k = List.length reqs).
Proof.
  cbn zeta. intros E O. split; [apply spec_split_NoDup|].
  destruct (map_prelude_runs lines st E O) as [evs [Hm Hf]]. rewrite Hm.
  match goal with |- context [bind _ _ ?s] => set (s0 := s) end.
  destruct (map_loop_runs (spec_split lines "==") s0) as [k [Hk [Hr Hok]]].
  exists k. split; [exact Hk|].
  assert (Hs0 : filter is_run (trace s0) = (filter is_run (trace st) ++ [EvRun upgrade_cmd])%list).
  { unfold s0. cbn [trace]. now rewrite filter_app, Hf. }
  rewrite Hs0, <- app_assoc in Hr. cbn [app] in Hr.
  destruct (map_loop env (spec_split lines "==") s0) as [[u|e] s1] eqn:Hl.
  - rewrite (bind_ok _ _ _ _ _ Hl). rewrite format_run. cbn [snd fst] in *.
    split; [exact Hr|]. intros _ _. apply Hok. now destruct u.
  - rewrite (bind_raise _ _ _ _ _ Hl). cbn [snd fst] in *.
    split; [exact Hr|]. discriminate.
Qed.

(** X11: a manifest path that does not exist. [map] raises the exception
    File not found with the path; the one subprocess call it has made is the
    self-upgrade of pip, so no requirement was installed; the instance, and
    with it the PackageMap, is as before. *)
Theorem X11_missing_manifest_installs_nothing (st : State World) :
  let w' := snd (subprocess_run env upgrade_cmd (world st)) in
  os_path_exists env w' (_regs (self st)) = false ->
  fst (map env st) = Raise (Exception ("File not found in the path: " ++ _regs (self st)))
  /\ self (snd (map env st)) = self st
  /\ world (snd (map env st)) = w'
  /\ filter is_run (trace (snd (map env st))) =
       (filter is_run (trace st) ++ [EvRun upgrade_cmd])%list.
Proof.
  cbn zeta. intros E.
  assert (Hrun : exists evs,
            map env st =
              (Raise (Exception ("File not found in the path: " ++ _regs (self st))),
               {| self := self st; world := snd (subprocess_run env upgrade_cmd (world st));
                  trace := trace st ++ evs |})
            /\ filter is_run evs = [EvRun upgrade_cmd]).
  { unfold map. fold upgrade_cmd.
    destruct (cmd_runs upgrade_cmd st) as [evs [Hc Hf]].
    rewrite (bind_ok _ _ _ _ _ Hc).
    unfold bind at 1, get_self. cbn [self world trace].
    unfold bind at 1. rewrite read_missing by (cbn [self world trace]; exact E).
    cbn [self world trace]. eexists. rewrite <- app_assoc. split; [reflexivity|].
    rewrite filter_app, Hf. reflexivity. }
  destruct Hrun as [evs [Hrun Hf]]. rewrite Hrun. cbn [fst snd self world trace].
  split; [reflexivity|]. split; [reflexivity|]. split; [reflexivity|].
  now rewrite filter_app, Hf.
Qed.

(** *** Records [map] stores *)

Lemma Forall_dict_set {V : Type} (P : string * V -> Prop) (d : dict V) (k : string) (v : V) :
  Forall P d -> P (k, v) -> Forall P (dict_set d k v).
Proof.
  intros Hd Hp. apply Forall_forall. intros e He.
  apply In_dict_set in He as [->|He]; [assumption|].
  now apply (proj1 (Forall_forall P d) Hd).
Qed.

Lemma records_made_stores (name version : string) : stores_made records_made name version.
Proof.
  intros m meta mods H. cbn [stored _pkgs_map]. apply Forall_dict_set; [assumption|].
  now exists meta, name, version, mods.
Qed.

Lemma summaries_made (pm : dict pyval) :
  Forall made_by_map pm -> exists infos, summaries pm = Ok infos.
Proof.
  induction 1 as [|[pkg data] pm [meta [name [version [mods E]]]] _ [infos IH]].
  - now exists [].
  - inversion E; subst. cbn [summaries]. rewrite summary_of_record, IH. eexists. reflexivity.
Qed.

(** X12: [map] stores only records of the shape of [_add_pkg_data]: a
    parsed metadata dict, the requirement, the module list or None, under
    the canonical name. So when the PackageMap holds only such records
    before a call (as the empty one of a new instance does), it holds only
    such records after it, whether the call returned or raised, and
    [_format] on the state the call leaves returns without raising. *)
Theorem X12_map_leaves_formattable_records (st : State World) :
  Forall made_by_map (_pkgs_map (self st)) ->
  Forall made_by_map (_pkgs_map (self (snd (map env st))))
  /\ exists out, _format (snd (map env st)) = (Ok out, snd (map env st)).
Proof.
  intros H.
  assert (H' : Forall made_by_map (_pkgs_map (self (snd (map env st))))).
  { refine (self_rel_map_made env records_made _ _ _ st H).
    - intros m Hm. exact Hm.
    - intros a b c Hab Hbc Ha. apply Hbc, Hab, Ha.
    - intros name version. apply records_made_stores. }
  split; [exact H'|].
  rewrite format_run. destruct (summaries_made _ H') as [infos Hi]. rewrite Hi.
  destruct (String.eqb (_verbose (self (snd (map env st)))) "v"); eexists; reflexivity.
Qed.

Lemma summaries_names_of (pm : dict pyval) (infos : list pyval) :
  summaries pm = Ok infos ->
  names_of infos = List.map (fun k => Ok (PyStr k)) (keys pm).
Proof.
  revert infos; induction pm as [|[pkg data] pm IH]; intros infos H; cbn in H.
  - inversion H. reflexivity.
  - destruct (summary pkg data) as [s0|e] eqn:E; [|discriminate].
    destruct (summaries pm) as [infos'|e]; [|discriminate].
    inversion H; subst. cbn [names_of keys List.map fst].
    rewrite (summary_name _ _ _ E). f_equal. now apply IH.
Qed.

(** X13: when [_format] returns, it has changed nothing, and its value is
    the JSON text of a list of records when the format is json and the list
    itself otherwise. With the verbosity v the list has one record for each
    name of the PackageMap, with that name, in insertion order; with any
    other verbosity the list is empty whatever the PackageMap holds. *)
Theorem X13_format_lists_names_in_order (st st' : State World) (out : pyval) :
  _format st = (Ok out, st') ->
  st' = st
  /\ exists infos,
       out = (if String.eqb (_fmt (self st)) "json"
              then PyStr (Json.dumps (PyList infos)) else PyList infos)
       /\ if String.eqb (_verbose (self st)) "v"
          then names_of infos = List.map (fun k => Ok (PyStr k)) (keys (_pkgs_map (self st)))
          else infos = [].
Proof.
  rewrite format_run. intros H.
  destruct (String.eqb (_verbose (self st)) "v").
  - destruct (summaries (_pkgs_map (self st))) as [infos|e] eqn:S; [|discriminate].
    inversion H; subst. split; [reflexivity|]. exists infos. split; [reflexivity|].
    now apply summaries_names_of.
  - inversion H; subst. split; [reflexivity|]. exists []. split; reflexivity.
Qed.

(** *** Where the records of a call come from *)

Lemma keeps_world_quiet {A : Type} (c : M World A) : quiet c -> keeps_world c.
Proof. intros H st. now destruct (H st) as [_ [Hw _]]. Qed.

Lemma keeps_world_bind {A B : Type} (c : M World A) (k : A -> M World B) :
  keeps_world c -> (forall a, keeps_world (k a)) -> keeps_world (bind c k).
Proof.
  intros Hc Hk st. unfold bind. specialize (Hc st).
  destruct (c st) as [[a|e] st1]; cbn [snd] in *; [|assumption].
  now rewrite Hk.
Qed.

Lemma keeps_world_add_pkg_data (name version : string) :
  keeps_world (_add_pkg_data env name version).
Proof.
  unfold _add_pkg_data.
  apply keeps_world_bind; [apply keeps_world_quiet, quiet_get_pkg_path|].
  intros [location|]; [|apply keeps_world_quiet, quiet_ret].
  apply keeps_world_bind; [apply keeps_world_quiet, quiet_log|]. intros _.
  apply keeps_world_bind; [apply keeps_world_quiet, quiet_get_pkg_meta|]. intros meta.
  apply keeps_world_bind; [apply keeps_world_quiet, quiet_log|]. intros _.
  apply keeps_world_bind; [apply keeps_world_quiet, quiet_lift|]. intros pkg_name.
  apply keeps_world_bind; [apply keeps_world_quiet, quiet_get_pkg_top_level|]. intros mods.
  apply keeps_world_bind; [apply keeps_world_quiet, quiet_log|]. intros _.
  intros st. reflexivity.
Qed.

Lemma get_pkg_top_level_unreadable (location : string) (st : State World) :
  let path := os_path_join location "top_level.txt" in
  os_path_exists env (world st) path = true ->
  open_readlines env (world st) path = None ->
  exists evs,
    _get_pkg_top_level env location st =
      (Raise (OSError path),
       {| self := self st; world := world st; trace := trace st ++ evs |}).
Proof.
  cbn zeta. intros E O. unfold _get_pkg_top_level.
  unfold bind at 1, log, emit. cbn [self world trace].
  unfold bind at 1. rewrite exists_run. cbn [self world trace]. rewrite E. cbn [negb].
  unfold bind at 1. rewrite read_unreadable by assumption.
  cbn [self world trace]. eexists. rewrite <- !app_assoc. reflexivity.
Qed.

(** What [_add_pkg_data] does to the instance: nothing, or it stores the
    entry of the requirement on the disk as it is. *)
Lemma add_pkg_data_self (name version : string) (st : State World) :
  self (snd (_add_pkg_data env name version st)) = self st
  \/ exists e,
       record_in_world env (_site_pkgs (self st)) (world st) name version e
       /\ self (snd (_add_pkg_data env name version st)) = stored (self st) (fst e) (snd e).
Proof.
  destruct (first_existing env (world st)
              (code_candidates (_site_pkgs (self st)) name version)) as [loc|] eqn:Hloc.
  2: { left. unfold _add_pkg_data.
       destruct (get_pkg_path_run env name version st) as [evs1 H1]. rewrite Hloc in H1.
       now rewrite (bind_ok _ _ _ _ _ H1). }
  destruct (os_path_exists env (world st) (os_path_join loc (meta_file_of loc))) eqn:Hm.
  2: { left. destruct (add_pkg_data_missing_metadata env name version loc st Hloc Hm)
         as [evs [H _]]. now rewrite H. }
  destruct (open_readlines env (world st) (os_path_join loc (meta_file_of loc)))
    as [mlines|] eqn:Ho.
  2: { left. unfold _add_pkg_data.
       destruct (get_pkg_path_run env name version st) as [evs1 H1]. rewrite Hloc in H1.
       rewrite (bind_ok _ _ _ _ _ H1).
       unfold bind at 1, log, emit. cbn [self world trace].
       unfold bind at 1. rewrite get_pkg_meta_unreadable by assumption. reflexivity. }
  destruct (os_path_exists env (world st) (os_path_join loc "top_level.txt")) eqn:Ht.
  - destruct (open_readlines env (world st) (os_path_join loc "top_level.txt"))
      as [tlines|] eqn:Hto.
    + right.
      assert (Htl : top_level_is env (world st) loc (Some (List.map strip tlines))).
      { split; [exact Ht|]. exists tlines. now split. }
      destruct (add_pkg_data_stores env name version loc mlines _ st Hloc Hm Ho Htl)
        as [_ [Hs _]].
      eexists (_, _). split; [|exact Hs]. exists loc, mlines, (Some (List.map strip tlines)).
      split; [exact Hloc|]. split; [exact Hm|]. split; [exact Ho|].
      split; [exact Htl | reflexivity].
    + left. unfold _add_pkg_data.
      destruct (get_pkg_path_run env name version st) as [evs1 H1]. rewrite Hloc in H1.
      rewrite (bind_ok _ _ _ _ _ H1).
      unfold bind at 1, log, emit. cbn [self world trace].
      unfold bind at 1. rewrite (get_pkg_meta_ok env loc mlines) by assumption.
      unfold bind at 1. cbn [self world trace].
      unfold bind at 1. unfold lift at 1, name_or.
      unfold bind at 1.
      match goal with |- context [_get_pkg_top_level env loc ?s] =>
        destruct (get_pkg_top_level_unreadable loc s Ht Hto) as [evs2 H2] end.
      rewrite H2. reflexivity.
  - right.
    assert (Htl : top_level_is env (world st) loc None) by exact Ht.
    destruct (add_pkg_data_stores env name version loc mlines _ st Hloc Hm Ho Htl)
      as [_ [Hs _]].
    eexists (_, _). split; [|exact Hs]. exists loc, mlines, None.
    split; [exact Hloc|]. split; [exact Hm|]. split; [exact Ho|].
    split; [exact Htl | reflexivity].
Qed.

Lemma site_stored (m : Mapper) (k : string) (v : pyval) :
  _site_pkgs (stored m k v) = _site_pkgs m.
Proof. reflexivity. Qed.

Lemma map_loop_recorded (items : dict string) :
  forall (st : State World) (e : string * pyval),
    In e (_pkgs_map (self (snd (map_loop env items st)))) ->
    In e (_pkgs_map (self st))
    \/ recorded_in_run env (_site_pkgs (self st)) items (world st) e.
Proof.
  induction items as [|[name version] items IH]; intros st e He.
  - left. exact He.
  - cbn [map_loop] in He. cbn [recorded_in_run].
    destruct (MapperFacts.install_run env name version st) as [evs Hi]. cbn zeta in Hi.
    rewrite (bind_ok _ _ _ _ _ Hi) in He.
    fold (install_cmd name version) in Hi, He |- *.
    match type of Hi with _ = (_, ?s) => set (st1 := s) in * end.
    destruct (truthy (snd (fst (subprocess_run env (install_cmd name version) (world st)))))
      eqn:T.
    + unfold bind at 1, log, emit in He. cbn [self world trace] in He.
      apply IH in He. cbn [self world] in He. destruct He as [He|He]; [now left|].
      right. right. exact He.
    + pose proof (keeps_world_add_pkg_data name version st1) as Hw.
      pose proof (add_pkg_data_self name version st1) as Hs.
      assert (Hfin : In e (_pkgs_map (self (snd (_add_pkg_data env name version st1))))
                     \/ recorded_in_run env (_site_pkgs (self st)) items (world st1) e).
      { destruct (_add_pkg_data env name version st1) as [[u|x] s2] eqn:Ha.
        - rewrite (bind_ok _ _ _ _ _ Ha) in He. apply IH in He.
          cbn [snd] in Hw, Hs |- *. rewrite Hw in He.
          destruct He as [He|He]; [now left|]. right.
          destruct Hs as [Hs|[e0 [_ Hs]]]; rewrite Hs in He; exact He.
        - rewrite (bind_raise _ _ _ _ _ Ha) in He. left. exact He. }
      destruct Hfin as [Hin|Hrec]; [|right; right; exact Hrec].
      destruct Hs as [Hs|[e0 [Hr Hs]]]; rewrite Hs in Hin; [now left|].
      cbn [stored _pkgs_map] in Hin. apply In_dict_set in Hin as [->|Hin]; [|now left].
      right. left. split.
      * unfold install_stderr. apply truthy_false_empty. exact T.
      * destruct e0 as [k v]. exact Hr.
Qed.

(** X14: the records a [map] call adds. On a manifest that is there, every
    entry of the PackageMap after the call was in the PackageMap before the
    call, or belongs to a requirement of the manifest's mapping whose pip
    install, in the world it ran in during this call, came back with empty
    stderr; the entry is then the one for that requirement on the disk as
    that install left it: the metadata parsed from the metadata file of the
    first candidate directory that exists, the modules of its
    top_level.txt, under the canonical name. *)
Theorem X14_added_records_come_from_clean_installs (lines : list string)
  (st : State World) :
  let w' := snd (subprocess_run env upgrade_cmd (world st)) in
  os_path_exists env w' (_regs (self st)) = true ->
  open_readlines env w' (_regs (self st)) = Some lines ->
  forall e,
    In e (_pkgs_map (self (snd (map env st)))) ->
    In e (_pkgs_map (self st))
    \/ recorded_in_run env (_site_pkgs (self st)) (spec_split lines "==") w' e.
Proof.
  cbn zeta. intros E O e He.
  destruct (map_prelude_runs lines st E O) as [evs [Hm _]]. rewrite Hm in He.
  match type of He with context [bind _ _ ?s] => set (s0 := s) in * end.
  assert (Hl : In e (_pkgs_map (self (snd (map_loop env (spec_split lines "==") s0))))).
  { destruct (map_loop env (spec_split lines "==") s0) as [[u|x] s1] eqn:Hl.
    - rewrite (bind_ok _ _ _ _ _ Hl), format_run in He. exact He.
    - rewrite (bind_raise _ _ _ _ _ Hl) in He. exact He. }
  apply map_loop_recorded in Hl. exact Hl.
Qed.

End Pipeline.



(** ** The example script *)

Section Script.

Context {World : Type} (env : Env World).

Lemma print_texts_app (a b : list event) :
  print_texts (a ++ b) = (print_texts a ++ print_texts b)%list.
Proof.
  induction a as [|x a IH]; [reflexivity|].
  destruct x; cbn [app print_texts]; rewrite IH; reflexivity.
Qed.

Lemma print_texts_filter (evs : list event) :
  print_texts (filter is_print evs) = print_texts evs.
Proof.
  induction evs as [|x evs IH]; [reflexivity|].
  destruct x; cbn [filter is_print print_texts]; rewrite IH; reflexivity.
Qed.

Lemma print_texts_unseen {A : Type} (c : M World A) (st : State World) :
  unseen is_print c -> print_texts (trace (snd (c st))) = print_texts (trace st).
Proof.
  intros H. now rewrite <- print_texts_filter, H, print_texts_filter.
Qed.

Lemma prints_pairs_unseen {A : Type} (c : M World A) :
  unseen is_print c -> prints_pairs c.
Proof.
  intros H st. exists []. rewrite (print_texts_unseen c st H). cbn [flat_map].
  now rewrite app_nil_r.
Qed.

Lemma unseen_adds_nil {A : Type} (f : event -> bool) (c : M World A) :
  adds f c [] -> unseen f c.
Proof. intros H st. rewrite H. apply app_nil_r. Qed.

Lemma prints_pairs_bind {A B : Type} (c : M World A) (k : A -> M World B) :
  prints_pairs c -> (forall a, prints_pairs (k a)) -> prints_pairs (bind c k).
Proof.
  intros Hc Hk st. unfold bind. destruct (Hc st) as [d1 H1].
  destruct (c st) as [[a|e] st1]; cbn [snd] in *.
  - destruct (Hk a st1) as [d2 H2]. exists (d1 ++ d2)%list.
    now rewrite H2, H1, flat_map_app, app_assoc.
  - now exists d1.
Qed.

Lemma prints_pairs_add_pkg_data (name version : string) :
  prints_pairs (_add_pkg_data env name version).
Proof.
  intros st. exists [(name, version)].
  rewrite <- print_texts_filter, (adds_add_pkg_data env is_print is_print_blind name version st).
  rewrite print_texts_app, print_texts_filter. reflexivity.
Qed.

Lemma prints_pairs_map_loop (items : dict string) : prints_pairs (map_loop env items).
Proof.
  induction items as [|[name version] items IH]; cbn [map_loop].
  - apply prints_pairs_unseen, unseen_ret.
  - apply prints_pairs_bind.
    + apply prints_pairs_unseen, unseen_adds_nil.
      exact (adds_install env is_print is_print_blind name version).
    + intros r. destruct (truthy (snd r)).
      * apply prints_pairs_bind; [|intros _; exact IH].
        apply prints_pairs_unseen, unseen_log, is_print_blind.
      * apply prints_pairs_bind; [|intros _; exact IH].
        apply prints_pairs_add_pkg_data.
Qed.

Lemma prints_pairs_map : prints_pairs (map env).
Proof.
  unfold map. apply prints_pairs_bind.
  - apply prints_pairs_unseen, unseen_adds_nil.
    exact (adds_cmd env is_print is_print_blind _).
  - intros _. apply prints_pairs_bind; [apply prints_pairs_unseen, unseen_get_self|].
    intros m. apply prints_pairs_bind.
    + apply prints_pairs_unseen, unseen_read, is_print_blind.
    + intros lines. apply prints_pairs_bind.
      * apply prints_pairs_unseen, unseen_split, is_print_blind.
      * intros reqs. apply prints_pairs_bind; [apply prints_pairs_map_loop|].
        intros _. apply prints_pairs_unseen, unseen_format.
Qed.

Lemma map_missing_manifest_prints (st : State World) :
  os_path_exists env (snd (subprocess_run env upgrade_cmd (world st))) (_regs (self st))
    = false ->
  print_texts (trace (snd (map env st))) = print_texts (trace st).
Proof.
  intros E. destruct (map_missing_manifest env st E) as [evs H].
  pose proof (adds_cmd env is_print is_print_blind upgrade_cmd st) as Ha.
  destruct (cmd_run env upgrade_cmd st) as [evs0 Hc]. rewrite Hc in Ha.
  cbn [snd trace filter is_print] in Ha. rewrite app_nil_r in Ha.
  unfold map. fold upgrade_cmd. rewrite (bind_ok _ _ _ _ _ Hc).
  unfold bind at 1, get_self. cbn [self world trace].
  unfold bind at 1. rewrite read_missing by (cbn [self world trace]; exact E).
  cbn [snd trace]. rewrite print_texts_app. cbn [print_texts]. rewrite app_nil_r.
  now rewrite <- print_texts_filter, Ha, print_texts_filter.
Qed.

(** X15: the example script. What goes to stdout under [main] is, for
    some requirements one after the other, the two lines name: $name and
    version: $version. The script exits with 0 exactly when [map] returned;
    it has then printed, after those lines, the JSON text of the records
    of the PackageMap. When [map] raised it exits with 1, its own print
    is not reached, so stdout holds those lines only, and the exception is
    reported. When requirements.txt is missing it exits with 1, reports
    File not found in the path: requirements.txt, has written nothing to
    stdout and has recorded no package. *)
Theorem X15_script_exit_code (site_pkgs : string) (w : World) :
  let e := Example.script env site_pkgs w in
  let lines := List.map PyStr (print_texts (trace (Example.final e))) in
  (exists done, print_texts (trace (Example.final e)) = flat_map name_version_lines done)
  /\ ((Example.rc e = 0%Z
       /\ Example.reported e = None
       /\ exists infos,
            summaries (_pkgs_map (self (Example.final e))) = Ok infos
            /\ Example.printed e = Some (PyStr (Json.dumps (PyList infos)))
            /\ Example.stdout e = (lines ++ [PyStr (Json.dumps (PyList infos))])%list)
      \/ (Example.rc e = 1%Z
          /\ Example.printed e = None
          /\ Example.stdout e = lines
          /\ exists x, Example.reported e = Some x
                       /\ fst (Example.main env site_pkgs w) = Raise x))
  /\ (os_path_exists env (snd (subprocess_run env upgrade_cmd w)) "requirements.txt" = false ->
      Example.rc e = 1%Z
      /\ Example.reported e =
           Some (Exception "File not found in the path: requirements.txt")
      /\ Example.stdout e = []
      /\ _pkgs_map (self (Example.final e)) = []).
Proof.
  cbn zeta. unfold Example.stdout, Example.script, Example.main.
  set (st0 := {| self := Mapper_init "requirements.txt" "json" site_pkgs;
                 world := w; trace := [] |}).
  pose proof (self_rel_map env config_kept config_kept_refl config_kept_trans
                config_kept_stores st0) as Hc.
  pose proof (map_missing_manifest env st0) as Hmiss. cbn zeta in Hmiss.
  pose proof (map_missing_manifest_prints st0) as Hnone.
  destruct (prints_pairs_map st0) as [done Hdone].
  destruct (map env st0) as [[out|x] st'] eqn:Hm;
    cbn [Example.rc Example.reported Example.printed Example.final fst snd] in *.
  - split; [now exists done|]. split.
    + left. split; [reflexivity|]. split; [reflexivity|].
      apply map_ok_format in Hm. rewrite format_run in Hm.
      destruct Hc as [_ [Hfmt [_ Hv]]].
      rewrite Hfmt, Hv in Hm. cbn [st0 self Mapper_init _fmt _verbose] in Hm.
      change (String.eqb "v" "v") with true in Hm.
      change (String.eqb "json" "json") with true in Hm. cbv iota in Hm.
      destruct (summaries (_pkgs_map (self st'))) as [infos|e]; [|discriminate].
      exists infos. split; [reflexivity|].
      assert (Ho : out = PyStr (Json.dumps (PyList infos))) by (now inversion Hm).
      rewrite Ho. split; reflexivity.
    + intros E. destruct (Hmiss E) as [evs H]. discriminate.
  - split; [now exists done|]. split.
    + right. split; [reflexivity|]. split; [reflexivity|].
      split; [apply app_nil_r|]. now exists x.
    + intros E. destruct (Hmiss E) as [evs H]. rewrite (Hnone E).
      inversion H; subst. cbn [self st0 trace Mapper_init _regs _pkgs_map print_texts].
      split; [reflexivity|]. split; [reflexivity|]. split; reflexivity.
Qed.

End Script.

(** ** A second call in the same world *)

Section Again.

Context {World : Type} (env : Env World).

(** *** Assignments to a dict, repeated *)

Lemma dict_set_twice {V : Type} (d : dict V) (k : string) (v0 v : V) :
  dict_set (dict_set d k v0) k v = dict_set d k v.
Proof.
  induction d as [|[k0 w] d IH]; cbn [dict_set].
  - now rewrite String.eqb_refl.
  - destruct (String.eqb k0 k) eqn:E; cbn [dict_set]; rewrite E; [reflexivity|].
    now rewrite IH.
Qed.

Lemma dict_set_swap {V : Type} (d : dict V) (k k1 : string) (v v1 : V) :
  k <> k1 -> In k1 (keys d) ->
  dict_set (dict_set d k v) k1 v1 = dict_set (dict_set d k1 v1) k v.
Proof.
  intros Hne. induction d as [|[k0 w] d IH]; intros Hin; [destruct Hin|].
  cbn [dict_set].
  destruct (String.eqb_spec k0 k) as [E|E]; destruct (String.eqb_spec k0 k1) as [E1|E1].
  - congruence.
  - cbn [dict_set]. destruct (String.eqb_spec k0 k1); [contradiction|].
    destruct (String.eqb_spec k0 k); [reflexivity|contradiction].
  - cbn [dict_set]. destruct (String.eqb_spec k0 k1); [|contradiction].
    destruct (String.eqb_spec k0 k); [contradiction|reflexivity].
  - cbn [dict_set]. destruct (String.eqb_spec k0 k1); [contradiction|].
    destruct (String.eqb_spec k0 k); [contradiction|].
    rewrite IH; [reflexivity|]. destruct Hin as [H|H]; [cbn in H; congruence|exact H].
Qed.

Lemma sets_on_app {V : Type} (s1 s2 : list (string * V)) (d : dict V) :
  sets_on (s1 ++ s2)%list d = sets_on s2 (sets_on s1 d).
Proof. apply fold_left_app. Qed.

Lemma keys_sets_on_incl {V : Type} (s : list (string * V)) (d : dict V) (k : string) :
  In k (keys d) -> In k (keys (sets_on s d)).
Proof.
  revert d; induction s as [|[k1 v1] s IH]; intros d H; [exact H|].
  cbn [sets_on fold_left fst snd]. apply IH. now apply keys_dict_set_incl.
Qed.

Lemma keys_dict_set_new {V : Type} (d : dict V) (k : string) (v : V) :
  In k (keys (dict_set d k v)).
Proof.
  rewrite keys_dict_set. destruct (existsb (String.eqb k) (keys d)) eqn:E.
  - now apply existsb_eqb_In.
  - apply in_or_app. right. now left.
Qed.

Lemma keys_sets_on {V : Type} (s : list (string * V)) (d : dict V) (k : string) :
  In k (keys s) -> In k (keys (sets_on s d)).
Proof.
  revert d; induction s as [|[k1 v1] s IH]; intros d H; [destruct H|].
  cbn [sets_on fold_left fst snd]. destruct H as [H|H].
  - cbn in H. subst k1. apply (keys_sets_on_incl s). apply keys_dict_set_new.
  - now apply IH.
Qed.

(** An assignment to [k] before a run of assignments to names the dict
    has is overridden by an assignment to [k] after it. *)
Lemma sets_on_overridden {V : Type} (t : list (string * V)) :
  forall (d : dict V) (k : string) (v0 v : V),
    (forall k1, In k1 (keys t) -> In k1 (keys d)) ->
    dict_set (sets_on t (dict_set d k v0)) k v = dict_set (sets_on t d) k v.
Proof.
  induction t as [|[k1 v1] t IH]; intros d k v0 v H.
  - cbn [sets_on fold_left]. apply dict_set_twice.
  - cbn [sets_on fold_left fst snd].
    assert (Hk1 : In k1 (keys d)) by (apply H; now left).
    assert (Ht : forall k2, In k2 (keys t) -> In k2 (keys (dict_set d k1 v1))).
    { intros k2 H2. apply keys_dict_set_incl. apply H. now right. }
    destruct (String.eqb_spec k k1) as [E|E].
    + subst k1. rewrite dict_set_twice. reflexivity.
    + rewrite (dict_set_swap d k k1 v0 v1 E Hk1). apply (IH _ _ _ _ Ht).
Qed.

(** Running the same assignments a second time changes nothing. *)
Lemma sets_on_again {V : Type} (s : list (string * V)) (d : dict V) :
  sets_on s (sets_on s d) = sets_on s d.
Proof.
  induction s as [|[k v] s IH] using rev_ind; [reflexivity|].
  rewrite !sets_on_app. cbn [sets_on fold_left fst snd].
  change (fold_left (fun a kv => dict_set a (fst kv) (snd kv)) s) with (sets_on s).
  rewrite sets_on_overridden by (intros k1 H1; now apply keys_sets_on).
  now rewrite IH.
Qed.


(** *** Two runs from the same world *)

Lemma apply_sets_app (s1 s2 : list (string * pyval)) (m : Mapper) :
  apply_sets (s1 ++ s2)%list m = apply_sets s2 (apply_sets s1 m).
Proof. apply fold_left_app. Qed.

Lemma config_apply_sets (s : list (string * pyval)) (m : Mapper) :
  config_kept m (apply_sets s m).
Proof.
  revert m; induction s as [|[k v] s IH]; intros m; [apply config_kept_refl|].
  cbn [apply_sets fold_left fst snd].
  apply (config_kept_trans _ (stored m k v)); [|apply IH]. now repeat split.
Qed.

Lemma config_kept_sym (m m' : Mapper) : config_kept m m' -> config_kept m' m.
Proof. intros [H1 [H2 [H3 H4]]]. now repeat split. Qed.

Lemma config_kept_apply (s : list (string * pyval)) (m m' : Mapper) :
  config_kept m m' -> config_kept (apply_sets s m) (apply_sets s m').
Proof.
  intros H. apply (config_kept_trans _ m); [apply config_kept_sym, config_apply_sets|].
  apply (config_kept_trans _ m'); [exact H | apply config_apply_sets].
Qed.

Lemma pkgs_map_apply_sets (s : list (string * pyval)) (m : Mapper) :
  _pkgs_map (apply_sets s m) = sets_on s (_pkgs_map m).
Proof.
  revert m; induction s as [|[k v] s IH]; intros m; [reflexivity|].
  cbn [apply_sets sets_on fold_left fst snd]. apply IH.
Qed.

Lemma same_run_bind {A B : Type} (RA : A -> A -> Prop) (RB : B -> B -> Prop)
  (c c' : M World A) (k k' : A -> M World B) :
  same_run RA c c' -> (forall a a', RA a a' -> same_run RB (k a) (k' a')) ->
  same_run RB (bind c k) (bind c' k').
Proof.
  intros Hc Hk st st' Hw Hcfg.
  destruct (Hc st st' Hw Hcfg) as [s1 [Ha [Hb [Hw1 Ho]]]]. unfold bind.
  destruct (c st) as [[a|e] st1]; destruct (c' st') as [[a'|e'] st1'];
    cbn [fst snd same_outcome] in *; try contradiction.
  - assert (Hcfg1 : config_kept (self st1) (self st1'))
      by (rewrite Ha, Hb; now apply config_kept_apply).
    destruct (Hk a a' Ho st1 st1' Hw1 Hcfg1) as [s2 [Ha2 [Hb2 [Hw2 Ho2]]]].
    exists (s1 ++ s2)%list. rewrite !apply_sets_app, <- Ha, <- Hb. now repeat split.
  - exists s1. now repeat split.
Qed.

Ltac same_now := intros st st' Hw Hcfg; exists []; cbn; repeat split; auto.

Lemma same_run_ret {A : Type} (RA : A -> A -> Prop) (a a' : A) :
  RA a a' -> same_run RA (ret a : M World A) (ret a').
Proof. intros H. same_now. Qed.

Lemma same_run_raise {A : Type} (RA : A -> A -> Prop) (e : exn) :
  same_run RA (raise e : M World A) (raise e).
Proof. same_now. Qed.

Lemma same_run_lift {A : Type} (r : result A) : same_run eq (lift r : M World A) (lift r).
Proof. same_now. now destruct r. Qed.

Lemma same_run_emit (e : event) : same_run eq (emit e : M World unit) (emit e).
Proof. same_now. Qed.

Lemma same_run_log lvl template args :
  same_run eq (log lvl template args : M World unit) (log lvl template args).
Proof. apply same_run_emit. Qed.

Lemma same_run_print text : same_run eq (print text : M World unit) (print text).
Proof. apply same_run_emit. Qed.

Lemma same_run_get_self : same_run config_kept (get_self : M World Mapper) get_self.
Proof.
  intros st st' Hw Hcfg. exists []. split; [reflexivity|]. split; [reflexivity|].
  split; [exact Hw | exact Hcfg].
Qed.

Lemma same_run_set_pkgs_map (k : string) (v : pyval) :
  same_run eq (set_pkgs_map k v : M World unit) (set_pkgs_map k v).
Proof. intros st st' Hw Hcfg. exists [(k, v)]. cbn. now repeat split. Qed.

Lemma same_run_when (b : bool) (c : M World unit) :
  same_run eq c c -> same_run eq (when b c) (when b c).
Proof. intros H. destruct b; [exact H | now apply same_run_ret]. Qed.

Lemma same_run_exists (path : string) : same_run eq (exists_ env path) (exists_ env path).
Proof. intros st st' Hw Hcfg. exists []. cbn. rewrite Hw. now repeat split. Qed.

Lemma same_run_readlines (path : string) :
  same_run eq (readlines env path) (readlines env path).
Proof.
  intros st st' Hw Hcfg. exists []. unfold readlines, bind, emit. cbn [world self trace].
  rewrite Hw. destruct (open_readlines env (world st) path); cbn; now repeat split.
Qed.

Lemma same_run_run (cmd : list string) : same_run eq (run env cmd) (run env cmd).
Proof.
  intros st st' Hw Hcfg. exists []. unfold run, bind, emit. cbn [world self trace].
  rewrite Hw. destruct (subprocess_run env cmd (world st)) as [out w']. cbn.
  now repeat split.
Qed.

Ltac same_step :=
  first [ apply same_run_log | apply same_run_print | apply same_run_exists
        | apply same_run_readlines | apply same_run_run | apply same_run_lift
        | apply same_run_set_pkgs_map | apply same_run_raise
        | apply same_run_ret; reflexivity ].

Ltac same_bind :=
  apply (same_run_bind eq); [|intros ? ? <-].

Ltac same_bind_as x :=
  apply (same_run_bind eq); [|intros x ? <-].

Lemma same_run_cmd (cmd : list string) : same_run eq (_cmd env cmd) (_cmd env cmd).
Proof.
  unfold _cmd. same_bind; [same_step|]. same_bind; [same_step|].
  same_bind; [same_step|]. same_bind; [apply same_run_when; same_step|]. same_step.
Qed.

Lemma same_run_read (path : string) : same_run eq (_read env path) (_read env path).
Proof.
  unfold _read. same_bind; [same_step|]. same_bind_as b; [same_step|].
  destruct (negb b).
  - same_bind; [same_step|]. same_step.
  - same_bind; [same_step|]. same_bind; [same_step|]. same_step.
Qed.

Lemma same_run_split (data : py_data) (d : string) :
  same_run eq (_split data d : M World _) (_split data d).
Proof.
  unfold _split. destruct data.
  - same_bind; [same_step|]. same_step.
  - same_bind; [same_step|]. same_step.
Qed.

Lemma same_run_install (name version : string) :
  same_run eq (_install env name version) (_install env name version).
Proof.
  unfold _install. same_bind; [apply same_run_cmd|].
  same_bind; [apply same_run_when; same_step|]. same_step.
Qed.

Lemma same_run_get_pkg_path_loop (sufs : list string) (name version : string) :
  same_run eq (_get_pkg_path_loop env sufs name version)
    (_get_pkg_path_loop env sufs name version).
Proof.
  induction sufs as [|suf sufs IH]; cbn [_get_pkg_path_loop].
  - same_bind; [same_step|]. same_step.
  - apply (same_run_bind config_kept); [apply same_run_get_self|].
    intros m m' [_ [_ [Hs _]]]. rewrite Hs.
    same_bind; [same_step|]. same_bind_as b; [same_step|].
    destruct b; [same_step|]. same_bind_as b2; [same_step|].
    destruct b2; [same_step | exact IH].
Qed.

Lemma same_run_get_pkg_path (name version : string) :
  same_run eq (_get_pkg_path env name version) (_get_pkg_path env name version).
Proof.
  unfold _get_pkg_path. same_bind; [same_step|]. same_bind; [same_step|].
  apply same_run_get_pkg_path_loop.
Qed.

Lemma same_run_get_pkg_meta (location : string) :
  same_run eq (_get_pkg_meta env location) (_get_pkg_meta env location).
Proof.
  unfold _get_pkg_meta. same_bind; [same_step|]. same_bind_as b; [same_step|].
  destruct (negb b).
  - same_bind; [same_step|]. same_step.
  - same_bind; [apply same_run_read|]. same_bind; [apply same_run_split|]. same_step.
Qed.

Lemma same_run_get_pkg_top_level (location : string) :
  same_run eq (_get_pkg_top_level env location) (_get_pkg_top_level env location).
Proof.
  unfold _get_pkg_top_level. same_bind; [same_step|]. same_bind_as b; [same_step|].
  destruct (negb b).
  - same_bind; [same_step|]. same_step.
  - same_bind; [apply same_run_read|]. same_step.
Qed.

Lemma same_run_add_pkg_data (name version : string) :
  same_run eq (_add_pkg_data env name version) (_add_pkg_data env name version).
Proof.
  unfold _add_pkg_data. same_bind_as loc; [apply same_run_get_pkg_path|].
  destruct loc as [location|]; [|same_step].
  same_bind; [same_step|]. same_bind; [apply same_run_get_pkg_meta|].
  same_bind; [same_step|]. same_bind; [same_step|].
  same_bind; [apply same_run_get_pkg_top_level|].
  same_bind; [same_step|]. same_step.
Qed.

Lemma same_run_map_loop (items : dict string) :
  same_run eq (map_loop env items) (map_loop env items).
Proof.
  induction items as [|[name version] items IH]; cbn [map_loop]; [same_step|].
  same_bind_as r; [apply same_run_install|].
  destruct (truthy (snd r)).
  - same_bind; [same_step|]. exact IH.
  - same_bind; [apply same_run_add_pkg_data|]. exact IH.
Qed.

Lemma map_then_format (st : State World) :
  map env st = bind (map_until_format env) (fun _ => _format) st.
Proof.
  unfold map, map_until_format, bind.
  destruct (_cmd env _ st) as [[a|e] s1]; [|reflexivity].
  destruct (get_self s1) as [[m|e] s2]; [|reflexivity].
  destruct (_read env (_regs m) s2) as [[lines|e] s3]; [|reflexivity].
  destruct (_split (Iterable lines) "==" s3) as [[reqs|e] s4]; [|reflexivity].
  reflexivity.
Qed.

Lemma same_run_map_until_format :
  same_run eq (map_until_format env) (map_until_format env).
Proof.
  unfold map_until_format. same_bind; [apply same_run_cmd|].
  apply (same_run_bind config_kept); [apply same_run_get_self|].
  intros m m' [Hr _]. rewrite Hr.
  same_bind; [apply same_run_read|]. same_bind; [apply same_run_split|].
  apply same_run_map_loop.
Qed.

Lemma apply_sets_again (s : list (string * pyval)) (m : Mapper) :
  apply_sets s (apply_sets s m) = apply_sets s m.
Proof.
  assert (Hp : _pkgs_map (apply_sets s (apply_sets s m)) = _pkgs_map (apply_sets s m)).
  { rewrite (pkgs_map_apply_sets s (apply_sets s m)), (pkgs_map_apply_sets s m).
    apply sets_on_again. }
  destruct (config_apply_sets s (apply_sets s m)) as [H1 [H2 [H3 H4]]].
  destruct (apply_sets s (apply_sets s m)), (apply_sets s m). cbn in *. congruence.
Qed.

(** X16: a second call in an unchanged world. When [map] has returned
    and is called again on the same instance, in the world the first call
    started in (the manifest and the installed packages as they were), it
    returns the same value, so the same JSON text, and leaves the
    PackageMap as the first call left it. *)
Theorem X16_second_call_same_output (st st1 st2 : State World) (out : pyval) :
  map env st = (Ok out, st1) ->
  self st2 = self st1 ->
  world st2 = world st ->
  fst (map env st2) = Ok out /\ self (snd (map env st2)) = self st1.
Proof.
  intros H Hs Hw.
  pose proof (self_rel_map env config_kept config_kept_refl config_kept_trans
                config_kept_stores st) as Hc.
  rewrite H in Hc. cbn [snd] in Hc. rewrite <- Hs in Hc.
  rewrite map_then_format in H. apply bind_ok_inv in H as [u [s1 [Hp Hf]]].
  rewrite format_run in Hf.
  assert (E1 : s1 = st1) by (now inversion Hf). subst s1.
  destruct (same_run_map_until_format st st2 Hw Hc) as [sets [Ha [Hb [_ Ho]]]].
  rewrite Hp in Ha, Ho. cbn [fst snd] in Ha, Ho.
  rewrite Hs, Ha, apply_sets_again, <- Ha in Hb.
  rewrite map_then_format.
  destruct (map_until_format env st2) as [[u'|e] s3] eqn:Hp2;
    cbn [fst snd same_outcome] in *; [|contradiction].
  rewrite (bind_ok _ _ _ _ _ Hp2).
  rewrite format_run. cbn [fst snd]. rewrite Hb. split; [|reflexivity].
  destruct (if String.eqb (_verbose (self st1)) "v"
            then summaries (_pkgs_map (self st1)) else Ok []) as [infos|e];
    [|discriminate].
  now inversion Hf.
Qed.

End Again.

End ExtraFacts.

(** * The further properties on concrete worlds *)

Module ExtraScenarios.

Import PyStr SplitSpec ResolverSpec RunSpec ExtraSpec Testbed.
Import Mapper.

(** X1 on a manifest line and a line without the delimiter. *)
Lemma X1_witness_two_lines :
  let st := start json_mapper two_pkgs in
  let m := [("alpha", "2.0")] in
  _split (Iterable ["  alpha == 2.0 " ++ nl; "junk"]) "==" st = (Ok m, st)
  /\ st = st
  /\ NoDup (keys m)
  /\ stripped_entries m
  /\ List.length m <= 2.
Proof.
  cbn zeta. split; [reflexivity|].
  exact (ExtraFacts.X1_split_mapping_is_stripped
           ["  alpha == 2.0 " ++ nl; "junk"] "==" (start json_mapper two_pkgs)
           (start json_mapper two_pkgs) [("alpha", "2.0")] eq_refl).
Defined.

(** X2 on the two requirements of the end-to-end scenario: their lines are
    the manifest of that scenario. *)
Lemma X2_witness_alpha_beta :
  let reqs := [("alpha", "2.0"); ("beta", "3.1")] in
  let st := start json_mapper two_pkgs in
  open_readlines disk_env two_pkgs "requirements.txt" = Some (List.map manifest_line reqs)
  /\ _split (Iterable (List.map manifest_line reqs)) "==" st = (Ok reqs, st).
Proof.
  cbn zeta. split; [reflexivity|].
  apply (ExtraFacts.X2_manifest_round_trip [("alpha", "2.0"); ("beta", "3.1")]
           (start json_mapper two_pkgs)).
  - cbn. repeat constructor; cbn; intuition discriminate.
  - intros kv [<-|[<-|[]]]; repeat split.
Defined.

(** X3 on the manifest of the end-to-end scenario, whose lines come back
    with their newlines, and on a disk without it. *)
Lemma X3_witness_manifest :
  fst (_read disk_env "requirements.txt" (start json_mapper two_pkgs)) =
    Ok ["alpha==2.0" ++ nl; "beta==3.1" ++ nl]
  /\ fst (_read disk_env "requirements.txt" (start json_mapper both_variants)) =
       Raise (Exception "File not found in the path: requirements.txt").
Proof.
  split.
  - exact (proj1 (proj2 (ExtraFacts.X3_read_outcomes disk_env "requirements.txt"
                           (start json_mapper two_pkgs))
                    ["alpha==2.0" ++ nl; "beta==3.1" ++ nl] eq_refl eq_refl)).
  - exact (proj1 (proj1 (ExtraFacts.X3_read_outcomes disk_env "requirements.txt"
                           (start json_mapper both_variants)) eq_refl)).
Defined.

(** X6 on alpha, whose dist-info directory is the one that exists. *)
Lemma X6_witness_alpha :
  has_char "-" "alpha" = false
  /\ fst (_get_pkg_path disk_env "alpha" "2.0" (start json_mapper two_pkgs)) =
       Ok (Some "/sp/alpha-2.0.dist-info").
Proof.
  split; [reflexivity|].
  exact (ExtraFacts.X6_resolver_without_hyphen disk_env "alpha" "2.0"
           (start json_mapper two_pkgs) eq_refl).
Defined.

(** X8 on a disk without any directory of my-pkg 9.9. *)
Lemma X8_witness_not_installed :
  exists evs,
    _add_pkg_data disk_env "my-pkg" "9.9" (start json_mapper both_variants) =
      (Ok tt, {| self := json_mapper; world := both_variants; trace := [] ++ evs |})
    /\ probes evs = ["/sp/my-pkg-9.9.egg-info"; "/sp/my_pkg-9.9.egg-info";
                     "/sp/my-pkg-9.9.dist-info"; "/sp/my_pkg-9.9.dist-info"]
    /\ In (not_found_logged "my-pkg" "9.9") evs.
Proof.
  apply (ExtraFacts.X8_unlocated_requirement_stores_nothing disk_env "my-pkg" "9.9"
           (start json_mapper both_variants)).
  intros p Hp. vm_compute in Hp.
  destruct Hp as [<-|[<-|[<-|[<-|[]]]]]; reflexivity.
Defined.

(** X9 on an instance that has mapped the end-to-end scenario and meets
    beta again: the record made for beta goes under Beta, at Beta's place. *)
Lemma X9_witness_beta_again :
  let st := snd (map disk_env (start native_mapper two_pkgs)) in
  let pm' := _pkgs_map (self (snd (_add_pkg_data disk_env "beta" "3.1" st))) in
  keys (_pkgs_map (self st)) = ["alpha"; "Beta"]
  /\ keys pm' = ["alpha"; "Beta"]
  /\ dict_get pm' "alpha" = dict_get (_pkgs_map (self st)) "alpha".
Proof.
  cbn zeta. split; [vm_compute; reflexivity|].
  destruct (ExtraFacts.X9_record_replaces_in_place disk_env "beta" "3.1"
              "/sp/beta-3.1.dist-info"
              ["Metadata-Version: 2.1" ++ nl; "Name: Beta" ++ nl; "Version: 3.1" ++ nl]
              None (snd (map disk_env (start native_mapper two_pkgs))))
    as [_ [Hin [_ Hother]]].
  - vm_compute; reflexivity.
  - vm_compute; reflexivity.
  - vm_compute; reflexivity.
  - vm_compute; reflexivity.
  - split.
    + rewrite Hin; [vm_compute; reflexivity|]. vm_compute. intuition.
    + apply Hother. vm_compute. discriminate.
Defined.

(** X10 on the end-to-end scenario: the upgrade, alpha, beta. *)
Lemma X10_witness_two_installs :
  let st := start json_mapper two_pkgs in
  filter is_run (trace (snd (map disk_env st))) =
    [EvRun upgrade_cmd; EvRun ["pip"; "install"; "alpha==2.0"];
     EvRun ["pip"; "install"; "beta==3.1"]].
Proof.
  cbn zeta.
  destruct (ExtraFacts.X10_map_installs_in_manifest_order disk_env
              ["alpha==2.0" ++ nl; "beta==3.1" ++ nl] (start json_mapper two_pkgs)
              eq_refl eq_refl) as [_ [k [_ [Hr Hk]]]].
  assert (Hout : exists out, fst (map disk_env (start json_mapper two_pkgs)) = Ok out)
    by (eexists; vm_compute; reflexivity).
  destruct Hout as [out Hout]. rewrite (Hk out Hout) in Hr. exact Hr.
Defined.

(** X11 on a disk without requirements.txt. *)
Lemma X11_witness_no_manifest :
  let st := start json_mapper both_variants in
  fst (map disk_env st) = Raise (Exception "File not found in the path: requirements.txt")
  /\ self (snd (map disk_env st)) = json_mapper
  /\ world (snd (map disk_env st)) = both_variants
  /\ filter is_run (trace (snd (map disk_env st))) = [EvRun upgrade_cmd].
Proof.
  exact (ExtraFacts.X11_missing_manifest_installs_nothing disk_env
           (start json_mapper both_variants) eq_refl).
Defined.

(** X12 on a new instance, on the disk where gamma lacks its METADATA and
    [map] raises. *)
Lemma X12_witness_new_instance :
  let st := start json_mapper no_metadata in
  Forall made_by_map (_pkgs_map (self (snd (map disk_env st))))
  /\ exists out, _format (snd (map disk_env st)) = (Ok out, snd (map disk_env st)).
Proof.
  exact (ExtraFacts.X12_map_leaves_formattable_records disk_env
           (start json_mapper no_metadata) (Forall_nil _)).
Defined.

(** X13 on the state the end-to-end scenario ends in. *)
Lemma X13_witness_alpha_beta :
  let st := snd (map disk_env (start native_mapper two_pkgs)) in
  exists infos,
    PyList [alpha_summary; beta_summary] = PyList infos
    /\ names_of infos = [Ok (PyStr "alpha"); Ok (PyStr "Beta")].
Proof.
  cbn zeta.
  destruct (ExtraFacts.X13_format_lists_names_in_order
              (snd (map disk_env (start native_mapper two_pkgs)))
              (snd (map disk_env (start native_mapper two_pkgs)))
              (PyList [alpha_summary; beta_summary])) as [_ [infos [Ho Hn]]].
  - vm_compute; reflexivity.
  - exists infos. split; [exact Ho|]. exact Hn.
Defined.

(** X14 on the disk where pip fails for beta: the one entry of the
    PackageMap after the call is the one for alpha, whose install was
    clean; no entry is there for beta. *)
Lemma X14_witness_beta_fails :
  let st := start native_mapper beta_fails in
  keys (_pkgs_map (self (snd (map disk_env st)))) = ["alpha"]
  /\ install_stderr disk_env beta_fails "beta" "3.1" <> EmptyString
  /\ forall e,
       In e (_pkgs_map (self (snd (map disk_env st)))) ->
       In e (_pkgs_map (self st))
       \/ recorded_in_run disk_env "/sp" [("alpha", "2.0"); ("beta", "3.1")] beta_fails e.
Proof.
  cbn zeta. split; [vm_compute; reflexivity|]. split; [vm_compute; discriminate|].
  exact (ExtraFacts.X14_added_records_come_from_clean_installs disk_env
           ["alpha==2.0" ++ nl; "beta==3.1" ++ nl] (start native_mapper beta_fails)
           eq_refl eq_refl).
Defined.

(** X15 on a disk without requirements.txt, and the stdout of the script
    on the end-to-end scenario. *)
Lemma X15_witness_no_manifest :
  let e := Example.script disk_env "/sp" both_variants in
  (Example.rc e = 1%Z
   /\ Example.reported e = Some (Exception "File not found in the path: requirements.txt")
   /\ Example.stdout e = []
   /\ _pkgs_map (self (Example.final e)) = [])
  /\ Example.stdout (Example.script disk_env "/sp" two_pkgs) =
       [PyStr "name: $alpha"; PyStr "version: $2.0";
        PyStr "name: $beta"; PyStr "version: $3.1";
        PyStr (Json.dumps (PyList [alpha_summary; beta_summary]))].
Proof.
  cbn zeta. split; [|vm_compute; reflexivity].
  exact (proj2 (proj2 (ExtraFacts.X15_script_exit_code disk_env "/sp" both_variants))
           eq_refl).
Defined.

(** X16 on the end-to-end scenario: the second call prints what the first
    printed. *)
Lemma X16_witness_second_call :
  let st1 := snd (map disk_env (start json_mapper two_pkgs)) in
  fst (map disk_env st1) = Ok (PyStr (Json.dumps (PyList [alpha_summary; beta_summary])))
  /\ self (snd (map disk_env st1)) = self st1.
Proof.
  cbn zeta.
  apply (ExtraFacts.X16_second_call_same_output disk_env (start json_mapper two_pkgs)
           (snd (map disk_env (start json_mapper two_pkgs)))
           (snd (map disk_env (start json_mapper two_pkgs)))).
  - vm_compute; reflexivity.
  - reflexivity.
  - vm_compute; reflexivity.
Defined.

End ExtraScenarios.
